(** * silx.io.specfileh5: an h5py-like view of a SpecFile

    Shallow embedding of [silx/io/specfileh5.py] and the properties of its
    path grammar, attribute table, dataset builders, MCA de-multiplexing,
    date conversion and group traversal.

    Python strings are modelled as [string] (8-bit characters), Python
    exceptions as the [Raise] branch of [result], Python [None] as [None]
    of an [option]. *)

From Stdlib Require Import String Ascii List Bool Arith ZArith Lia.
From Stdlib Require Import DecimalString DecimalNat.
From Stdlib Require Import SpecFloat.
Import ListNotations.
Open Scope string_scope.
Open Scope list_scope.

Set Implicit Arguments.

(** ** Exceptions *)

Inductive exn : Type :=
| KeyError
| ValueError
| TypeError
| AssertionError
| ZeroDivisionError
| IndexError
| AttributeError.

Inductive result (A : Type) : Type :=
| Ok (a : A)
| Raise (e : exn).
Arguments Ok {A} a.
Arguments Raise {A} e.

Definition bind {A B : Type} (m : result A) (f : A -> result B) : result B :=
  match m with
  | Ok a => f a
  | Raise e => Raise e
  end.

Notation "'let!' x ':=' m 'in' k" := (bind m (fun x => k))
  (at level 10, x pattern, m at level 100, k at level 200).

Definition assert (b : bool) : result unit :=
  if b then Ok tt else Raise AssertionError.

(** ** Strings *)

Definition LF : ascii := "010"%char.

Fixpoint startswith (s prefix : string) : bool :=
  match prefix, s with
  | EmptyString, _ => true
  | String p prefix', String c s' => Ascii.eqb c p && startswith s' prefix'
  | String _ _, EmptyString => false
  end.

Fixpoint rev_string (acc s : string) : string :=
  match s with
  | EmptyString => acc
  | String c s' => rev_string (String c acc) s'
  end.

Definition endswith (s suffix : string) : bool :=
  startswith (rev_string EmptyString s) (rev_string EmptyString suffix).

(** [s.rstrip("/")]: every trailing slash is removed. *)
Fixpoint rstrip_slash (s : string) : string :=
  match s with
  | EmptyString => EmptyString
  | String c s' =>
      match rstrip_slash s' with
      | EmptyString => if Ascii.eqb c "/" then EmptyString else String c EmptyString
      | t => String c t
      end
  end.

(** ["%d" % i] for a non-negative integer. *)
Definition str_of_nat (n : nat) : string := NilEmpty.string_of_uint (Nat.to_uint n).

Definition is_digit (c : ascii) : bool :=
  (48 <=? nat_of_ascii c)%nat && (nat_of_ascii c <=? 57)%nat.

(** [int(s)] for a string of decimal digits. *)
Definition int_of_digits (s : string) : nat :=
  (fix go (acc : nat) (s : string) : nat :=
     match s with
     | EmptyString => acc
     | String c s' => go (10 * acc + (nat_of_ascii c - 48))%nat s'
     end) 0%nat s.

Fixpoint str_in (x : string) (l : list string) : bool :=
  match l with
  | [] => false
  | y :: l' => String.eqb x y || str_in x l'
  end.

(** Dictionaries with string keys, in insertion order. *)
Definition dict (V : Type) : Type := list (string * V).

Fixpoint dict_get {V : Type} (d : dict V) (k : string) : option V :=
  match d with
  | [] => None
  | (k', v) :: d' => if String.eqb k k' then Some v else dict_get d' k
  end.

Definition dict_has {V : Type} (d : dict V) (k : string) : bool :=
  match dict_get d k with Some _ => true | None => false end.

(** ** Regular expressions

    The fragment of Python's [re] syntax the module uses: literal
    characters, character classes, concatenation, alternation, [r?],
    [[class]*], [[class]+], capture groups and [$].  [run] lists every way
    a pattern can match at the start of the subject, most preferred first
    (greedy quantifiers try the longest repetition first, alternatives are
    tried left to right), each with the unconsumed rest of the subject and
    the captured groups; [re.match] returns the first one. *)

Inductive regex : Type :=
| Chr (c : ascii)
| Cls (p : ascii -> bool)
| Seq (r1 r2 : regex)
| Alt (r1 r2 : regex)
| Opt (r : regex)
| Star (p : ascii -> bool)
| Plus (p : ascii -> bool)
| Grp (g : string) (r : regex)
| Dollar.

Definition captures : Type := dict string.

(** [$] matches at the end of the subject and just before a line feed that
    ends the subject. *)
Definition is_end (s : string) : bool :=
  match s with
  | EmptyString => true
  | String c EmptyString => Ascii.eqb c LF
  | _ => false
  end.

Fixpoint star (p : ascii -> bool) (s : string) : list string :=
  match s with
  | String c s' => if p c then star p s' ++ [s] else [s]
  | EmptyString => [s]
  end.

Definition consumed (s rest : string) : string :=
  substring 0 (String.length s - String.length rest) s.

Fixpoint run (r : regex) (s : string) : list (string * captures) :=
  match r with
  | Chr c =>
      match s with
      | String c' s' => if Ascii.eqb c c' then [(s', [])] else []
      | EmptyString => []
      end
  | Cls p =>
      match s with
      | String c' s' => if p c' then [(s', [])] else []
      | EmptyString => []
      end
  | Seq r1 r2 =>
      flat_map (fun m1 =>
                  map (fun m2 => (fst m2, snd m1 ++ snd m2)) (run r2 (fst m1)))
               (run r1 s)
  | Alt r1 r2 => run r1 s ++ run r2 s
  | Opt r1 => run r1 s ++ [(s, [])]
  | Star p => map (fun rest => (rest, [])) (star p s)
  | Plus p =>
      match s with
      | String c' s' => if p c' then map (fun rest => (rest, [])) (star p s') else []
      | EmptyString => []
      end
  | Grp g r1 => map (fun m => (fst m, (g, consumed s (fst m)) :: snd m)) (run r1 s)
  | Dollar => if is_end s then [(s, [])] else []
  end.

(** [re.match(pattern, s)]: the match object (its groups) or [None]. *)
Definition re_match (r : regex) (s : string) : option captures :=
  match run r s with
  | [] => None
  | m :: _ => Some (snd m)
  end.

(** Truth value of [pattern.match(s)]. *)
Definition matches (r : regex) (s : string) : bool :=
  match re_match r s with Some _ => true | None => false end.

(** [m.group(g)]; [None] when the group did not take part in the match. *)
Definition group (m : captures) (g : string) : option string := dict_get m g.

Fixpoint lit (s : string) : regex :=
  match s with
  | EmptyString => Opt (Cls (fun _ => false))
  | String c EmptyString => Chr c
  | String c s' => Seq (Chr c) (lit s')
  end.

Definition not_slash (c : ascii) : bool := negb (Ascii.eqb c "/").
Definition not_digit (c : ascii) : bool := negb (is_digit c).
Definition not_newline (c : ascii) : bool := negb (Ascii.eqb c LF).

Declare Scope regex_scope.
Delimit Scope regex_scope with re.
Notation "a ;; b" := (Seq a b) (at level 60, right associativity) : regex_scope.
Notation "'L' s" := (lit s) (at level 10, s at level 9) : regex_scope.
(** [[0-9]+] and [[^/]+] *)
Notation "'D+'" := (Plus is_digit) : regex_scope.
Notation "'NS+'" := (Plus not_slash) : regex_scope.
(** [/?$] *)
Notation "'/?$'" := (Seq (Opt (Chr "/")) Dollar) : regex_scope.
Open Scope regex_scope.

(** *** Patterns for group keys *)

Definition root_pattern := L"/" ;; Dollar.
Definition scan_pattern := L"/" ;; D+ ;; L"." ;; D+ ;; /?$.
Definition instrument_pattern :=
  L"/" ;; D+ ;; L"." ;; D+ ;; L"/instrument" ;; /?$.
Definition positioners_group_pattern :=
  L"/" ;; D+ ;; L"." ;; D+ ;; L"/instrument/positioners" ;; /?$.
Definition measurement_group_pattern :=
  L"/" ;; D+ ;; L"." ;; D+ ;; L"/measurement" ;; /?$.
Definition measurement_mca_group_pattern :=
  L"/" ;; D+ ;; L"." ;; D+ ;; L"/measurement/mca_" ;; D+ ;; /?$.
Definition instrument_mca_group_pattern :=
  L"/" ;; D+ ;; L"." ;; D+ ;; L"/instrument/mca_" ;; D+ ;; /?$.

(** *** Link to group *)

Definition measurement_mca_info_pattern :=
  L"/" ;; D+ ;; L"." ;; D+ ;; L"/measurement/mca_" ;; Grp "1" D+ ;; L"/info" ;; /?$.

(** *** Patterns for dataset keys *)

Definition title_pattern := L"/" ;; D+ ;; L"." ;; D+ ;; L"/title" ;; Dollar.
Definition start_time_pattern :=
  L"/" ;; D+ ;; L"." ;; D+ ;; L"/start_time" ;; Dollar.
Definition positioners_data_pattern :=
  L"/" ;; D+ ;; L"." ;; D+ ;; L"/instrument/positioners/" ;; Grp "1" NS+ ;; Dollar.
Definition measurement_data_pattern :=
  L"/" ;; D+ ;; L"." ;; D+ ;; L"/measurement/" ;; Grp "1" NS+ ;; Dollar.
Definition instrument_mca_data_pattern :=
  L"/" ;; D+ ;; L"." ;; D+ ;; L"/instrument/mca_" ;; Grp "1" D+ ;; L"/data" ;; Dollar.
Definition instrument_mca_calib_pattern :=
  L"/" ;; D+ ;; L"." ;; D+ ;; L"/instrument/mca_" ;; D+ ;; L"/calibration" ;; Dollar.
Definition instrument_mca_chann_pattern :=
  L"/" ;; D+ ;; L"." ;; D+ ;; L"/instrument/mca_" ;; D+ ;; L"/channels" ;; Dollar.
Definition instrument_mca_preset_t_pattern :=
  L"/" ;; D+ ;; L"." ;; D+ ;; L"/instrument/mca_" ;; D+ ;; L"/preset_time" ;; Dollar.
Definition instrument_mca_elapsed_t_pattern :=
  L"/" ;; D+ ;; L"." ;; D+ ;; L"/instrument/mca_" ;; D+ ;; L"/elapsed_time" ;; Dollar.
Definition instrument_mca_live_t_pattern :=
  L"/" ;; D+ ;; L"." ;; D+ ;; L"/instrument/mca_" ;; D+ ;; L"/live_time" ;; Dollar.

(** *** Links to dataset *)

Definition measurement_mca_data_pattern :=
  L"/" ;; D+ ;; L"." ;; D+ ;; L"/measurement/mca_" ;; Grp "1" D+ ;; L"/data" ;; Dollar.
Definition measurement_mca_info_dataset_pattern :=
  L"/" ;; D+ ;; L"." ;; D+ ;; L"/measurement/mca_" ;; D+ ;; L"/info/" ;; Grp "1" NS+ ;; Dollar.

(** ** Path classifiers *)

Fixpoint _bulk_match (string_ : string) (list_of_patterns : list regex) : bool :=
  match list_of_patterns with
  | [] => false
  | pattern :: rest => if matches pattern string_ then true else _bulk_match string_ rest
  end.

Definition is_group (name : string) : bool :=
  _bulk_match name
    [root_pattern; scan_pattern; instrument_pattern;
     positioners_group_pattern; measurement_group_pattern;
     measurement_mca_group_pattern; instrument_mca_group_pattern].

Definition is_dataset (name : string) : bool :=
  if matches measurement_mca_group_pattern name then false
  else
    _bulk_match name
      [title_pattern; start_time_pattern;
       positioners_data_pattern; measurement_data_pattern;
       instrument_mca_data_pattern; instrument_mca_calib_pattern;
       instrument_mca_chann_pattern;
       instrument_mca_preset_t_pattern; instrument_mca_elapsed_t_pattern;
       instrument_mca_live_t_pattern].

Definition is_link_to_group (name : string) : bool :=
  if matches measurement_mca_info_pattern name then true else false.

Definition is_link_to_dataset (name : string) : bool :=
  _bulk_match name
    [measurement_mca_data_pattern; measurement_mca_info_dataset_pattern].

(** ** Attribute table *)

Definition attrs : Type := dict string.

(** The dictionary literal of [_get_attrs_dict], in the order it is written
    (the order a Python 3.7+ dictionary is iterated in). *)
Definition pattern_attrs : list (regex * attrs) :=
  [ (root_pattern, [("NX_class", "NXroot")]);
    (scan_pattern, [("NX_class", "NXentry")]);
    (title_pattern, []);
    (start_time_pattern, []);
    (instrument_pattern, [("NX_class", "NXinstrument")]);
    (positioners_group_pattern, [("NX_class", "NXcollection")]);
    (positioners_data_pattern, []);
    (instrument_mca_group_pattern, [("NX_class", "NXdetector")]);
    (instrument_mca_data_pattern, [("interpretation", "spectrum")]);
    (instrument_mca_calib_pattern, []);
    (instrument_mca_chann_pattern, []);
    (measurement_group_pattern, [("NX_class", "NXcollection")]);
    (measurement_data_pattern, []);
    (measurement_mca_group_pattern, []);
    (measurement_mca_data_pattern, [("interpretation", "spectrum")]);
    (measurement_mca_info_pattern, [("NX_class", "NXdetector")]) ].

(** The loop returns at the first matching pattern; when it ends without a
    match the function returns nothing, that is [None]. *)
Definition _get_attrs_dict (name : string) : option attrs :=
  (fix loop (l : list (regex * attrs)) : option attrs :=
     match l with
     | [] => None
     | (pattern, a) :: l' => if matches pattern name then Some a else loop l'
     end) pattern_attrs.

(** ** Name decomposition *)

Definition _get_scan_key_in_name (item_name : string) : option string :=
  match re_match (L"/" ;; Grp "1" (D+ ;; L"." ;; D+)) item_name with
  | None => None
  | Some scan_match => group scan_match "1"
  end.

Definition _get_mca_index_in_name (item_name : string) : option nat :=
  match re_match (L"/" ;; Star not_newline ;; L"/mca_" ;; Grp "1" D+ ;; Star not_digit)
                 item_name with
  | None => None
  | Some mca_match => option_map int_of_digits (group mca_match "1")
  end.

Definition _get_motor_in_name (item_name : string) : option string :=
  match re_match positioners_data_pattern item_name with
  | None => None
  | Some motor_match => group motor_match "1"
  end.

Definition _get_data_column_label_in_name (item_name : string) : option string :=
  if matches measurement_mca_group_pattern item_name then None
  else
    match re_match measurement_data_pattern item_name with
    | None => None
    | Some data_column_match => group data_column_match "1"
    end.

(** ** Arrays

    A numpy array is its dtype (kind character and item size in bytes), its
    shape and its elements in row-major order.  Floating-point elements are
    IEEE 754 values ([spec_float]). *)

Definition float : Type := spec_float.

Definition inf : float := S754_infinity false.

Inductive kind : Type :=
| Kb  (* boolean *)
| Ki  (* signed integer *)
| Ku  (* unsigned integer *)
| Kf  (* floating point *)
| Kc  (* complex *)
| Km  (* timedelta *)
| KM  (* datetime *)
| KO  (* object *)
| KS  (* byte string *)
| KU  (* unicode *)
| KV. (* void *)

Record dtype : Type := { dt_kind : kind; dt_itemsize : nat }.

Definition float32 : dtype := {| dt_kind := Kf; dt_itemsize := 4 |}.
Definition float64 : dtype := {| dt_kind := Kf; dt_itemsize := 8 |}.
Definition int64 : dtype := {| dt_kind := Ki; dt_itemsize := 8 |}.
Definition bool_ : dtype := {| dt_kind := Kb; dt_itemsize := 1 |}.

Inductive scalar : Type :=
| SFloat (x : float)
| SInt (z : Z)
| SBool (b : bool)
| SBytes (s : string)
| SOther.

Record ndarray : Type :=
  { nd_dtype : dtype; nd_shape : list nat; nd_data : list scalar }.

(** Conversion of one element to IEEE 754 binary32, rounding to nearest
    even. *)
Definition to_float32 (v : scalar) : scalar :=
  match v with
  | SFloat (S754_finite s m e) =>
      SFloat (binary_normalize 24 128 (cond_Zopp s (Zpos m)) e s)
  | SFloat x => SFloat x
  | SInt z => SFloat (binary_normalize 24 128 z 0 false)
  | SBool b => SFloat (binary_normalize 24 128 (if b then 1 else 0) 0 false)
  | other => other
  end.

(** [numpy.asarray(array, dtype=numpy.float32)] *)
Definition asarray_float32 (a : ndarray) : ndarray :=
  {| nd_dtype := float32; nd_shape := nd_shape a; nd_data := map to_float32 (nd_data a) |}.

(** What the builders hand to [SpecFileH5Dataset]. *)
Inductive array_like : Type :=
| PyStr (s : string)
| PyBytes (s : string)
| PyFloat (x : float)
| PyInt (z : Z)
| PyBool (b : bool)
| NdArray (a : ndarray).

(** [numpy.array(x)] for a scalar [x]: a 0-dimensional array. *)
Definition numpy_array (x : array_like) : ndarray :=
  match x with
  | PyStr s =>
      {| nd_dtype := {| dt_kind := KU; dt_itemsize := 4 * Nat.max 1 (String.length s) |};
         nd_shape := []; nd_data := [SBytes s] |}
  | PyBytes s =>
      {| nd_dtype := {| dt_kind := KS; dt_itemsize := Nat.max 1 (String.length s) |};
         nd_shape := []; nd_data := [SBytes s] |}
  | PyFloat x => {| nd_dtype := float64; nd_shape := []; nd_data := [SFloat x] |}
  | PyInt z => {| nd_dtype := int64; nd_shape := []; nd_data := [SInt z] |}
  | PyBool b => {| nd_dtype := bool_; nd_shape := []; nd_data := [SBool b] |}
  | NdArray a => a
  end.

(** [numpy.array(rows)] for a list of 1-D float arrays of equal length. *)
Definition array_of_rows (rows : list (list float)) : ndarray :=
  {| nd_dtype := float64;
     nd_shape := [length rows; match rows with [] => 0 | r :: _ => length r end]%nat;
     nd_data := map SFloat (concat rows) |}.

(** ** The backing store

    [SpecFile] and its scans come from [silx.io.specfile]; the module reads
    them through the attributes and methods below. *)

Record MCA : Type :=
  { spectra : list (list float);   (* [len(mca)], [mca[i]] *)
    calibration : array_like;
    channels : array_like }.

Record Scan : Type :=
  { scan_header : dict string;
    file_header : dict string;
    labels : list string;
    data_shape : nat * nat;        (* [data.shape] *)
    motor_names : list string;
    mca : MCA;
    mca_header : dict string;
    data_column_by_name : string -> result ndarray;
    motor_position_by_name : string -> result float }.

Record SpecFile : Type :=
  { sf_filename : string;
    sf_scans : list (string * Scan) }.

Definition sf_keys (sf : SpecFile) : list string := map fst (sf_scans sf).

(** [key in sf] *)
Definition sf_contains (sf : SpecFile) (key : option string) : bool :=
  match key with
  | Some k => dict_has (sf_scans sf) k
  | None => false
  end.

(** [sf[key]] *)
Definition sf_getitem (sf : SpecFile) (key : option string) : result Scan :=
  match key with
  | Some k =>
      match dict_get (sf_scans sf) k with
      | Some scan => Ok scan
      | None => Raise KeyError
      end
  | None => Raise TypeError
  end.

(** [d[key]] on a header dictionary *)
Definition header_get (d : dict string) (key : string) : result string :=
  match dict_get d key with
  | Some v => Ok v
  | None => Raise KeyError
  end.

(** ** Integer helpers *)

Definition py_mod (a b : nat) : result nat :=
  if (b =? 0)%nat then Raise ZeroDivisionError else Ok (a mod b)%nat.

Definition py_floordiv (a b : nat) : result nat :=
  if (b =? 0)%nat then Raise ZeroDivisionError else Ok (a / b)%nat.

(** [range(start, stop, step)] for non-negative arguments *)
Definition py_range (start stop step : nat) : result (list nat) :=
  if (step =? 0)%nat then Raise ValueError
  else Ok (map (fun j => start + j * step)%nat
               (seq 0 ((stop - start + step - 1) / step))).

Definition _mca_analyser_in_scan (sf : SpecFile) (scan_key : option string)
           (mca_analyser_index : nat) : result bool :=
  if negb (sf_contains sf scan_key) then Raise KeyError
  else
    let! scan := sf_getitem sf scan_key in
    let number_of_MCA_spectra := length (spectra (mca scan)) in
    let number_of_data_lines := fst (data_shape scan) in
    let! r := py_mod number_of_MCA_spectra number_of_data_lines in
    let! _ := assert (r =? 0)%nat in
    let! number_of_MCA_analysers := py_floordiv number_of_MCA_spectra number_of_data_lines in
    Ok (mca_analyser_index <? number_of_MCA_analysers)%nat.

Definition _motor_in_scan (sf : SpecFile) (scan_key : option string)
           (motor_name : string) : result bool :=
  if negb (sf_contains sf scan_key) then Raise KeyError
  else
    let! scan := sf_getitem sf scan_key in
    Ok (str_in motor_name (motor_names scan)).

Definition _column_label_in_scan (sf : SpecFile) (scan_key : option string)
           (column_label : string) : result bool :=
  if negb (sf_contains sf scan_key) then Raise KeyError
  else
    let! scan := sf_getitem sf scan_key in
    Ok (str_in column_label (labels scan)).

(** ** Date conversion *)

Definition months : list string :=
  ["Jan"; "Feb"; "Mar"; "Apr"; "Jun"; "Jul";
   "Aug"; "Sep"; "Oct"; "Nov"; "Dec"].

Definition days : list string := ["Mon"; "Tue"; "Wed"; "Thu"; "Fri"; "Sat"; "Sun"].

(** ['|'.join(l)] as a pattern *)
Fixpoint alts (l : list string) : regex :=
  match l with
  | [] => lit EmptyString
  | [x] => L x
  | x :: l' => Alt (L x) (alts l')
  end.

Definition in_range (lo hi : ascii) (c : ascii) : bool :=
  (nat_of_ascii lo <=? nat_of_ascii c)%nat && (nat_of_ascii c <=? nat_of_ascii hi)%nat.

Definition sign_char (c : ascii) : bool := Ascii.eqb c "+" || Ascii.eqb c "-".

Definition days_rx := Grp "day" (alts days).
Definition months_rx := Grp "month" (alts months).
Definition year_rx := Grp "year" (Cls is_digit ;; Cls is_digit ;; Cls is_digit ;; Cls is_digit).
Definition day_nb_rx := Grp "day_nb" (Cls (in_range "0" "3") ;; Cls is_digit).
Definition month_nb_rx := Grp "month_nb" (Cls (in_range "0" "1") ;; Cls is_digit).
Definition hh_rx := Grp "hh" (Cls (in_range "0" "2") ;; Cls is_digit).
Definition mm_rx := Grp "mm" (Cls (in_range "0" "5") ;; Cls is_digit).
Definition ss_rx := Grp "ss" (Cls (in_range "0" "5") ;; Cls is_digit).
Definition tz_rx :=
  Opt (Grp "tz" (Cls sign_char ;; Cls is_digit ;; Cls is_digit ;; L":" ;;
                 Cls is_digit ;; Cls is_digit)).

(** The two date templates, after [format]. *)
Definition re_tpls : list regex :=
  [ days_rx ;; L" " ;; months_rx ;; L" " ;; day_nb_rx ;; L" " ;;
    hh_rx ;; L":" ;; mm_rx ;; L":" ;; ss_rx ;; tz_rx ;; L" " ;; year_rx;
    days_rx ;; L" " ;; year_rx ;; L"/" ;; month_nb_rx ;; L"/" ;; day_nb_rx ;; L" " ;;
    hh_rx ;; L":" ;; mm_rx ;; L":" ;; ss_rx ;; tz_rx ].

(** [l.index(x)] *)
Fixpoint list_index (x : string) (l : list string) : result nat :=
  match l with
  | [] => Raise ValueError
  | y :: l' => if String.eqb y x then Ok 0%nat
               else let! i := list_index x l' in Ok (S i)
  end.

(** ['{0:02d}'.format(n)] *)
Definition format_02d (n : nat) : string :=
  if (n <? 10)%nat then ("0" ++ str_of_nat n)%string else str_of_nat n.

(** [d[key]] on a [groupdict] whose pattern declares the group [key] *)
Definition grp_item (grp_d : captures) (key : string) : string :=
  match group grp_d key with Some v => v | None => EmptyString end.

Definition spec_date_to_iso8601 (date : string) (zone : option string) : result string :=
  let grp_d :=
    (fix loop (l : list regex) : option captures :=
       match l with
       | [] => None
       | full_rx :: l' =>
           match re_match full_rx date with
           | Some m => Some m
           | None => loop l'
           end
       end) re_tpls in
  match grp_d with
  | None => Raise ValueError
  | Some grp_d =>
      let year := grp_item grp_d "year" in
      let! month :=
        match group grp_d "month_nb" with
        | Some month => Ok month
        | None =>
            let! i := list_index (grp_item grp_d "month") months in
            Ok (format_02d (i + 1))
        end in
      let day := grp_item grp_d "day_nb" in
      let tz := match group grp_d "tz" with Some tz => Some tz | None => zone end in
      let time :=
        (grp_item grp_d "hh" ++ ":" ++ grp_item grp_d "mm" ++ ":" ++ grp_item grp_d "ss")%string in
      Ok (year ++ "-" ++ month ++ "-" ++ day ++ "T" ++ time
               ++ match tz with Some tz => tz | None => EmptyString end)%string
  end.

(** ** Datasets *)

Inductive dataset_class : Type := ClsDataset | ClsLinkToDataset.

Record Dataset : Type :=
  { ds_class : dataset_class;
    ds_array : ndarray;
    ds_name : string;
    ds_attrs : option attrs }.

(** [SpecFileH5Dataset.__new__(cls, array_like, name)] *)
Definition SpecFileH5Dataset (cls : dataset_class) (array_like : array_like)
           (name : string) : result Dataset :=
  let array_like :=
    match array_like with
    | PyStr s => PyBytes s      (* numpy.string_ *)
    | other => other
    end in
  let array :=
    match array_like with
    | NdArray a => a
    | other => numpy_array other
    end in
  let data_kind := dt_kind (nd_dtype array) in
  let! obj :=
    match data_kind with
    | KS => Ok array
    | KU => Ok array
    | Ki | Ku | Kf => Ok (asarray_float32 array)
    | _ => Raise TypeError
    end in
  Ok {| ds_class := cls; ds_array := obj; ds_name := name;
        ds_attrs := _get_attrs_dict name |}.

(** ** MCA de-multiplexing *)

(** The loop body [list_of_1D_arrays.append(mca_data[i])] over the indices
    of the range. *)
Fixpoint collect_spectra (mca_data : list (list float)) (indices : list nat)
  : result (list (list float)) :=
  match indices with
  | [] => Ok []
  | i :: indices' =>
      match nth_error mca_data i with
      | None => Raise IndexError
      | Some spectrum =>
          let! rest := collect_spectra mca_data indices' in Ok (spectrum :: rest)
      end
  end.

(** The 2-D array returned is given by its rows. *)
Definition _demultiplex_mca (scan : Scan) (analyser_index : nat)
  : result (list (list float)) :=
  let mca_data := spectra (mca scan) in
  let number_of_MCA_spectra := length mca_data in
  let number_of_scan_data_lines := fst (data_shape scan) in
  let! r := py_mod number_of_MCA_spectra number_of_scan_data_lines in
  let! _ := assert (r =? 0)%nat in
  let! number_of_analysers := py_floordiv number_of_MCA_spectra number_of_scan_data_lines in
  let! indices := py_range analyser_index number_of_MCA_spectra number_of_analysers in
  collect_spectra mca_data indices.

(** ** Header parsing *)

Fixpoint char_in (c : ascii) (chars : string) : bool :=
  match chars with
  | EmptyString => false
  | String x chars' => Ascii.eqb c x || char_in c chars'
  end.

(** [s.lstrip(chars)] *)
Fixpoint lstrip_chars (chars s : string) : string :=
  match s with
  | EmptyString => EmptyString
  | String c s' => if char_in c chars then lstrip_chars chars s' else s
  end.

Definition is_space (c : ascii) : bool :=
  let n := nat_of_ascii c in
  ((9 <=? n) && (n <=? 13) || (28 <=? n) && (n <=? 32))%nat.

(** [s.split()] *)
Fixpoint split_ws (s : string) : list string :=
  match s with
  | EmptyString => []
  | String c s' =>
      if is_space c then split_ws s'
      else
        match s' with
        | EmptyString => [String c EmptyString]
        | String c' _ =>
            if is_space c' then String c EmptyString :: split_ws s'
            else
              match split_ws s' with
              | t :: ts => String c t :: ts
              | [] => [String c EmptyString]
              end
        end
  end.

(** ** Group and dataset objects *)

Inductive group_class : Type :=
| ClsGroup         (* SpecFileH5Group *)
| ClsLinkToGroup   (* SpecFileH5LinkToGroup *)
| ClsRoot.         (* SpecFileH5 *)

Record Group : Type :=
  { g_class : group_class;
    g_name : string;
    g_attrs : option attrs;
    g_scan : option Scan }.   (* the [_scan] attribute, set when [name != "/"] *)

Inductive Member : Type :=
| MGroup (g : Group)
| MDataset (d : Dataset).

(** [member.name] *)
Definition member_name (m : Member) : string :=
  match m with
  | MGroup g => g_name g
  | MDataset d => ds_name d
  end.

(** [isinstance(m, SpecFileH5Group)]; the link and root classes derive from
    [SpecFileH5Group]. *)
Definition isinstance_Group (m : Member) : bool :=
  match m with MGroup _ => true | MDataset _ => false end.

(** [isinstance(m, SpecFileH5LinkToGroup)] *)
Definition isinstance_LinkToGroup (m : Member) : bool :=
  match m with
  | MGroup g => match g_class g with ClsLinkToGroup => true | _ => false end
  | MDataset _ => false
  end.

(** Static subitems *)
Definition scan_submembers : list string := ["title"; "start_time"; "instrument"; "measurement"].
Definition instrument_submembers : list string := ["positioners"].
Definition measurement_mca_submembers : list string := ["data"; "info"].
Definition instrument_mca_submembers : list string := ["data"; "calibration"; "channels"].

(** [SpecFileH5Group.__init__(self, name, specfileh5)], for the class [cls] *)
Definition SpecFileH5Group_init (cls : group_class) (name : string) (sf : SpecFile)
  : result Group :=
  let attrs := _get_attrs_dict name in
  if negb (String.eqb name "/") then
    let scan_key := _get_scan_key_in_name name in
    let! scan := sf_getitem sf scan_key in
    Ok {| g_class := cls; g_name := name; g_attrs := attrs; g_scan := Some scan |}
  else
    Ok {| g_class := cls; g_name := name; g_attrs := attrs; g_scan := None |}.

(** [SpecFileH5(filename)], once [SpecFile(filename)] has been read as [sf] *)
Definition SpecFileH5 (sf : SpecFile) : Group :=
  {| g_class := ClsRoot; g_name := "/"; g_attrs := _get_attrs_dict "/"; g_scan := None |}.

(** [self._scan] *)
Definition self_scan (self : Group) : result Scan :=
  match g_scan self with
  | Some scan => Ok scan
  | None => Raise AttributeError
  end.

Section Builders.

(** Python's [float(str)] *)
Variable py_float : string -> result float.

Definition _parse_ctime (ctime_line : string) : result (float * float * float) :=
  let ctime_line := lstrip_chars "@CTIME " ctime_line in
  match split_ws ctime_line with
  | [a; b; c] =>
      let! a := py_float a in
      let! b := py_float b in
      let! c := py_float c in
      Ok (a, b, c)
  | _ => Raise ValueError
  end.

(** [m.group(1)] for a group that took part in the match *)
Definition group1 (m : captures) : result string :=
  match group m "1" with
  | Some g => Ok g
  | None => Raise TypeError
  end.

Definition _dataset_builder (name : string) (sf : SpecFile) : result Dataset :=
  let scan_key := _get_scan_key_in_name name in
  let! scan := sf_getitem sf scan_key in
  let! array_like :=
    if matches title_pattern name then
      let! s := header_get (scan_header scan) "S" in Ok (Some (PyStr s))
    else if matches start_time_pattern name then
      let! spec_date :=
        match header_get (scan_header scan) "D" with
        | Ok d => Ok d
        | Raise KeyError => header_get (file_header scan) "D"
        | Raise e => Raise e
        end in
      let! iso := spec_date_to_iso8601 spec_date None in Ok (Some (PyStr iso))
    else
      match re_match positioners_data_pattern name with
      | Some m =>
          let! motor_name := group1 m in
          if str_in motor_name (labels scan) then
            let! col := data_column_by_name scan motor_name in Ok (Some (NdArray col))
          else
            let! pos := motor_position_by_name scan motor_name in Ok (Some (PyFloat pos))
      | None =>
      match re_match measurement_data_pattern name with
      | Some m =>
          let! column_name := group1 m in
          let! col := data_column_by_name scan column_name in Ok (Some (NdArray col))
      | None =>
      match re_match instrument_mca_data_pattern name with
      | Some m =>
          let! g := group1 m in
          let analyser_index := int_of_digits g in
          let! rows := _demultiplex_mca scan analyser_index in
          Ok (Some (NdArray (array_of_rows rows)))
      | None =>
          if matches instrument_mca_calib_pattern name then
            Ok (Some (calibration (mca scan)))
          else if matches instrument_mca_chann_pattern name then
            Ok (Some (channels (mca scan)))
          else if dict_has (mca_header scan) "CTIME" then
            let! ctime_line := header_get (mca_header scan) "CTIME" in
            let! (preset_time, live_time, elapsed_time) := _parse_ctime ctime_line in
            if matches instrument_mca_preset_t_pattern name then
              Ok (Some (PyFloat preset_time))
            else if matches instrument_mca_live_t_pattern name then
              Ok (Some (PyFloat live_time))
            else if matches instrument_mca_elapsed_t_pattern name then
              Ok (Some (PyFloat elapsed_time))
            else Ok None
          else Ok None
      end end end in
  match array_like with
  | None => Raise KeyError
  | Some array_like => SpecFileH5Dataset ClsDataset array_like name
  end.

Definition _link_to_dataset_builder (name : string) (sf : SpecFile) : result Dataset :=
  let scan_key := _get_scan_key_in_name name in
  let! scan := sf_getitem sf scan_key in
  let! array_like :=
    match re_match measurement_mca_data_pattern name with
    | Some m =>
        let! g := group1 m in
        let analyser_index := int_of_digits g in
        let! rows := _demultiplex_mca scan analyser_index in
        Ok (Some (NdArray (array_of_rows rows)))
    | None =>
        (* [elif measurement_mca_info_dataset_pattern:] tests the pattern
           object itself, which is always true *)
        match re_match measurement_mca_info_dataset_pattern name with
        | None => Raise AttributeError
        | Some m =>
            let! mca_hdr_type := group1 m in
            if String.eqb mca_hdr_type "calibration" then
              Ok (Some (calibration (mca scan)))
            else if String.eqb mca_hdr_type "channels" then
              Ok (Some (channels (mca scan)))
            else if dict_has (mca_header scan) "CTIME" then
              let! ctime_line := header_get (mca_header scan) "CTIME" in
              let! (preset_time, live_time, elapsed_time) := _parse_ctime ctime_line in
              if matches instrument_mca_preset_t_pattern name then
                Ok (Some (PyFloat preset_time))
              else if matches instrument_mca_live_t_pattern name then
                Ok (Some (PyFloat live_time))
              else if matches instrument_mca_elapsed_t_pattern name then
                Ok (Some (PyFloat elapsed_time))
              else Ok None
            else Ok None
        end
    end in
  match array_like with
  | None => Raise KeyError
  | Some array_like => SpecFileH5Dataset ClsLinkToDataset array_like name
  end.

(** *** [SpecFileH5Group] methods

    Every group holds a reference to the root object; [sf] is the
    [SpecFile] of that root ([self._sfh5._sf]). *)

Definition __contains__ (sf : SpecFile) (self : Group) (key : string) : result bool :=
  let resolved :=
    if startswith key "/" then
      if negb (startswith key (g_name self)) then None else Some key
    else Some (rstrip_slash (g_name self) ++ "/" ++ key)%string in
  match resolved with
  | None => Ok false
  | Some key =>
      if negb (is_group key) && negb (is_dataset key) &&
         negb (is_link_to_group key) && negb (is_link_to_dataset key) then Ok false
      else
        let scan_key := _get_scan_key_in_name key in
        if negb (sf_contains sf scan_key) then Ok false
        else
          let! mca_ok :=
            match _get_mca_index_in_name key with
            | Some mca_analyser_index => _mca_analyser_in_scan sf scan_key mca_analyser_index
            | None => Ok true
            end in
          if negb mca_ok then Ok false
          else
            let! motor_ok :=
              match _get_motor_in_name key with
              | Some motor_name => _motor_in_scan sf scan_key motor_name
              | None => Ok true
              end in
            if negb motor_ok then Ok false
            else
              let! column_ok :=
                match _get_data_column_label_in_name key with
                | Some column_label => _column_label_in_scan sf scan_key column_label
                | None => Ok true
                end in
              if negb column_ok then Ok false
              else if endswith key "preset_time" || endswith key "elapsed_time" ||
                      endswith key "live_time" then
                let! scan := sf_getitem sf scan_key in
                Ok (dict_has (mca_header scan) "CTIME")
              else Ok true
  end.

Definition __getitem__ (sf : SpecFile) (self : Group) (key : string) : result Member :=
  let! full_key :=
    if negb (startswith key "/") then Ok (rstrip_slash (g_name self) ++ "/" ++ key)%string
    else if startswith key (g_name self) then Ok key
    else Raise KeyError in
  if is_group full_key then
    let! g := SpecFileH5Group_init ClsGroup full_key sf in Ok (MGroup g)
  else if is_dataset full_key then
    let! d := _dataset_builder full_key sf in Ok (MDataset d)
  else if is_link_to_group full_key then
    let! g := SpecFileH5Group_init ClsLinkToGroup full_key sf in Ok (MGroup g)
  else if is_link_to_dataset full_key then
    let! d := _link_to_dataset_builder full_key sf in Ok (MDataset d)
  else Raise KeyError.

(** [SpecFileH5Group.keys]; a call that falls off the end of the function
    returns [None]. *)
Definition SpecFileH5Group_keys (sf : SpecFile) (self : Group)
  : result (option (list string)) :=
  if String.eqb (g_name self) "/" then Ok (Some (sf_keys sf))
  else if matches scan_pattern (g_name self) then Ok (Some scan_submembers)
  else if matches positioners_group_pattern (g_name self) then
    let! scan := self_scan self in Ok (Some (motor_names scan))
  else if matches measurement_mca_group_pattern (g_name self) then
    Ok (Some measurement_mca_submembers)
  else if matches instrument_mca_group_pattern (g_name self) then
    let! scan := self_scan self in
    if dict_has (mca_header scan) "CTIME" then
      Ok (Some (instrument_mca_submembers ++ ["preset_time"; "elapsed_time"; "live_time"]))
    else Ok (Some instrument_mca_submembers)
  else
    let! scan := self_scan self in
    let! _ := assert (snd (data_shape scan) =? length (labels scan))%nat in
    let number_of_MCA_spectra := length (spectra (mca scan)) in
    let number_of_data_lines := fst (data_shape scan) in
    let! r := py_mod number_of_MCA_spectra number_of_data_lines in
    let! _ := assert (r =? 0)%nat in
    let! number_of_MCA_analysers := py_floordiv number_of_MCA_spectra number_of_data_lines in
    let mca_list := map (fun i => ("mca_" ++ str_of_nat i)%string) (seq 0 number_of_MCA_analysers) in
    if matches measurement_group_pattern (g_name self) then
      Ok (Some (labels scan ++ mca_list))
    else if matches instrument_pattern (g_name self) then
      Ok (Some (instrument_submembers ++ mca_list))
    else Ok None.

(** [SpecFileH5LinkToGroup.keys] *)
Definition SpecFileH5LinkToGroup_keys (self : Group) : result (option (list string)) :=
  if matches measurement_mca_info_pattern (g_name self) then Ok (Some instrument_mca_submembers)
  else Ok None.

(** [self.keys()], dispatched on the class of [self] *)
Definition keys (sf : SpecFile) (self : Group) : result (option (list string)) :=
  match g_class self with
  | ClsGroup => SpecFileH5Group_keys sf self
  | ClsLinkToGroup => SpecFileH5LinkToGroup_keys self
  | ClsRoot => Ok (Some (sf_keys sf))
  end.

(** *** Traversal

    The callback is a function of its arguments; the names it is called on
    are recorded, in order, in [calls].  [fuel] bounds the depth of the
    recursion. *)

Inductive outcome (R : Type) : Type :=
| Returned (ret : option R) (calls : list string)
| Raised (e : exn) (calls : list string)
| OutOfFuel.
Arguments Returned {R} ret calls.
Arguments Raised {R} e calls.
Arguments OutOfFuel {R}.

Section Visit.

Variable R : Type.

Fixpoint visit (fuel : nat) (sf : SpecFile) (self : Group) (func : string -> option R)
         (calls : list string) {struct fuel} : outcome R :=
  match fuel with
  | O => OutOfFuel
  | S fuel' =>
      match keys sf self with
      | Raise e => Raised e calls
      | Ok None => Raised TypeError calls
      | Ok (Some ks) =>
          (fix loop (ks : list string) (calls : list string) : outcome R :=
             match ks with
             | [] => Returned None calls
             | key :: ks' =>
                 match __getitem__ sf self key with
                 | Raise e => Raised e calls
                 | Ok member =>
                     let '(ret, calls) :=
                       if negb (is_link_to_dataset (member_name member)) &&
                          negb (is_link_to_group (member_name member))
                       then (func (member_name member), calls ++ [member_name member])
                       else (None, calls) in
                     match ret with
                     | Some v => Returned (Some v) calls
                     | None =>
                         (* recurse into subgroups; the value the recursive
                            call returns is not looked at *)
                         match member with
                         | MGroup g =>
                             if isinstance_Group member && negb (isinstance_LinkToGroup member)
                             then
                               match visit fuel' sf g func calls with
                               | Returned _ calls => loop ks' calls
                               | other => other
                               end
                             else loop ks' calls
                         | MDataset _ => loop ks' calls
                         end
                     end
                 end
             end) ks calls
      end
  end.

Fixpoint visititems (fuel : nat) (sf : SpecFile) (self : Group)
         (func : string -> Member -> option R)
         (calls : list string) {struct fuel} : outcome R :=
  match fuel with
  | O => OutOfFuel
  | S fuel' =>
      match keys sf self with
      | Raise e => Raised e calls
      | Ok None => Raised TypeError calls
      | Ok (Some ks) =>
          (fix loop (ks : list string) (calls : list string) : outcome R :=
             match ks with
             | [] => Returned None calls
             | key :: ks' =>
                 match __getitem__ sf self key with
                 | Raise e => Raised e calls
                 | Ok member =>
                     let '(ret, calls) :=
                       if negb (is_link_to_dataset (member_name member))
                       then (func (member_name member) member, calls ++ [member_name member])
                       else (None, calls) in
                     match ret with
                     | Some v => Returned (Some v) calls
                     | None =>
                         match member with
                         | MGroup g =>
                             if isinstance_Group member && negb (isinstance_LinkToGroup member)
                             then
                               match visititems fuel' sf g func calls with
                               | Returned _ calls => loop ks' calls
                               | other => other
                               end
                             else loop ks' calls
                         | MDataset _ => loop ks' calls
                         end
                     end
                 end
             end) ks calls
      end
  end.

End Visit.

End Builders.

(** ** A sample file

    One scan ["1.1"] with two data lines, two columns, one motor and six
    MCA spectra (three analysers), and a second scan ["2.1"] without MCA
    data. *)

Definition fl (z : Z) : float := binary_normalize 53 1024 z 0 false.

Definition column (l : list Z) : ndarray :=
  {| nd_dtype := float64; nd_shape := [length l]; nd_data := map (fun z => SFloat (fl z)) l |}.

Definition sample_mca : MCA :=
  {| spectra := [[fl 0; fl 10]; [fl 1; fl 11]; [fl 2; fl 12];
                 [fl 3; fl 13]; [fl 4; fl 14]; [fl 5; fl 15]];
     calibration := NdArray (column [0; 1; 0]%Z);
     channels := NdArray (column [0; 1]%Z) |}.

Definition sample_scan1 : Scan :=
  {| scan_header := [("S", "1  ascan  ss1vo -4.55687 -0.556875  40 0.2");
                     ("D", "Thu Feb 11 09:54:35 2016")];
     file_header := [];
     labels := ["Pslit HGap"; "Seconds"];
     data_shape := (2, 2)%nat;
     motor_names := ["Pslit HGap"; "MRTSlit UP"];
     mca := sample_mca;
     mca_header := [];
     data_column_by_name := fun label =>
       if String.eqb label "Pslit HGap" then Ok (column [7; 8]%Z)
       else if String.eqb label "Seconds" then Ok (column [1; 2]%Z)
       else Raise KeyError;
     motor_position_by_name := fun motor =>
       if String.eqb motor "Pslit HGap" then Ok (fl 3)
       else Ok inf |}.

Definition sample_scan2 : Scan :=
  {| scan_header := [("S", "2  ascan  ss1vo 0 1  1 0.2");
                     ("D", "Sat 2015/03/14 03:53:50")];
     file_header := [];
     labels := ["Seconds"];
     data_shape := (1, 1)%nat;
     motor_names := ["MRTSlit UP"];
     mca := {| spectra := []; calibration := NdArray (column []%Z); channels := NdArray (column []%Z) |};
     mca_header := [];
     data_column_by_name := fun label =>
       if String.eqb label "Seconds" then Ok (column [1]%Z) else Raise KeyError;
     motor_position_by_name := fun motor => Ok inf |}.

Definition sample_file : SpecFile :=
  {| sf_filename := "test.dat"; sf_scans := [("1.1", sample_scan1); ("2.1", sample_scan2)] |}.

(** A [float] that accepts nothing; the sample file has no [CTIME] line. *)
Definition no_float (s : string) : result float := Raise ValueError.

(** Six spectra over two data lines, and seven over two. *)
Definition six_spectra_scan : Scan := sample_scan1.

Definition seven_spectra_scan : Scan :=
  {| scan_header := []; file_header := []; labels := ["Seconds"];
     data_shape := (2, 1)%nat; motor_names := [];
     mca := {| spectra := repeat [fl 0] 7;
               calibration := NdArray (column [0; 1; 0]%Z);
               channels := NdArray (column [0]%Z) |};
     mca_header := [];
     data_column_by_name := fun _ => Ok (column [1; 2]%Z);
     motor_position_by_name := fun _ => Ok inf |}.

(** Names below the two scans, in the order [keys()] gives them, links
    left out. *)
Definition all_of_scan_1_1 : list string :=
  ["/1.1"; "/1.1/title"; "/1.1/start_time"; "/1.1/instrument";
   "/1.1/instrument/positioners";
   "/1.1/instrument/positioners/Pslit HGap";
   "/1.1/instrument/positioners/MRTSlit UP";
   "/1.1/instrument/mca_0"; "/1.1/instrument/mca_0/data";
   "/1.1/instrument/mca_0/calibration"; "/1.1/instrument/mca_0/channels";
   "/1.1/instrument/mca_1"; "/1.1/instrument/mca_1/data";
   "/1.1/instrument/mca_1/calibration"; "/1.1/instrument/mca_1/channels";
   "/1.1/instrument/mca_2"; "/1.1/instrument/mca_2/data";
   "/1.1/instrument/mca_2/calibration"; "/1.1/instrument/mca_2/channels";
   "/1.1/measurement"; "/1.1/measurement/Pslit HGap"; "/1.1/measurement/Seconds"].

Definition all_of_scan_2_1 : list string :=
  ["/2.1"; "/2.1/title"; "/2.1/start_time"; "/2.1/instrument";
   "/2.1/instrument/positioners"; "/2.1/instrument/positioners/MRTSlit UP";
   "/2.1/measurement"; "/2.1/measurement/Seconds"].

(** A callback that returns a value at one name. *)
Definition stop_at (target : string) (name : string) : option nat :=
  if String.eqb name target then Some 42%nat else None.

(** ** Reasoning about matches

    [accepts e r s k] tells whether [r] can match at the start of [s] with
    a rest that satisfies [k], the end test of [$] being [e]. *)

Fixpoint rep (p : ascii -> bool) (s : string) (k : string -> bool) : bool :=
  match s with
  | String c s' => (if p c then rep p s' k else false) || k s
  | EmptyString => k s
  end.

Fixpoint accepts (e : string -> bool) (r : regex) (s : string) (k : string -> bool) : bool :=
  match r with
  | Chr c =>
      match s with
      | String c' s' => Ascii.eqb c c' && k s'
      | EmptyString => false
      end
  | Cls p =>
      match s with
      | String c' s' => p c' && k s'
      | EmptyString => false
      end
  | Seq r1 r2 => accepts e r1 s (fun s' => accepts e r2 s' k)
  | Alt r1 r2 => accepts e r1 s k || accepts e r2 s k
  | Opt r1 => accepts e r1 s k || k s
  | Star p => rep p s k
  | Plus p =>
      match s with
      | String c' s' => p c' && rep p s' k
      | EmptyString => false
      end
  | Grp _ r1 => accepts e r1 s k
  | Dollar => e s && k s
  end.

Definition anything (s : string) : bool := true.

(** Strings without a line feed: there [$] is the end of the string. *)

Fixpoint nolf (s : string) : bool :=
  match s with
  | EmptyString => true
  | String c s' => negb (Ascii.eqb c LF) && nolf s'
  end.

Definition is_empty (s : string) : bool :=
  match s with EmptyString => true | _ => false end.

(** A greedy repetition followed by something that cannot start with a
    character of the class stops at the first character outside it. *)

Fixpoint skip (p : ascii -> bool) (s : string) : string :=
  match s with
  | String c s' => if p c then skip p s' else s
  | EmptyString => EmptyString
  end.

(** The rest of a path after its scan key [/<digits>.<digits>]. *)
Definition scan_tail (s : string) : option string :=
  match s with
  | String c0 (String c1 s1) =>
      if Ascii.eqb "/" c0 && is_digit c1 then
        match skip is_digit s1 with
        | String c2 (String c3 s3) =>
            if Ascii.eqb "." c2 && is_digit c3 then Some (skip is_digit s3) else None
        | _ => None
        end
      else None
  | _ => None
  end.

Definition rejects_digit (e : string -> bool) (T : regex) (k : string -> bool) : Prop :=
  forall c u, is_digit c = true -> accepts e T (String c u) k = false.

(** ** Classification and traversal

    Number of classifiers that hold for a path. *)
Definition count_true (l : list bool) : nat := length (filter (fun b => b) l).

Definition classes (name : string) : list bool :=
  [is_group name; is_dataset name; is_link_to_group name; is_link_to_dataset name].

(** No key reported by the backing store (scan key, column label, motor
    name) contains a line feed. *)
Definition keys_without_newline (sf : SpecFile) : bool :=
  forallb (fun entry => nolf (fst entry) &&
                        forallb nolf (labels (snd entry)) &&
                        forallb nolf (motor_names (snd entry)))
          (sf_scans sf).

Definition scan_of_file (sf : SpecFile) (self : Group) : Prop :=
  forall scan, g_scan self = Some scan -> exists k, dict_get (sf_scans sf) k = Some scan.

(** The name [__getitem__] resolves [key] to. *)
Definition full_key_of (self : Group) (key : string) : string :=
  if negb (startswith key "/") then (rstrip_slash (g_name self) ++ "/" ++ key)%string
  else key.

(** The groups [visit] is called on, starting at the root: every member
    that is a group and not a link is visited in turn. *)
Inductive Traversed (py_float : string -> result float) (sf : SpecFile) : Group -> Prop :=
| Traversed_root : Traversed py_float sf (SpecFileH5 sf)
| Traversed_subgroup (self : Group) (ks : list string) (key : string) (g : Group) :
    Traversed py_float sf self ->
    keys sf self = Ok (Some ks) ->
    In key ks ->
    __getitem__ py_float sf self key = Ok (MGroup g) ->
    isinstance_LinkToGroup (MGroup g) = false ->
    Traversed py_float sf g.

(** The names of the members a traversal obtains. *)
Definition Produced (py_float : string -> result float) (sf : SpecFile) (path : string) : Prop :=
  exists self ks key member,
    Traversed py_float sf self /\
    keys sf self = Ok (Some ks) /\
    In key ks /\
    __getitem__ py_float sf self key = Ok member /\
    member_name member = path.

(** Groups of the sample file. *)
Definition scan_1_1 : Group :=
  {| g_class := ClsGroup; g_name := "/1.1";
     g_attrs := _get_attrs_dict "/1.1"; g_scan := Some sample_scan1 |}.

Definition measurement_1_1 : Group :=
  {| g_class := ClsGroup; g_name := "/1.1/measurement";
     g_attrs := _get_attrs_dict "/1.1/measurement"; g_scan := Some sample_scan1 |}.

Definition measurement_mca_0 : Group :=
  {| g_class := ClsGroup; g_name := "/1.1/measurement/mca_0";
     g_attrs := _get_attrs_dict "/1.1/measurement/mca_0"; g_scan := Some sample_scan1 |}.

(** Strings without a slash. *)
Fixpoint noslash (s : string) : bool :=
  match s with
  | EmptyString => true
  | String c s' => not_slash c && noslash s'
  end.

(** The twenty patterns in groups that exclude one another on every
    string: a pattern shares its group with those it can match together
    with ([$] also matches before a final line feed, and a column label may
    read [mca_<i>]). *)
Definition clusters (name : string) : list bool :=
  [ matches root_pattern name;
    matches scan_pattern name;
    matches instrument_pattern name;
    matches positioners_group_pattern name || matches positioners_data_pattern name;
    matches measurement_group_pattern name || matches measurement_data_pattern name
      || matches measurement_mca_group_pattern name;
    matches instrument_mca_group_pattern name;
    matches title_pattern name;
    matches start_time_pattern name;
    matches instrument_mca_data_pattern name;
    matches instrument_mca_calib_pattern name;
    matches instrument_mca_chann_pattern name;
    matches instrument_mca_preset_t_pattern name;
    matches instrument_mca_elapsed_t_pattern name;
    matches instrument_mca_live_t_pattern name;
    matches measurement_mca_info_pattern name || matches measurement_mca_info_dataset_pattern name;
    matches measurement_mca_data_pattern name ].

(** ** Paths built from their parts *)

(** Strings of one character class. *)
Fixpoint all_chars (p : ascii -> bool) (s : string) : bool :=
  match s with
  | EmptyString => true
  | String c s' => p c && all_chars p s'
  end.

Definition nonempty (s : string) : bool :=
  match s with EmptyString => false | _ => true end.

(** [[0-9]+] as a whole string *)
Definition digits (s : string) : bool := nonempty s && all_chars is_digit s.

(** [s] is empty or starts with a character outside the class. *)
Definition stops (p : ascii -> bool) (s : string) : bool :=
  match s with
  | EmptyString => true
  | String c _ => negb (p c)
  end.

(** No suffix of [s] starts with [/mca_]. *)
Fixpoint no_mca (s : string) : bool :=
  match s with
  | EmptyString => true
  | String _ s' => negb (startswith s "/mca_") && no_mca s'
  end.

(** The first element of [run r s], when there is one. *)
Definition Heads (r : regex) (s : string) (rest : string) (caps : captures) : Prop :=
  exists l, run r s = (rest, caps) :: l.

(** The patterns of datasets and of links to datasets. *)
Definition leaf_patterns : list regex :=
  [positioners_data_pattern; measurement_data_pattern; title_pattern; start_time_pattern;
   instrument_mca_data_pattern; instrument_mca_calib_pattern; instrument_mca_chann_pattern;
   instrument_mca_preset_t_pattern; instrument_mca_elapsed_t_pattern;
   instrument_mca_live_t_pattern; measurement_mca_info_dataset_pattern;
   measurement_mca_data_pattern].

(** A token of a header line: not empty, without white space. *)
Definition token (s : string) : bool :=
  nonempty s && all_chars (fun c => negb (is_space c)) s.

(** The fields of a date: [\d{4}], and one character of a class followed
    by a digit. *)
Definition four_digits (s : string) : bool :=
  match s with
  | String c1 (String c2 (String c3 (String c4 EmptyString))) =>
      is_digit c1 && is_digit c2 && is_digit c3 && is_digit c4
  | _ => false
  end.

Definition class_digit (p : ascii -> bool) (s : string) : bool :=
  match s with
  | String c1 (String c2 EmptyString) => p c1 && is_digit c2
  | _ => false
  end.

(** ** More sample data *)

(** [float] on strings of decimal digits. *)
Definition digit_float (s : string) : result float :=
  if digits s then Ok (fl (Z.of_nat (int_of_digits s))) else Raise ValueError.

(** The first sample scan with a [CTIME] line in its MCA header. *)
Definition ctime_scan : Scan :=
  {| scan_header := scan_header sample_scan1;
     file_header := file_header sample_scan1;
     labels := labels sample_scan1;
     data_shape := data_shape sample_scan1;
     motor_names := motor_names sample_scan1;
     mca := mca sample_scan1;
     mca_header := [("CTIME", "@CTIME 1 2 3")];
     data_column_by_name := data_column_by_name sample_scan1;
     motor_position_by_name := motor_position_by_name sample_scan1 |}.

Definition ctime_file : SpecFile :=
  {| sf_filename := "ctime.dat"; sf_scans := [("1.1", ctime_scan)] |}.

(** A scan that was aborted before its first data line. *)
Definition scan_without_lines : Scan :=
  {| scan_header := [("S", "3  ct 1")];
     file_header := [];
     labels := ["Seconds"];
     data_shape := (0, 1)%nat;
     motor_names := [];
     mca := {| spectra := []; calibration := NdArray (column []%Z);
               channels := NdArray (column []%Z) |};
     mca_header := [];
     data_column_by_name := fun _ => Ok (column []%Z);
     motor_position_by_name := fun _ => Ok inf |}.

Definition file_without_lines : SpecFile :=
  {| sf_filename := "aborted.dat"; sf_scans := [("3.1", scan_without_lines)] |}.

Definition instrument_1_1 : Group :=
  {| g_class := ClsGroup; g_name := "/1.1/instrument";
     g_attrs := _get_attrs_dict "/1.1/instrument"; g_scan := Some sample_scan1 |}.

Definition measurement_3_1 : Group :=
  {| g_class := ClsGroup; g_name := "/3.1/measurement";
     g_attrs := _get_attrs_dict "/3.1/measurement"; g_scan := Some scan_without_lines |}.

(** * Properties *)

(** ** Examples of the grammar, the name decomposition and the dates *)

Example is_group_mca : is_group "/1.1/measurement/mca_0" = true.
Proof. reflexivity. Qed.

Example is_dataset_mca : is_dataset "/1.1/measurement/mca_0" = false.
Proof. reflexivity. Qed.

Example is_dataset_column : is_dataset "/1.1/measurement/Pslit HGap" = true.
Proof. reflexivity. Qed.

Example is_link_info : is_link_to_group "/12.1/measurement/mca_3/info" = true.
Proof. reflexivity. Qed.

Example is_link_data : is_link_to_dataset "/12.1/measurement/mca_3/data" = true.
Proof. reflexivity. Qed.

Example scan_key_example : _get_scan_key_in_name "/12.34/measurement/mca_5/data" = Some "12.34".
Proof. reflexivity. Qed.

Example mca_index_example : _get_mca_index_in_name "/12.34/measurement/mca_15/data" = Some 15%nat.
Proof. reflexivity. Qed.

Example motor_example :
  _get_motor_in_name "/1.1/instrument/positioners/Pslit HGap" = Some "Pslit HGap".
Proof. reflexivity. Qed.

Example label_example_mca : _get_data_column_label_in_name "/1.1/measurement/mca_0" = None.
Proof. reflexivity. Qed.

Example date_feb :
  spec_date_to_iso8601 "Thu Feb 11 09:54:35 2016" None = Ok "2016-02-11T09:54:35".
Proof. reflexivity. Qed.

Example date_numeric :
  spec_date_to_iso8601 "Sat 2015/03/14 03:53:50" None = Ok "2015-03-14T03:53:50".
Proof. reflexivity. Qed.

Example split_ws_example : split_ws "  1.5 20  3 " = ["1.5"; "20"; "3"].
Proof. reflexivity. Qed.

(** ** MCA de-multiplexing *)

Lemma collect_spectra_spec (mca_data : list (list float)) (indices : list nat) :
  (forall i, In i indices -> (i < length mca_data)%nat) ->
  exists rows,
    collect_spectra mca_data indices = Ok rows /\
    length rows = length indices /\
    forall j i, nth_error indices j = Some i -> nth_error rows j = nth_error mca_data i.
Proof.
  induction indices as [|i indices IH]; intros Hlt.
  - exists []. repeat split; auto. intros [|j] i H; discriminate.
  - destruct IH as [rows [Hrows [Hlen Hnth]]].
    { intros k Hk. apply Hlt. now right. }
    assert (Hi : (i < length mca_data)%nat) by (apply Hlt; now left).
    destruct (nth_error mca_data i) as [spectrum|] eqn:Hsp.
    + exists (spectrum :: rows). simpl. rewrite Hsp, Hrows. simpl.
      repeat split; auto.
      intros [|j] k Hk; simpl in *.
      * injection Hk as <-. now rewrite Hsp.
      * now apply Hnth.
    + apply nth_error_None in Hsp. lia.
Qed.

Lemma range_count (i n_lines n_an : nat) :
  (i < n_an)%nat -> ((n_lines * n_an - i + n_an - 1) / n_an = n_lines)%nat.
Proof.
  intros Hi.
  destruct n_lines as [|n].
  - simpl. apply Nat.div_small. lia.
  - assert (Hge : (n_an <= S n * n_an)%nat) by nia.
    symmetry. apply Nat.div_unique with (r := (n_an - 1 - i)%nat); [lia|].
    replace (S n * n_an - i + n_an - 1)%nat with (S n * n_an + (n_an - 1 - i))%nat by lia.
    now rewrite (Nat.mul_comm n_an).
Qed.

(** C3. With [n_lines] data lines and [n_lines * n_an] interleaved spectra,
    de-multiplexing analyser [i < n_an] returns [n_lines] rows, and row [j]
    is the spectrum at flat index [i + j * n_an]. *)
Theorem demultiplex_strided (scan : Scan) (i n_lines n_an : nat) :
  fst (data_shape scan) = n_lines ->
  n_lines <> 0%nat ->
  length (spectra (mca scan)) = (n_lines * n_an)%nat ->
  (i < n_an)%nat ->
  exists rows,
    _demultiplex_mca scan i = Ok rows /\
    length rows = n_lines /\
    forall j, (j < n_lines)%nat ->
              nth_error rows j = nth_error (spectra (mca scan)) (i + j * n_an).
Proof.
  intros Hlines Hnz Hlen Hi.
  unfold _demultiplex_mca, py_mod, py_floordiv, py_range.
  rewrite Hlines, Hlen.
  destruct (Nat.eqb_spec n_lines 0) as [|_]; [contradiction|].
  rewrite (Nat.mul_comm n_lines n_an), Nat.Div0.mod_mul, Nat.div_mul by assumption.
  cbn [bind assert Nat.eqb].
  destruct (Nat.eqb_spec n_an 0) as [|_]; [lia|].
  rewrite (Nat.mul_comm n_an n_lines), range_count by assumption.
  cbn [bind].
  destruct (collect_spectra_spec (spectra (mca scan))
              (map (fun j => (i + j * n_an)%nat) (seq 0 n_lines)))
    as [rows [Hrows [Hlenrows Hnth]]].
  { intros k Hk. apply in_map_iff in Hk. destruct Hk as [j [<- Hj]].
    apply in_seq in Hj. rewrite Hlen. nia. }
  exists rows. rewrite length_map, length_seq in Hlenrows.
  repeat split; auto.
  intros j Hj. apply Hnth.
  rewrite nth_error_map, nth_error_seq.
  destruct (Nat.ltb_spec j n_lines); [reflexivity | lia].
Qed.

Lemma demultiplex_strided_witness :
  exists rows,
    _demultiplex_mca six_spectra_scan 2 = Ok rows /\
    length rows = 2%nat /\
    forall j, (j < 2)%nat ->
              nth_error rows j = nth_error (spectra (mca six_spectra_scan)) (2 + j * 3).
Proof.
  apply (@demultiplex_strided six_spectra_scan 2 2 3); [reflexivity | lia | reflexivity | lia].
Defined.

Example demultiplex_analyser_0 :
  _demultiplex_mca six_spectra_scan 0 = Ok [[fl 0; fl 10]; [fl 3; fl 13]].
Proof. reflexivity. Qed.

Example demultiplex_analyser_2 :
  _demultiplex_mca six_spectra_scan 2 = Ok [[fl 2; fl 12]; [fl 5; fl 15]].
Proof. reflexivity. Qed.

Lemma not_multiple_mod (a b : nat) :
  b <> 0%nat -> ~ (exists k, a = (k * b)%nat) -> (a mod b <> 0)%nat.
Proof.
  intros Hb Hnot Hmod. apply Hnot. exists (a / b)%nat.
  pose proof (Nat.div_mod_eq a b). lia.
Qed.

(** C4. When the number of MCA spectra is not a multiple of the number of
    data lines, de-multiplexing any analyser raises instead of returning
    rows, and so does the test that an analyser exists in a scan of the
    file; with at least one data line the error is the failed assertion. *)
Theorem demultiplex_not_multiple_raises (sf : SpecFile) (scan_key : string) (scan : Scan)
        (analyser_index : nat) :
  dict_get (sf_scans sf) scan_key = Some scan ->
  ~ (exists k, length (spectra (mca scan)) = (k * fst (data_shape scan))%nat) ->
  exists e,
    _demultiplex_mca scan analyser_index = Raise e /\
    _mca_analyser_in_scan sf (Some scan_key) analyser_index = Raise e /\
    (fst (data_shape scan) <> 0%nat -> e = AssertionError).
Proof.
  intros Hscan Hnot.
  unfold _demultiplex_mca, _mca_analyser_in_scan, sf_contains, sf_getitem, dict_has, py_mod.
  rewrite Hscan. cbn [negb bind].
  destruct (Nat.eqb_spec (fst (data_shape scan)) 0) as [Hz|Hnz].
  - exists ZeroDivisionError. repeat split; auto. intros H; contradiction.
  - pose proof (not_multiple_mod Hnz Hnot) as Hmod.
    exists AssertionError. cbn [bind].
    destruct (Nat.eqb_spec (length (spectra (mca scan)) mod fst (data_shape scan)) 0);
      [contradiction|].
    repeat split; auto.
Qed.

Lemma demultiplex_not_multiple_raises_witness :
  exists e,
    _demultiplex_mca seven_spectra_scan 0 = Raise e /\
    _mca_analyser_in_scan
      {| sf_filename := "seven.dat"; sf_scans := [("1.1", seven_spectra_scan)] |}
      (Some "1.1") 0 = Raise e /\
    (fst (data_shape seven_spectra_scan) <> 0%nat -> e = AssertionError).
Proof.
  apply (@demultiplex_not_multiple_raises
           {| sf_filename := "seven.dat"; sf_scans := [("1.1", seven_spectra_scan)] |}
           "1.1" seven_spectra_scan 0).
  - reflexivity.
  - simpl. intros [k Hk]. lia.
Defined.

Example seven_over_two : _demultiplex_mca seven_spectra_scan 0 = Raise AssertionError.
Proof. reflexivity. Qed.

(** ** Dtype coercion *)

(** C9. A dataset built from an array of integer, unsigned or floating
    kind has dtype float32, the shape of the input and its elements
    converted; an array of byte-string or unicode kind is kept as it is; an
    array of any other kind is rejected with [TypeError].  A Python string
    becomes a byte string with the same content, a Python float or integer
    becomes a float32 scalar, and a Python boolean is rejected. *)
Theorem dataset_dtype_coercion (cls : dataset_class) (name : string) :
  (forall a : ndarray,
      match dt_kind (nd_dtype a) with
      | Ki | Ku | Kf =>
          SpecFileH5Dataset cls (NdArray a) name =
            Ok {| ds_class := cls;
                  ds_array := {| nd_dtype := float32; nd_shape := nd_shape a;
                                 nd_data := map to_float32 (nd_data a) |};
                  ds_name := name; ds_attrs := _get_attrs_dict name |}
      | KS | KU =>
          SpecFileH5Dataset cls (NdArray a) name =
            Ok {| ds_class := cls; ds_array := a;
                  ds_name := name; ds_attrs := _get_attrs_dict name |}
      | Kb | Kc | Km | KM | KO | KV =>
          SpecFileH5Dataset cls (NdArray a) name = Raise TypeError
      end) /\
  (forall s : string,
      exists d, SpecFileH5Dataset cls (PyStr s) name = Ok d /\
                dt_kind (nd_dtype (ds_array d)) = KS /\
                nd_data (ds_array d) = [SBytes s]) /\
  (forall x : float,
      exists d, SpecFileH5Dataset cls (PyFloat x) name = Ok d /\
                nd_dtype (ds_array d) = float32 /\
                nd_data (ds_array d) = [to_float32 (SFloat x)]) /\
  (forall z : Z,
      exists d, SpecFileH5Dataset cls (PyInt z) name = Ok d /\
                nd_dtype (ds_array d) = float32) /\
  (forall b : bool, SpecFileH5Dataset cls (PyBool b) name = Raise TypeError).
Proof.
  split; [|split; [|split; [|split]]].
  - intros [[k n] shape elems]. destruct k; reflexivity.
  - intros s. eexists. split; [reflexivity|]. split; reflexivity.
  - intros x. eexists. split; [reflexivity|]. split; reflexivity.
  - intros z. eexists. split; reflexivity.
  - intros b. reflexivity.
Qed.

Example float64_column_becomes_float32 :
  option_map (fun d => nd_dtype (ds_array d))
             (match SpecFileH5Dataset ClsDataset (NdArray (column [7; 8]%Z)) "/1.1/measurement/x"
              with Ok d => Some d | Raise _ => None end) = Some float32.
Proof. reflexivity. Qed.

(** ** Date conversion *)

(** C7. The month table has no entry for May: a date of the first layout in
    May is rejected, and one in a later month gets the number of the month
    before. *)
Theorem spec_date_month_table :
  spec_date_to_iso8601 "Thu May 12 09:54:35 2016" None = Raise ValueError /\
  spec_date_to_iso8601 "Sat Jun 11 09:54:35 2016" None = Ok "2016-05-11T09:54:35" /\
  spec_date_to_iso8601 "Sun Dec 25 09:54:35 2016" None = Ok "2016-11-25T09:54:35".
Proof. repeat split; reflexivity. Qed.

(** ** Attribute table *)

(** C10. The timing datasets of an instrument MCA group and the datasets
    below an [info] link are recognised by the grammar but have no entry in
    the attribute table: the lookup returns [None] for them, not an empty
    dictionary. *)
Theorem attrs_of_timing_dataset :
  is_dataset "/1.1/instrument/mca_0/preset_time" = true /\
  _get_attrs_dict "/1.1/instrument/mca_0/preset_time" = None /\
  _get_attrs_dict "/1.1/instrument/mca_0/elapsed_time" = None /\
  _get_attrs_dict "/1.1/instrument/mca_0/live_time" = None /\
  is_link_to_dataset "/1.1/measurement/mca_0/info/calibration" = true /\
  _get_attrs_dict "/1.1/measurement/mca_0/info/calibration" = None /\
  _get_attrs_dict "/1.1/instrument/mca_0/calibration" = Some [].
Proof. repeat split; reflexivity. Qed.

Example attrs_examples :
  _get_attrs_dict "/" = Some [("NX_class", "NXroot")] /\
  _get_attrs_dict "/1.1" = Some [("NX_class", "NXentry")] /\
  _get_attrs_dict "/1.1/instrument" = Some [("NX_class", "NXinstrument")] /\
  _get_attrs_dict "/1.1/instrument/positioners" = Some [("NX_class", "NXcollection")] /\
  _get_attrs_dict "/1.1/measurement" = Some [("NX_class", "NXcollection")] /\
  _get_attrs_dict "/1.1/instrument/mca_0" = Some [("NX_class", "NXdetector")] /\
  _get_attrs_dict "/1.1/instrument/mca_0/data" = Some [("interpretation", "spectrum")] /\
  _get_attrs_dict "/1.1/measurement/mca_0/data" = Some [("interpretation", "spectrum")] /\
  _get_attrs_dict "/1.1/title" = Some [].
Proof. repeat split; reflexivity. Qed.

(** ** Links in [visit] *)

(** X1. [visit] passes no link name to its callback, whatever the file. *)
Lemma visit_calls_no_link (py_float : string -> result float) (R : Type) (sf : SpecFile)
      (func : string -> option R) (fuel : nat) :
  forall (self : Group) (calls : list string) (ret : option R) (calls' : list string),
    visit py_float fuel sf self func calls = Returned ret calls' ->
    exists new, calls' = calls ++ new /\
                forallb (fun n => negb (is_link_to_dataset n) && negb (is_link_to_group n)) new = true.
Proof.
  induction fuel as [|fuel IH]; intros self calls ret calls'; [discriminate|].
  simpl. destruct (keys sf self) as [[ks|]|]; try discriminate.
  revert calls. induction ks as [|key ks IHks]; intros calls H.
  - injection H as _ <-. exists []. now rewrite app_nil_r.
  - destruct (__getitem__ py_float sf self key) as [member|]; [|discriminate].
    destruct (negb (is_link_to_dataset (member_name member)) &&
              negb (is_link_to_group (member_name member))) eqn:Hlink.
    + destruct (func (member_name member)) as [v|].
      * injection H as _ <-. exists [member_name member]. simpl in Hlink |- *. now rewrite Hlink.
      * destruct member as [g|d].
        -- destruct (isinstance_Group (MGroup g) && negb (isinstance_LinkToGroup (MGroup g))).
           ++ destruct (visit py_float fuel sf g func (calls ++ [member_name (MGroup g)]))
                as [r1 c1| |] eqn:Hsub; try discriminate.
              apply IH in Hsub. destruct Hsub as [new1 [-> Hnew1]].
              apply IHks in H. destruct H as [new2 [-> Hnew2]].
              exists ([member_name (MGroup g)] ++ new1 ++ new2).
              split; [now rewrite !app_assoc|].
              rewrite !forallb_app, Hnew1, Hnew2. simpl in Hlink |- *. now rewrite Hlink.
           ++ apply IHks in H. destruct H as [new2 [-> Hnew2]].
              exists ([member_name (MGroup g)] ++ new2).
              split; [now rewrite !app_assoc|].
              rewrite forallb_app, Hnew2. simpl in Hlink |- *. now rewrite Hlink.
        -- apply IHks in H. destruct H as [new2 [-> Hnew2]].
           exists ([member_name (MDataset d)] ++ new2).
           split; [now rewrite !app_assoc|].
           rewrite forallb_app, Hnew2. simpl in Hlink |- *. now rewrite Hlink.
    + destruct member as [g|d].
      * destruct (isinstance_Group (MGroup g) && negb (isinstance_LinkToGroup (MGroup g))).
        -- destruct (visit py_float fuel sf g func calls) as [r1 c1| |] eqn:Hsub; try discriminate.
           apply IH in Hsub. destruct Hsub as [new1 [-> Hnew1]].
           apply IHks in H. destruct H as [new2 [-> Hnew2]].
           exists (new1 ++ new2). split; [now rewrite !app_assoc|].
           now rewrite forallb_app, Hnew1, Hnew2.
        -- now apply IHks in H.
      * now apply IHks in H.
Qed.

(** ** Traversal of the sample file *)

Section SampleTraversal.

Variable py_float : string -> result float.
Variable fuel : nat.

Let root : Group := SpecFileH5 sample_file.

Example visit_sample :
  visit py_float (4 + fuel) sample_file root (fun _ => @None nat) [] =
  Returned None
    (all_of_scan_1_1 ++
     ["/1.1/measurement/mca_0"; "/1.1/measurement/mca_1"; "/1.1/measurement/mca_2"] ++
     all_of_scan_2_1).
Proof. vm_compute. reflexivity. Qed.

(** C5. [visititems] calls its callback on the link to a group
    [measurement/mca_<i>/info], which [visit] leaves out; neither calls it on
    the link to a dataset [measurement/mca_<i>/data], and neither goes below
    [info]. *)
Theorem visititems_calls_link_to_group :
  is_link_to_group "/1.1/measurement/mca_0/info" = true /\
  visititems py_float (4 + fuel) sample_file root (fun _ _ => @None nat) [] =
  Returned None
    (all_of_scan_1_1 ++
     ["/1.1/measurement/mca_0"; "/1.1/measurement/mca_0/info";
      "/1.1/measurement/mca_1"; "/1.1/measurement/mca_1/info";
      "/1.1/measurement/mca_2"; "/1.1/measurement/mca_2/info"] ++
     all_of_scan_2_1).
Proof. split; vm_compute; reflexivity. Qed.

Example visit_stops_at_child :
  visit py_float (4 + fuel) sample_file root (stop_at "/2.1") [] =
  Returned (Some 42%nat)
    (all_of_scan_1_1 ++
     ["/1.1/measurement/mca_0"; "/1.1/measurement/mca_1"; "/1.1/measurement/mca_2"; "/2.1"]).
Proof. vm_compute. reflexivity. Qed.

(** C6. A value returned by the callback for a member of a subgroup ends
    the visit of that subgroup only: the caller drops it, goes on with the
    next member and the top-level call returns [None]. *)
Theorem visit_nested_return_dropped :
  visit py_float (4 + fuel) sample_file root (stop_at "/1.1/title") [] =
    Returned None (["/1.1"; "/1.1/title"] ++ all_of_scan_2_1) /\
  visititems py_float (4 + fuel) sample_file root (fun name _ => stop_at "/1.1/title" name) [] =
    Returned None (["/1.1"; "/1.1/title"] ++ all_of_scan_2_1).
Proof. split; vm_compute; reflexivity. Qed.

(** C2. The group behind [measurement/mca_0/info] is reached from the
    root by indexing; its [keys()] contains ["data"], ["data" in group] is
    true, and [group["data"]] raises [KeyError]. *)
Theorem info_link_data_raises :
  exists scan measurement mca_0 info,
    __getitem__ py_float sample_file root "1.1" = Ok (MGroup scan) /\
    __getitem__ py_float sample_file scan "measurement" = Ok (MGroup measurement) /\
    __getitem__ py_float sample_file measurement "mca_0" = Ok (MGroup mca_0) /\
    __getitem__ py_float sample_file mca_0 "info" = Ok (MGroup info) /\
    keys sample_file info = Ok (Some ["data"; "calibration"; "channels"]) /\
    __contains__ sample_file info "data" = Ok true /\
    __getitem__ py_float sample_file info "data" = Raise KeyError.
Proof.
  do 4 eexists.
  split; [vm_compute; reflexivity|].
  split; [vm_compute; reflexivity|].
  split; [vm_compute; reflexivity|].
  split; [vm_compute; reflexivity|].
  split; [vm_compute; reflexivity|].
  split; vm_compute; reflexivity.
Qed.

End SampleTraversal.

Lemma existsb_flat_map {A B : Type} (f : B -> bool) (g : A -> list B) (l : list A) :
  existsb f (flat_map g l) = existsb (fun x => existsb f (g x)) l.
Proof.
  induction l as [|x l IH]; simpl; [reflexivity|].
  now rewrite existsb_app, IH.
Qed.

Lemma existsb_map' {A B : Type} (f : B -> bool) (g : A -> B) (l : list A) :
  existsb f (map g l) = existsb (fun x => f (g x)) l.
Proof.
  induction l as [|x l IH]; simpl; [reflexivity|]. now rewrite IH.
Qed.

Lemma existsb_ext' {A : Type} (f g : A -> bool) (l : list A) :
  (forall x, f x = g x) -> existsb f l = existsb g l.
Proof.
  intros H. induction l as [|x l IH]; simpl; [reflexivity|]. now rewrite H, IH.
Qed.

Lemma rep_star (p : ascii -> bool) (s : string) (k : string -> bool) :
  rep p s k = existsb k (star p s).
Proof.
  induction s as [|c s IH]; simpl.
  - now rewrite orb_false_r.
  - destruct (p c); simpl.
    + rewrite existsb_app, IH. simpl. now rewrite orb_false_r.
    + now rewrite orb_false_r.
Qed.

Lemma accepts_run (r : regex) :
  forall s k, accepts is_end r s k = existsb (fun m => k (fst m)) (run r s).
Proof.
  induction r as [c|p|r1 IH1 r2 IH2|r1 IH1 r2 IH2|r1 IH1|p|p|g r1 IH1|]; intros s k; simpl.
  - destruct s as [|c' s]; [reflexivity|]. destruct (Ascii.eqb c c'); simpl;
      [now rewrite orb_false_r | reflexivity].
  - destruct s as [|c' s]; [reflexivity|]. destruct (p c'); simpl;
      [now rewrite orb_false_r | reflexivity].
  - rewrite existsb_flat_map, IH1. apply existsb_ext'. intros m1.
    rewrite existsb_map'. simpl. apply IH2.
  - now rewrite existsb_app, IH1, IH2.
  - rewrite existsb_app, IH1. simpl. now rewrite orb_false_r.
  - rewrite existsb_map'. simpl. apply rep_star.
  - destruct s as [|c' s]; [reflexivity|]. destruct (p c'); simpl; [|reflexivity].
    rewrite existsb_map'. simpl. apply rep_star.
  - rewrite existsb_map'. simpl. apply IH1.
  - destruct (is_end s); simpl; [now rewrite orb_false_r | reflexivity].
Qed.

Lemma matches_accepts (r : regex) (s : string) :
  matches r s = accepts is_end r s anything.
Proof.
  rewrite accepts_run. unfold matches, re_match.
  destruct (run r s); reflexivity.
Qed.

Lemma is_end_nolf (s : string) : nolf s = true -> is_end s = is_empty s.
Proof.
  destruct s as [|c [|d s]]; simpl; try reflexivity.
  destruct (Ascii.eqb c LF); simpl; [discriminate | reflexivity].
Qed.

Lemma rep_nolf (p : ascii -> bool) (s : string) (k k' : string -> bool) :
  nolf s = true -> (forall t, nolf t = true -> k t = k' t) -> rep p s k = rep p s k'.
Proof.
  induction s as [|c s IH]; intros Hs Hk; simpl.
  - now apply Hk.
  - rewrite (Hk _ Hs). simpl in Hs. apply andb_prop in Hs. destruct Hs as [_ Hs].
    now rewrite (IH Hs Hk).
Qed.

Lemma accepts_nolf (r : regex) :
  forall s k k', nolf s = true -> (forall t, nolf t = true -> k t = k' t) ->
                 accepts is_end r s k = accepts is_empty r s k'.
Proof.
  induction r as [c|p|r1 IH1 r2 IH2|r1 IH1 r2 IH2|r1 IH1|p|p|g r1 IH1|];
    intros s k k' Hs Hk; simpl.
  - destruct s as [|c' s]; [reflexivity|]. simpl in Hs. apply andb_prop in Hs.
    now rewrite Hk.
  - destruct s as [|c' s]; [reflexivity|]. simpl in Hs. apply andb_prop in Hs.
    now rewrite Hk.
  - apply IH1; [assumption|]. intros t Ht. now apply IH2.
  - now rewrite (IH1 s k k'), (IH2 s k k').
  - now rewrite (IH1 s k k'), (Hk s).
  - now apply rep_nolf.
  - destruct s as [|c' s]; [reflexivity|]. simpl in Hs. apply andb_prop in Hs.
    destruct Hs as [_ Hs]. now rewrite (rep_nolf p s k k').
  - now apply IH1.
  - now rewrite is_end_nolf, Hk.
Qed.

Lemma matches_nolf (r : regex) (s : string) :
  nolf s = true -> matches r s = accepts is_empty r s anything.
Proof.
  intros Hs. rewrite matches_accepts. now apply accepts_nolf.
Qed.

Lemma rep_skip (p : ascii -> bool) (k : string -> bool) (s : string) :
  (forall c u, p c = true -> k (String c u) = false) ->
  rep p s k = k (skip p s).
Proof.
  intros Hk. induction s as [|c s IH]; simpl; [reflexivity|].
  destruct (p c) eqn:Hc.
  - now rewrite (Hk c s Hc), orb_false_r.
  - reflexivity.
Qed.

Lemma skip_nolf (p : ascii -> bool) (s : string) : nolf s = true -> nolf (skip p s) = true.
Proof.
  induction s as [|c s IH]; simpl; [reflexivity|]. intros Hs.
  destruct (p c); [|exact Hs]. apply andb_prop in Hs. now apply IH.
Qed.

Arguments is_digit : simpl never.

Lemma digit_not (x c : ascii) : is_digit x = false -> is_digit c = true -> Ascii.eqb x c = false.
Proof.
  intros Hx Hc. destruct (Ascii.eqb_spec x c) as [->|]; [congruence | reflexivity].
Qed.

Lemma accepts_scan (e : string -> bool) (T : regex) (k : string -> bool) (s : string) :
  rejects_digit e T k ->
  accepts e (L"/" ;; D+ ;; L"." ;; D+ ;; T) s k =
  match scan_tail s with
  | Some t => accepts e T t k
  | None => false
  end.
Proof.
  intros HT. cbn [accepts lit]. unfold scan_tail.
  destruct s as [|c0 [|c1 s1]]; [reflexivity | now rewrite andb_false_r |].
  destruct (Ascii.eqb "/" c0); [|reflexivity]. cbn [andb].
  destruct (is_digit c1); [|reflexivity]. cbn [andb].
  rewrite rep_skip.
  2:{ intros c u Hc. now rewrite (digit_not "." c). }
  destruct (skip is_digit s1) as [|c2 [|c3 s3]]; [reflexivity | now rewrite andb_false_r |].
  destruct (Ascii.eqb "." c2); [|reflexivity]. cbn [andb].
  destruct (is_digit c3); [|reflexivity]. cbn [andb].
  rewrite rep_skip; [reflexivity|]. exact HT.
Qed.

Ltac unfold_patterns :=
  unfold root_pattern, scan_pattern, instrument_pattern, positioners_group_pattern,
    measurement_group_pattern, measurement_mca_group_pattern, instrument_mca_group_pattern,
    measurement_mca_info_pattern, title_pattern, start_time_pattern,
    positioners_data_pattern, measurement_data_pattern, instrument_mca_data_pattern,
    instrument_mca_calib_pattern, instrument_mca_chann_pattern,
    instrument_mca_preset_t_pattern, instrument_mca_elapsed_t_pattern,
    instrument_mca_live_t_pattern, measurement_mca_data_pattern,
    measurement_mca_info_dataset_pattern.

Ltac solve_reject :=
  let c := fresh "c" in let u := fresh "u" in let Hc := fresh "Hc" in
  intros c u Hc; cbn [accepts lit is_empty];
  rewrite ?(digit_not "/" c) by (reflexivity || exact Hc);
  reflexivity.

Lemma scan_tail_not_root (s t : string) (k : string -> bool) :
  scan_tail s = Some t -> accepts is_empty root_pattern s k = false.
Proof.
  unfold scan_tail, root_pattern. cbn [accepts lit].
  destruct s as [|c0 [|c1 s1]]; try discriminate. intros _. cbn. apply andb_false_r.
Qed.

Lemma scan_tail_nolf (s t : string) : scan_tail s = Some t -> nolf s = true -> nolf t = true.
Proof.
  unfold scan_tail.
  destruct s as [|c0 [|c1 s1]]; try discriminate.
  destruct (Ascii.eqb "/" c0 && is_digit c1); [|discriminate].
  intros H Hs. cbn in Hs. apply andb_prop in Hs. destruct Hs as [_ Hs].
  apply andb_prop in Hs. destruct Hs as [_ Hs].
  apply (skip_nolf is_digit) in Hs.
  destruct (skip is_digit s1) as [|c2 [|c3 s3]]; try discriminate.
  destruct (Ascii.eqb "." c2 && is_digit c3); [|discriminate].
  injection H as <-.
  cbn in Hs. apply andb_prop in Hs. destruct Hs as [_ Hs].
  apply andb_prop in Hs. destruct Hs as [_ Hs].
  now apply skip_nolf.
Qed.

Local Arguments Ascii.eqb !_ !_ : simpl nomatch.
Local Arguments count_true : simpl never.

Lemma rep_through (p q : ascii -> bool) (k : string -> bool) (s : string) :
  (forall c, q c = true -> p c = true) ->
  (forall c u, k (String c u) = false) ->
  rep p s k = rep p (skip q s) k.
Proof.
  intros Hqp Hk. induction s as [|c s IH]; [reflexivity|].
  simpl skip. destruct (q c) eqn:Hq; [|reflexivity].
  simpl rep. now rewrite (Hqp c Hq), Hk, orb_false_r.
Qed.

Lemma digit_not_slash (c : ascii) : is_digit c = true -> not_slash c = true.
Proof.
  intros Hc. unfold not_slash. rewrite Ascii.eqb_sym, (digit_not "/" c); auto.
Qed.

Ltac kill_digit c Hc :=
  repeat match goal with
         | |- context [Ascii.eqb ?x c] => rewrite (digit_not x c) by (reflexivity || exact Hc)
         | |- context [Ascii.eqb c ?x] => rewrite (Ascii.eqb_sym c x)
         end.

Ltac close_count :=
  solve [ unfold anything; cbn;
          repeat (match goal with
                  | |- context [not_slash ?c] => destruct (not_slash c)
                  | |- context [rep ?p ?u ?k] => destruct (rep p u k)
                  | |- context [is_empty ?u] => destruct (is_empty u)
                  end; cbn);
          unfold count_true; cbn; lia ].

Ltac step :=
  cbn;
  first
    [ match goal with
      | |- context [is_digit ?c] =>
          is_var c;
          let Hc := fresh "Hc" in
          destruct (is_digit c) eqn:Hc; [kill_digit c Hc|]
      end
    | match goal with
      | |- context [rep is_digit ?u ?K] =>
          rewrite ?(rep_through not_slash is_digit (fun s => is_empty s && anything s) u)
            by (exact digit_not_slash || reflexivity);
          rewrite !(rep_skip is_digit) by solve_reject;
          generalize (skip is_digit u); clear u; intros u
      end
    | match goal with
      | |- context [match ?u with EmptyString => _ | String _ _ => _ end] =>
          is_var u; destruct u as [|? u]
      end
    | match goal with
      | |- context [Ascii.eqb ?x ?c] =>
          is_var c; destruct (Ascii.eqb_spec x c) as [<-|?]
      | |- context [Ascii.eqb ?c ?x] =>
          is_var c; destruct (Ascii.eqb_spec c x) as [->|?]
      end ].

(** On a path without line feed at most one classifier holds. *)
Lemma classes_exclusive (s : string) : nolf s = true ->
  (count_true (classes s) <= 1)%nat.
Proof.
  intros Hs. unfold classes.
  unfold is_group, is_dataset, is_link_to_group, is_link_to_dataset, _bulk_match.
  rewrite !matches_nolf by exact Hs.
  destruct (scan_tail s) as [t|] eqn:E.
  2:{ unfold_patterns. rewrite !accepts_scan by solve_reject. rewrite E.
      destruct (accepts is_empty (L"/" ;; Dollar) s anything); unfold count_true; cbn; lia. }
  rewrite (scan_tail_not_root s anything E).
  unfold_patterns. rewrite !accepts_scan by solve_reject. rewrite E.
  clear s Hs E.
  repeat step.
  all: close_count.
Qed.

(** ** Paths produced by a traversal *)

Lemma bind_Ok {A B : Type} (m : result A) (f : A -> result B) (b : B) :
  bind m f = Ok b -> exists a, m = Ok a /\ f a = Ok b.
Proof.
  destruct m as [a|e]; simpl; [|discriminate]. intros H. now exists a.
Qed.

Lemma nolf_app (a b : string) : nolf (a ++ b) = nolf a && nolf b.
Proof.
  induction a as [|c a IH]; simpl; [reflexivity|]. now rewrite IH, andb_assoc.
Qed.

Lemma nolf_rstrip_slash (s : string) : nolf s = true -> nolf (rstrip_slash s) = true.
Proof.
  induction s as [|c s IH]; simpl; [reflexivity|]. intros H.
  apply andb_prop in H. destruct H as [Hc Hs]. specialize (IH Hs).
  destruct (rstrip_slash s) as [|d t].
  - destruct (Ascii.eqb c "/"); simpl; [reflexivity | now rewrite Hc].
  - simpl. simpl in IH. now rewrite Hc, IH.
Qed.

Lemma nolf_str_of_nat (n : nat) : nolf (str_of_nat n) = true.
Proof.
  unfold str_of_nat. generalize (Nat.to_uint n). intros u.
  induction u; simpl; auto.
Qed.

Lemma dict_get_In {V : Type} (d : dict V) (k : string) (v : V) :
  dict_get d k = Some v -> In (k, v) d.
Proof.
  induction d as [|[k' v'] d IH]; simpl; [discriminate|].
  destruct (String.eqb_spec k k') as [->|]; intros H.
  - injection H as ->. now left.
  - right. now apply IH.
Qed.

Lemma scan_keys_nolf (sf : SpecFile) (k : string) (scan : Scan) :
  keys_without_newline sf = true -> dict_get (sf_scans sf) k = Some scan ->
  forallb nolf (labels scan) = true /\ forallb nolf (motor_names scan) = true.
Proof.
  unfold keys_without_newline. intros Hsf Hget. apply dict_get_In in Hget.
  rewrite forallb_forall in Hsf. specialize (Hsf _ Hget). simpl in Hsf.
  apply andb_prop in Hsf. destruct Hsf as [Hsf Hm].
  apply andb_prop in Hsf. destruct Hsf as [_ Hl]. now split.
Qed.

Lemma SpecFileH5Group_init_spec (cls : group_class) (name : string) (sf : SpecFile) (g : Group) :
  SpecFileH5Group_init cls name sf = Ok g ->
  g_name g = name /\ g_class g = cls /\ scan_of_file sf g.
Proof.
  unfold SpecFileH5Group_init, scan_of_file.
  destruct (negb (String.eqb name "/")).
  - intros H. apply bind_Ok in H. destruct H as [scan [Hscan H]].
    injection H as <-. simpl. repeat split.
    intros scan' Heq. injection Heq as <-.
    unfold sf_getitem in Hscan.
    destruct (_get_scan_key_in_name name) as [k|]; [|discriminate].
    destruct (dict_get (sf_scans sf) k) as [scan'|] eqn:Hk; [|discriminate].
    injection Hscan as ->. now exists k.
  - intros H. injection H as <-. simpl. repeat split. discriminate.
Qed.

Lemma SpecFileH5Dataset_name (cls : dataset_class) (al : array_like) (name : string) (d : Dataset) :
  SpecFileH5Dataset cls al name = Ok d -> ds_name d = name.
Proof.
  unfold SpecFileH5Dataset. intros H. apply bind_Ok in H.
  destruct H as [obj [_ H]]. now injection H as <-.
Qed.

Section TraversalPaths.

Variable py_float : string -> result float.
Variable sf : SpecFile.

Lemma _dataset_builder_name (name : string) (d : Dataset) :
  _dataset_builder py_float name sf = Ok d -> ds_name d = name.
Proof.
  unfold _dataset_builder. cbv zeta. intros H.
  apply bind_Ok in H. destruct H as [scan [_ H]].
  apply bind_Ok in H. destruct H as [[al|] [_ H]]; [|discriminate].
  now apply SpecFileH5Dataset_name in H.
Qed.

Lemma _link_to_dataset_builder_name (name : string) (d : Dataset) :
  _link_to_dataset_builder py_float name sf = Ok d -> ds_name d = name.
Proof.
  unfold _link_to_dataset_builder. cbv zeta. intros H.
  apply bind_Ok in H. destruct H as [scan [_ H]].
  apply bind_Ok in H. destruct H as [[al|] [_ H]]; [|discriminate].
  now apply SpecFileH5Dataset_name in H.
Qed.

Lemma getitem_spec (self : Group) (key : string) (member : Member) :
  __getitem__ py_float sf self key = Ok member ->
  member_name member = full_key_of self key /\
  existsb (fun b => b) (classes (full_key_of self key)) = true /\
  (forall g, member = MGroup g -> scan_of_file sf g).
Proof.
  unfold __getitem__, full_key_of. intros H.
  apply bind_Ok in H. destruct H as [full_key [Hkey H]].
  assert (Hfull : (if negb (startswith key "/")
                   then (rstrip_slash (g_name self) ++ "/" ++ key)%string else key) = full_key).
  { destruct (negb (startswith key "/")); [now injection Hkey|].
    destruct (startswith key (g_name self)); [now injection Hkey | discriminate]. }
  rewrite Hfull. clear Hkey Hfull. unfold classes. simpl existsb.
  destruct (is_group full_key).
  { apply bind_Ok in H. destruct H as [g [Hg H]]. injection H as <-.
    apply SpecFileH5Group_init_spec in Hg. destruct Hg as [Hn [_ Hs]].
    repeat split; auto. intros g' Heq. now injection Heq as <-. }
  destruct (is_dataset full_key).
  { apply bind_Ok in H. destruct H as [d [Hd H]]. injection H as <-.
    apply _dataset_builder_name in Hd. repeat split; auto. discriminate. }
  destruct (is_link_to_group full_key).
  { apply bind_Ok in H. destruct H as [g [Hg H]]. injection H as <-.
    apply SpecFileH5Group_init_spec in Hg. destruct Hg as [Hn [_ Hs]].
    repeat split; auto. intros g' Heq. now injection Heq as <-. }
  destruct (is_link_to_dataset full_key); [|discriminate].
  apply bind_Ok in H. destruct H as [d [Hd H]]. injection H as <-.
  apply _link_to_dataset_builder_name in Hd. repeat split; auto. discriminate.
Qed.

Hypothesis Hsf : keys_without_newline sf = true.

Lemma sf_keys_nolf : forallb nolf (sf_keys sf) = true.
Proof.
  unfold sf_keys. unfold keys_without_newline in Hsf.
  induction (sf_scans sf) as [|entry l IH]; simpl in *; [reflexivity|].
  apply andb_prop in Hsf. destruct Hsf as [H1 H2].
  apply andb_prop in H1. destruct H1 as [H1 _].
  apply andb_prop in H1. destruct H1 as [H1 _].
  rewrite H1. simpl. now apply IH.
Qed.

Lemma mca_list_nolf (n : nat) :
  forallb nolf (map (fun i => ("mca_" ++ str_of_nat i)%string) (seq 0 n)) = true.
Proof.
  apply forallb_forall. intros x Hx. apply in_map_iff in Hx.
  destruct Hx as [i [<- _]]. simpl. apply nolf_str_of_nat.
Qed.

Lemma keys_nolf (self : Group) (ks : list string) :
  scan_of_file sf self -> keys sf self = Ok (Some ks) -> forallb nolf ks = true.
Proof.
  intros Hscan. unfold keys, SpecFileH5Group_keys, SpecFileH5LinkToGroup_keys, self_scan.
  assert (Hstatic : forall l, forallb nolf l = true -> Ok (Some l) = Ok (Some ks) ->
                              forallb nolf ks = true).
  { intros l Hl Heq. now injection Heq as <-. }
  destruct (g_class self).
  - destruct (String.eqb (g_name self) "/"); [apply Hstatic, sf_keys_nolf|].
    destruct (matches scan_pattern (g_name self)); [now apply Hstatic|].
    destruct (g_scan self) as [scan|] eqn:Hg.
    2:{ repeat match goal with
               | |- context [if ?b then _ else _] => destruct b
               end; try discriminate; now apply Hstatic. }
    destruct (Hscan scan Hg) as [k Hk].
    destruct (@scan_keys_nolf sf k scan Hsf Hk) as [Hl Hm].
    cbn [bind].
    destruct (matches positioners_group_pattern (g_name self)); [now apply Hstatic|].
    destruct (matches measurement_mca_group_pattern (g_name self)); [now apply Hstatic|].
    destruct (matches instrument_mca_group_pattern (g_name self)).
    { destruct (dict_has (mca_header scan) "CTIME"); now apply Hstatic. }
    intros H.
    apply bind_Ok in H. destruct H as [_ [_ H]].
    apply bind_Ok in H. destruct H as [r [_ H]].
    apply bind_Ok in H. destruct H as [_ [_ H]].
    apply bind_Ok in H. destruct H as [n [_ H]].
    destruct (matches measurement_group_pattern (g_name self)).
    { revert H. apply Hstatic. rewrite forallb_app, Hl. apply mca_list_nolf. }
    destruct (matches instrument_pattern (g_name self)); [|discriminate].
    revert H. apply Hstatic. rewrite forallb_app. simpl. apply mca_list_nolf.
  - destruct (matches measurement_mca_info_pattern (g_name self)); [|discriminate].
    now apply Hstatic.
  - apply Hstatic, sf_keys_nolf.
Qed.

Lemma member_nolf (self : Group) (ks : list string) (key : string) (member : Member) :
  nolf (g_name self) = true -> scan_of_file sf self ->
  keys sf self = Ok (Some ks) -> In key ks ->
  __getitem__ py_float sf self key = Ok member ->
  nolf (member_name member) = true.
Proof.
  intros Hname Hscan Hkeys Hin Hget.
  apply keys_nolf in Hkeys; [|assumption].
  rewrite forallb_forall in Hkeys. specialize (Hkeys key Hin).
  apply getitem_spec in Hget. destruct Hget as [-> _].
  unfold full_key_of. destruct (negb (startswith key "/")); [|assumption].
  rewrite !nolf_app, Hkeys, nolf_rstrip_slash by assumption. reflexivity.
Qed.

Lemma Traversed_inv (self : Group) :
  Traversed py_float sf self -> nolf (g_name self) = true /\ scan_of_file sf self.
Proof.
  induction 1 as [|self ks key g Hself [IHn IHs] Hkeys Hin Hget Hlink].
  - split; [reflexivity|]. intros scan H. discriminate.
  - split.
    + change (nolf (member_name (MGroup g)) = true). eapply member_nolf; eauto.
    + apply getitem_spec in Hget. destruct Hget as [_ [_ Hg]]. now apply Hg.
Qed.

Lemma count_true_pos (l : list bool) : existsb (fun b => b) l = true -> (1 <= count_true l)%nat.
Proof.
  unfold count_true. induction l as [|[|] l IH]; simpl; [discriminate | lia | exact IH].
Qed.

End TraversalPaths.

(** C1. In a file whose keys contain no line feed, the name of every member
    a traversal obtains satisfies exactly one of the four classifiers; and a
    name that matches the pattern of [measurement/mca_<i>] is a group and
    not a dataset. *)
Theorem grammar_partition (py_float : string -> result float) (sf : SpecFile) (path : string) :
  keys_without_newline sf = true ->
  Produced py_float sf path ->
  count_true (classes path) = 1%nat /\
  (matches measurement_mca_group_pattern path = true ->
   is_group path = true /\ is_dataset path = false).
Proof.
  intros Hsf [self [ks [key [member [Htr [Hkeys [Hin [Hget <-]]]]]]]].
  destruct (Traversed_inv Hsf Htr) as [Hname Hscan].
  assert (Hnolf : nolf (member_name member) = true) by (eapply member_nolf; eauto).
  split.
  - pose proof (classes_exclusive _ Hnolf) as Hle.
    apply getitem_spec in Hget. destruct Hget as [Heq [Hex _]].
    rewrite <- Heq in Hex. apply count_true_pos in Hex. lia.
  - intros Hm. unfold is_group, is_dataset, _bulk_match. rewrite Hm. split; [|reflexivity].
    repeat match goal with
           | |- context [if ?b then _ else _] => destruct b
           end; reflexivity.
Qed.

Lemma grammar_partition_witness :
  count_true (classes "/1.1/measurement/mca_0") = 1%nat /\
  (matches measurement_mca_group_pattern "/1.1/measurement/mca_0" = true ->
   is_group "/1.1/measurement/mca_0" = true /\ is_dataset "/1.1/measurement/mca_0" = false).
Proof.
  apply (@grammar_partition no_float sample_file "/1.1/measurement/mca_0").
  - reflexivity.
  - exists measurement_1_1,
      ["Pslit HGap"; "Seconds"; "mca_0"; "mca_1"; "mca_2"], "mca_0", (MGroup measurement_mca_0).
    split.
    + apply Traversed_subgroup with (self := scan_1_1) (ks := scan_submembers)
                                    (key := "measurement").
      * apply Traversed_subgroup with (self := SpecFileH5 sample_file) (ks := ["1.1"; "2.1"])
                                      (key := "1.1").
        -- apply Traversed_root.
        -- reflexivity.
        -- simpl. auto.
        -- reflexivity.
        -- reflexivity.
      * reflexivity.
      * simpl. auto.
      * reflexivity.
      * reflexivity.
    + split; [reflexivity|]. split; [simpl; auto|]. split; reflexivity.
Defined.

(** Without the hypothesis on line feeds the classifiers overlap: [$] also
    matches before a final line feed, and [[^/]+] matches a line feed. *)
Example classes_overlap_on_line_feed :
  classes ("/1.1/measurement/" ++ String LF EmptyString) = [true; true; false; false].
Proof. reflexivity. Qed.

(** ** Positioner datasets *)

Lemma positioners_path_not_title (name : string) :
  matches positioners_data_pattern name = true ->
  matches title_pattern name = false /\ matches start_time_pattern name = false.
Proof.
  rewrite !matches_accepts. unfold_patterns.
  rewrite !accepts_scan by solve_reject.
  destruct (scan_tail name) as [t|]; [|discriminate].
  destruct t as [|c0 [|c1 t]]; cbn; try discriminate.
  - now rewrite andb_false_r.
  - destruct (Ascii.eqb_spec "/" c0) as [<-|]; [|discriminate].
    destruct (Ascii.eqb_spec "i" c1) as [<-|]; [|discriminate].
    intros _. split; reflexivity.
Qed.

(** C8. For a name the module recognises as the positioner dataset of
    [motor]: when [motor] is one of the scan's column labels the dataset is
    built from the data column of that label, otherwise from the position
    the scan reports for the motor; a column of floats keeps its shape and
    its elements (as float32), and a reported position of +infinity gives
    the float32 scalar +infinity. *)
Theorem positioner_precedence (py_float : string -> result float) (sf : SpecFile)
        (name : string) (scan : Scan) (motor : string) :
  sf_getitem sf (_get_scan_key_in_name name) = Ok scan ->
  _get_motor_in_name name = Some motor ->
  _dataset_builder py_float name sf =
    (if str_in motor (labels scan)
     then let! col := data_column_by_name scan motor in
          SpecFileH5Dataset ClsDataset (NdArray col) name
     else let! pos := motor_position_by_name scan motor in
          SpecFileH5Dataset ClsDataset (PyFloat pos) name) /\
  (forall col, str_in motor (labels scan) = true ->
               data_column_by_name scan motor = Ok col ->
               dt_kind (nd_dtype col) = Kf ->
               exists d, _dataset_builder py_float name sf = Ok d /\
                         nd_dtype (ds_array d) = float32 /\
                         nd_shape (ds_array d) = nd_shape col /\
                         nd_data (ds_array d) = map to_float32 (nd_data col)) /\
  (str_in motor (labels scan) = false ->
   motor_position_by_name scan motor = Ok inf ->
   exists d, _dataset_builder py_float name sf = Ok d /\
             ds_array d = {| nd_dtype := float32; nd_shape := []; nd_data := [SFloat inf] |}).
Proof.
  intros Hscan Hmotor.
  assert (Hbuild : _dataset_builder py_float name sf =
    (if str_in motor (labels scan)
     then let! col := data_column_by_name scan motor in
          SpecFileH5Dataset ClsDataset (NdArray col) name
     else let! pos := motor_position_by_name scan motor in
          SpecFileH5Dataset ClsDataset (PyFloat pos) name)).
  { unfold _get_motor_in_name in Hmotor.
    destruct (re_match positioners_data_pattern name) as [m|] eqn:Hm; [|discriminate].
    assert (Hmatch : matches positioners_data_pattern name = true)
      by (unfold matches; now rewrite Hm).
    destruct (positioners_path_not_title name Hmatch) as [Htitle Hstart].
    unfold _dataset_builder. cbv zeta.
    rewrite Hscan, Htitle, Hstart, Hm. cbn [bind].
    unfold group1. rewrite Hmotor. cbn [bind].
    destruct (str_in motor (labels scan)).
    - destruct (data_column_by_name scan motor); reflexivity.
    - destruct (motor_position_by_name scan motor); reflexivity. }
  split; [exact Hbuild|]. split.
  - intros col Hin Hcol Hkind. rewrite Hbuild, Hin, Hcol. cbn [bind].
    unfold SpecFileH5Dataset. rewrite Hkind. cbn [bind].
    eexists. split; [reflexivity|]. repeat split.
  - intros Hin Hpos. rewrite Hbuild, Hin, Hpos.
    eexists. split; reflexivity.
Qed.

Lemma positioner_precedence_witness :
  (exists d, _dataset_builder no_float "/1.1/instrument/positioners/MRTSlit UP" sample_file = Ok d /\
             ds_array d = {| nd_dtype := float32; nd_shape := []; nd_data := [SFloat inf] |}) /\
  (exists d, _dataset_builder no_float "/1.1/instrument/positioners/Pslit HGap" sample_file = Ok d /\
             nd_dtype (ds_array d) = float32 /\
             nd_shape (ds_array d) = [2%nat] /\
             nd_data (ds_array d) = map to_float32 (nd_data (column [7; 8]%Z))).
Proof.
  split.
  - apply (@positioner_precedence no_float sample_file
             "/1.1/instrument/positioners/MRTSlit UP" sample_scan1 "MRTSlit UP");
      reflexivity.
  - destruct (@positioner_precedence no_float sample_file
                "/1.1/instrument/positioners/Pslit HGap" sample_scan1 "Pslit HGap"
                eq_refl eq_refl) as [_ [Hcolumn _]].
    apply (Hcolumn (column [7; 8]%Z)); reflexivity.
Defined.

(** ** More on traversal *)

Ltac use_tail IH H :=
  let k0 := fresh "k0" in let m0 := fresh "m0" in
  let Hin := fresh "Hin" in let Hrest := fresh "Hrest" in
  destruct (IH _ H) as [k0 [m0 [Hin Hrest]]];
  exists k0, m0; split; [now right | exact Hrest].

Section VisitProperties.

Variable py_float : string -> result float.
Variable R : Type.
Variable sf : SpecFile.

(** X2. [visititems] passes no name of a link to a dataset to its callback, and
    only appends to the record of calls. *)
Lemma visititems_calls_no_link_to_dataset (func : string -> Member -> option R) (fuel : nat) :
  forall (self : Group) (calls : list string) (ret : option R) (calls' : list string),
    visititems py_float fuel sf self func calls = Returned ret calls' ->
    exists new, calls' = calls ++ new /\
                forallb (fun n => negb (is_link_to_dataset n)) new = true.
Proof.
  induction fuel as [|fuel IH]; intros self calls ret calls'; [discriminate|].
  simpl. destruct (keys sf self) as [[ks|]|]; try discriminate.
  revert calls. induction ks as [|key ks IHks]; intros calls H.
  - injection H as _ <-. exists []. now rewrite app_nil_r.
  - destruct (__getitem__ py_float sf self key) as [member|]; [|discriminate].
    destruct (negb (is_link_to_dataset (member_name member))) eqn:Hlink.
    + destruct (func (member_name member) member) as [v|].
      * injection H as _ <-. exists [member_name member]. simpl. now rewrite Hlink.
      * destruct member as [g|d].
        -- destruct (isinstance_Group (MGroup g) && negb (isinstance_LinkToGroup (MGroup g))).
           ++ destruct (visititems py_float fuel sf g func (calls ++ [member_name (MGroup g)]))
                as [r1 c1| |] eqn:Hsub; try discriminate.
              apply IH in Hsub. destruct Hsub as [new1 [-> Hnew1]].
              apply IHks in H. destruct H as [new2 [-> Hnew2]].
              exists ([member_name (MGroup g)] ++ new1 ++ new2).
              split; [now rewrite !app_assoc|].
              rewrite !forallb_app, Hnew1, Hnew2. simpl in Hlink |- *. now rewrite Hlink.
           ++ apply IHks in H. destruct H as [new2 [-> Hnew2]].
              exists ([member_name (MGroup g)] ++ new2).
              split; [now rewrite !app_assoc|].
              rewrite forallb_app, Hnew2. simpl in Hlink |- *. now rewrite Hlink.
        -- apply IHks in H. destruct H as [new2 [-> Hnew2]].
           exists ([member_name (MDataset d)] ++ new2).
           split; [now rewrite !app_assoc|].
           rewrite forallb_app, Hnew2. simpl in Hlink |- *. now rewrite Hlink.
    + destruct member as [g|d].
      * destruct (isinstance_Group (MGroup g) && negb (isinstance_LinkToGroup (MGroup g))).
        -- destruct (visititems py_float fuel sf g func calls) as [r1 c1| |] eqn:Hsub;
             try discriminate.
           apply IH in Hsub. destruct Hsub as [new1 [-> Hnew1]].
           apply IHks in H. destruct H as [new2 [-> Hnew2]].
           exists (new1 ++ new2). split; [now rewrite !app_assoc|].
           now rewrite forallb_app, Hnew1, Hnew2.
        -- now apply IHks in H.
      * now apply IHks in H.
Qed.

(** X3. A value returned by [visit] is the value the callback returned for an
    immediate member of the group, the last name it was called on. *)
Lemma visit_value_of_member (func : string -> option R) (fuel : nat) (self : Group)
      (calls : list string) (v : R) (calls' : list string) :
  visit py_float fuel sf self func calls = Returned (Some v) calls' ->
  exists ks key member,
    keys sf self = Ok (Some ks) /\ In key ks /\
    __getitem__ py_float sf self key = Ok member /\
    func (member_name member) = Some v /\
    last calls' EmptyString = member_name member.
Proof.
  destruct fuel as [|fuel]; [discriminate|].
  simpl. destruct (keys sf self) as [[ks|]|]; try discriminate.
  intros H. exists ks.
  assert (Hgoal : exists key member,
             In key ks /\ __getitem__ py_float sf self key = Ok member /\
             func (member_name member) = Some v /\
             last calls' EmptyString = member_name member).
  { revert calls H. induction ks as [|key ks IHks]; intros calls H; [discriminate|].
    destruct (__getitem__ py_float sf self key) as [member|] eqn:Hget; [|discriminate].
    destruct (negb (is_link_to_dataset (member_name member)) &&
              negb (is_link_to_group (member_name member))).
    - destruct (func (member_name member)) as [v0|] eqn:Hfunc.
      + injection H as -> <-. exists key, member.
        repeat split; auto; [now left | apply last_last].
      + destruct member as [g|d].
        * destruct (isinstance_Group (MGroup g) && negb (isinstance_LinkToGroup (MGroup g))).
          -- destruct (visit py_float fuel sf g func (calls ++ [member_name (MGroup g)]))
               as [r1 c1| |]; try discriminate. use_tail IHks H.
          -- use_tail IHks H.
        * use_tail IHks H.
    - destruct member as [g|d].
      + destruct (isinstance_Group (MGroup g) && negb (isinstance_LinkToGroup (MGroup g))).
        * destruct (visit py_float fuel sf g func calls) as [r1 c1| |]; try discriminate.
          use_tail IHks H.
        * use_tail IHks H.
      + use_tail IHks H. }
  destruct Hgoal as [key [member [Hin Hrest]]].
  exists key, member. repeat split; auto; apply Hrest.
Qed.

(** X4. With callbacks that always return [None], [visit] calls its callback
    on the names [visititems] calls its own on, the links to groups left
    out. *)
Lemma visit_visititems_names (fuel : nat) :
  forall (self : Group) (calls1 calls2 : list string) (ret : option R) (calls2' : list string),
    visititems py_float fuel sf self (fun _ _ => @None R) calls2 = Returned ret calls2' ->
    exists new,
      calls2' = calls2 ++ new /\
      visit py_float fuel sf self (fun _ => @None R) calls1 =
        Returned None (calls1 ++ filter (fun n => negb (is_link_to_group n)) new).
Proof.
  induction fuel as [|fuel IH]; intros self calls1 calls2 ret calls2'; [discriminate|].
  simpl. destruct (keys sf self) as [[ks|]|]; try discriminate.
  revert calls1 calls2. induction ks as [|key ks IHks]; intros calls1 calls2 H.
  - injection H as _ <-. exists []. simpl. now rewrite !app_nil_r.
  - destruct (__getitem__ py_float sf self key) as [member|]; [|discriminate].
    destruct (is_link_to_dataset (member_name member)) eqn:Hld; cbn [negb andb] in H |- *.
    + destruct member as [g|d].
      * destruct (isinstance_Group (MGroup g) && negb (isinstance_LinkToGroup (MGroup g))).
        -- destruct (visititems py_float fuel sf g (fun _ _ => None) calls2)
             as [r1 c1| |] eqn:Hsub; try discriminate.
           destruct (IH _ calls1 _ _ _ Hsub) as [new1 [-> Hv1]]. rewrite Hv1.
           destruct (IHks (calls1 ++ filter (fun n => negb (is_link_to_group n)) new1) _ H)
             as [new2 [-> Hv2]]. rewrite Hv2.
           exists (new1 ++ new2). now rewrite filter_app, !app_assoc.
        -- now apply IHks.
      * now apply IHks.
    + destruct (is_link_to_group (member_name member)) eqn:Hlg; cbn [negb] in H |- *.
      * (* a link to a group: called by visititems only *)
        destruct member as [g|d].
        -- destruct (isinstance_Group (MGroup g) && negb (isinstance_LinkToGroup (MGroup g))).
           ++ destruct (visititems py_float fuel sf g (fun _ _ => None)
                          (calls2 ++ [member_name (MGroup g)])) as [r1 c1| |] eqn:Hsub;
                try discriminate.
              destruct (IH _ calls1 _ _ _ Hsub) as [new1 [-> Hv1]]. rewrite Hv1.
              destruct (IHks (calls1 ++ filter (fun n => negb (is_link_to_group n)) new1) _ H)
                as [new2 [-> Hv2]]. rewrite Hv2.
              exists ([member_name (MGroup g)] ++ new1 ++ new2).
              split; [now rewrite !app_assoc|].
              rewrite !filter_app. simpl in Hlg |- *. rewrite Hlg. simpl.
              now rewrite !app_assoc.
           ++ destruct (IHks calls1 _ H) as [new2 [-> Hv2]]. rewrite Hv2.
              exists ([member_name (MGroup g)] ++ new2).
              split; [now rewrite !app_assoc|].
              rewrite filter_app. simpl in Hlg |- *. now rewrite Hlg.
        -- destruct (IHks calls1 _ H) as [new2 [-> Hv2]]. rewrite Hv2.
           exists ([member_name (MDataset d)] ++ new2).
           split; [now rewrite !app_assoc|].
           rewrite filter_app. simpl in Hlg |- *. now rewrite Hlg.
      * destruct member as [g|d].
        -- destruct (isinstance_Group (MGroup g) && negb (isinstance_LinkToGroup (MGroup g))).
           ++ destruct (visititems py_float fuel sf g (fun _ _ => None)
                          (calls2 ++ [member_name (MGroup g)])) as [r1 c1| |] eqn:Hsub;
                try discriminate.
              destruct (IH _ (calls1 ++ [member_name (MGroup g)]) _ _ _ Hsub) as [new1 [-> Hv1]].
              rewrite Hv1.
              destruct (IHks ((calls1 ++ [member_name (MGroup g)]) ++
                              filter (fun n => negb (is_link_to_group n)) new1) _ H)
                as [new2 [-> Hv2]]. rewrite Hv2.
              exists ([member_name (MGroup g)] ++ new1 ++ new2).
              split; [now rewrite !app_assoc|].
              rewrite !filter_app. simpl in Hlg |- *. rewrite Hlg. simpl.
              now rewrite <- !app_assoc.
           ++ destruct (IHks (calls1 ++ [member_name (MGroup g)]) _ H) as [new2 [-> Hv2]].
              rewrite Hv2.
              exists ([member_name (MGroup g)] ++ new2).
              split; [now rewrite !app_assoc|].
              rewrite filter_app. simpl in Hlg |- *. rewrite Hlg. simpl.
              now rewrite <- !app_assoc.
        -- destruct (IHks (calls1 ++ [member_name (MDataset d)]) _ H) as [new2 [-> Hv2]].
           rewrite Hv2.
           exists ([member_name (MDataset d)] ++ new2).
           split; [now rewrite !app_assoc|].
           rewrite filter_app. simpl in Hlg |- *. rewrite Hlg. simpl.
           now rewrite <- !app_assoc.
Qed.

End VisitProperties.

(** ** More on de-multiplexing *)

Lemma demultiplex_consistent (scan : Scan) (i n_lines n_an : nat) :
  fst (data_shape scan) = n_lines ->
  n_lines <> 0%nat ->
  n_an <> 0%nat ->
  length (spectra (mca scan)) = (n_lines * n_an)%nat ->
  _demultiplex_mca scan i =
    collect_spectra (spectra (mca scan))
      (map (fun j => (i + j * n_an)%nat) (seq 0 ((n_lines * n_an - i + n_an - 1) / n_an))).
Proof.
  intros Hlines Hnz Han Hlen.
  unfold _demultiplex_mca, py_mod, py_floordiv, py_range.
  rewrite Hlines, Hlen.
  destruct (Nat.eqb_spec n_lines 0) as [|_]; [contradiction|].
  rewrite (Nat.mul_comm n_lines n_an), Nat.Div0.mod_mul, Nat.div_mul by assumption.
  cbn [bind assert Nat.eqb].
  destruct (Nat.eqb_spec n_an 0) as [|_]; [contradiction|].
  reflexivity.
Qed.

Lemma range_count_general (i n_lines n_an : nat) :
  n_an <> 0%nat ->
  ((n_lines * n_an - i + n_an - 1) / n_an = n_lines - i / n_an)%nat.
Proof.
  intros Han.
  pose proof (Nat.div_mod_eq i n_an) as Hi.
  pose proof (Nat.mod_upper_bound i n_an Han) as Hr.
  set (q := (i / n_an)%nat) in *. set (r := (i mod n_an)%nat) in *.
  destruct (Nat.le_gt_cases n_lines q) as [Hle|Hgt].
  - replace (n_lines - q)%nat with 0%nat by lia.
    apply Nat.div_small. nia.
  - symmetry. apply Nat.div_unique with (r := (n_an - 1 - r)%nat); [lia|].
    assert (Hq : (n_lines * n_an = (n_lines - q) * n_an + q * n_an)%nat) by nia.
    nia.
Qed.

Lemma demultiplex_rows (scan : Scan) (i n_lines n_an : nat) :
  fst (data_shape scan) = n_lines ->
  n_lines <> 0%nat ->
  n_an <> 0%nat ->
  length (spectra (mca scan)) = (n_lines * n_an)%nat ->
  exists rows,
    _demultiplex_mca scan i = Ok rows /\
    length rows = (n_lines - i / n_an)%nat /\
    (forall j, (j < n_lines - i / n_an)%nat ->
               nth_error rows j = nth_error (spectra (mca scan)) (i + j * n_an)) /\
    ((n_lines * n_an <= i)%nat -> rows = []).
Proof.
  intros Hlines Hnz Han Hlen.
  rewrite (@demultiplex_consistent scan i n_lines n_an Hlines Hnz Han Hlen), range_count_general by assumption.
  pose proof (Nat.div_mod_eq i n_an) as Hi.
  pose proof (Nat.mod_upper_bound i n_an Han) as Hr.
  destruct (collect_spectra_spec (spectra (mca scan))
              (map (fun j => (i + j * n_an)%nat) (seq 0 (n_lines - i / n_an))))
    as [rows [Hrows [Hlenrows Hnth]]].
  { intros k Hk. apply in_map_iff in Hk. destruct Hk as [j [<- Hj]].
    apply in_seq in Hj. rewrite Hlen. nia. }
  rewrite length_map, length_seq in Hlenrows.
  exists rows. split; [exact Hrows|]. split; [exact Hlenrows|]. split.
  - intros j Hj. apply Hnth. rewrite nth_error_map, nth_error_seq.
    destruct (Nat.ltb_spec j (n_lines - i / n_an)); [reflexivity | lia].
  - intros Hge. assert (Hq : (n_lines <= i / n_an)%nat).
    { apply Nat.div_le_lower_bound; [assumption | lia]. }
    destruct rows; [reflexivity|]. simpl in Hlenrows. lia.
Qed.

(** X5. The analyser index is not checked against the number of analysers:
    with a consistent layout, any index [i] gives the spectra at
    [i], [i + n_an], ... below the number of spectra, that is
    [n_lines - i / n_an] rows, and no row at all from the number of spectra
    on. *)
Theorem demultiplex_any_index (scan : Scan) (i n_lines n_an : nat) :
  fst (data_shape scan) = n_lines ->
  n_lines <> 0%nat ->
  n_an <> 0%nat ->
  length (spectra (mca scan)) = (n_lines * n_an)%nat ->
  exists rows,
    _demultiplex_mca scan i = Ok rows /\
    length rows = (n_lines - i / n_an)%nat /\
    (forall j, (j < n_lines - i / n_an)%nat ->
               nth_error rows j = nth_error (spectra (mca scan)) (i + j * n_an)) /\
    ((n_lines * n_an <= i)%nat -> rows = []).
Proof.
  exact (@demultiplex_rows scan i n_lines n_an).
Qed.

(** X6. Every recorded spectrum is delivered once: the spectrum at flat index
    [idx] is row [idx / n_an] of analyser [idx mod n_an]. *)
Theorem demultiplex_covers (scan : Scan) (idx n_lines n_an : nat) :
  fst (data_shape scan) = n_lines ->
  length (spectra (mca scan)) = (n_lines * n_an)%nat ->
  (idx < n_lines * n_an)%nat ->
  exists rows,
    _demultiplex_mca scan (idx mod n_an) = Ok rows /\
    length rows = n_lines /\
    nth_error rows (idx / n_an) = nth_error (spectra (mca scan)) idx.
Proof.
  intros Hlines Hlen Hidx.
  assert (Hnz : n_lines <> 0%nat) by nia.
  assert (Han : n_an <> 0%nat) by nia.
  destruct (@demultiplex_rows scan (idx mod n_an) n_lines n_an Hlines Hnz Han Hlen)
    as [rows [Hrows [Hlenrows [Hnth _]]]].
  pose proof (Nat.mod_upper_bound idx n_an Han) as Hr.
  rewrite (Nat.div_small (idx mod n_an) n_an Hr), Nat.sub_0_r in Hlenrows, Hnth.
  exists rows. split; [exact Hrows|]. split; [exact Hlenrows|].
  assert (Hq : (idx / n_an < n_lines)%nat).
  { apply Nat.Div0.div_lt_upper_bound. lia. }
  rewrite (Hnth _ Hq). f_equal.
  pose proof (Nat.div_mod_eq idx n_an). lia.
Qed.

(** ** Patterns that exclude one another on every string *)

Lemma digit_not_LF (c : ascii) : is_digit c = true -> Ascii.eqb c LF = false.
Proof.
  intros Hc. rewrite Ascii.eqb_sym. now apply digit_not.
Qed.

Lemma is_end_digit (c : ascii) (u : string) : is_digit c = true -> is_end (String c u) = false.
Proof.
  intros Hc. destruct u; simpl; [now apply digit_not_LF | reflexivity].
Qed.

Lemma rep_through_digits (p : ascii -> bool) (k : string -> bool) (s : string) :
  (forall c, is_digit c = true -> p c = true) ->
  (forall c u, is_digit c = true -> k (String c u) = false) ->
  rep p s k = rep p (skip is_digit s) k.
Proof.
  intros Hqp Hk. induction s as [|c s IH]; [reflexivity|].
  simpl skip. destruct (is_digit c) eqn:Hq; [|reflexivity].
  simpl rep. now rewrite (Hqp c Hq), (Hk c s Hq), orb_false_r.
Qed.

Lemma rep_noslash_end (s : string) :
  rep not_slash s (fun s' => is_end s' && anything s') = noslash s.
Proof.
  induction s as [|c s IH]; [reflexivity|].
  simpl rep. simpl noslash. rewrite IH. unfold anything. rewrite andb_true_r.
  destruct (not_slash c) eqn:Hc; simpl.
  - destruct s as [|d s]; [reflexivity|]. simpl. now rewrite orb_false_r.
  - destruct s as [|d s]; [|reflexivity]. simpl. unfold not_slash in Hc.
    apply negb_false_iff in Hc. apply Ascii.eqb_eq in Hc. now subst c.
Qed.

Lemma noslash_skip_digits (s : string) : noslash s = noslash (skip is_digit s).
Proof.
  induction s as [|c s IH]; [reflexivity|]. simpl skip.
  destruct (is_digit c) eqn:Hc; [|reflexivity].
  simpl noslash. now rewrite (digit_not_slash c Hc).
Qed.

Ltac solve_reject_end :=
  let c := fresh "c" in let u := fresh "u" in let Hc := fresh "Hc" in
  intros c u Hc; cbn [accepts lit];
  rewrite ?(digit_not "/" c) by (reflexivity || exact Hc);
  rewrite ?(is_end_digit c u Hc);
  reflexivity.

Lemma scan_tail_not_root_end (s t : string) (k : string -> bool) :
  scan_tail s = Some t -> accepts is_end root_pattern s k = false.
Proof.
  unfold scan_tail, root_pattern. cbn [accepts lit].
  destruct s as [|c0 [|c1 s1]]; try discriminate.
  destruct (Ascii.eqb "/" c0); [|discriminate]. cbn [andb].
  destruct (is_digit c1) eqn:Hc; [|discriminate]. intros _.
  now rewrite (is_end_digit c1 s1 Hc).
Qed.

Ltac close_end :=
  solve [ unfold anything, LF; cbn;
          repeat (match goal with
                  | |- context [not_slash ?c] => destruct (not_slash c)
                  | |- context [noslash ?u] => destruct (noslash u)
                  | |- context [rep ?p ?u ?k] => destruct (rep p u k)
                  | |- context [is_end ?u] => destruct (is_end u)
                  end; cbn);
          unfold count_true; cbn; lia ].

Ltac step_end :=
  cbn; rewrite ?rep_noslash_end;
  first
    [ match goal with
      | |- context [is_digit ?c] =>
          is_var c;
          let Hc := fresh "Hc" in
          destruct (is_digit c) eqn:Hc;
          [kill_digit c Hc; rewrite ?(digit_not_LF c Hc)|]
      end
    | match goal with
      | |- context [rep is_digit ?u ?K] =>
          rewrite ?(noslash_skip_digits u);
          rewrite !(rep_skip is_digit) by solve_reject_end;
          generalize (skip is_digit u); clear u; intros u
      end
    | match goal with
      | |- context [match ?u with EmptyString => _ | String _ _ => _ end] =>
          is_var u; destruct u as [|? u]
      end
    | match goal with
      | |- context [Ascii.eqb ?x ?c] =>
          is_var c; destruct (Ascii.eqb_spec x c) as [<-|?]
      | |- context [Ascii.eqb ?c ?x] =>
          is_var c; destruct (Ascii.eqb_spec c x) as [->|?]
      end ].

Lemma clusters_exclusive (name : string) : (count_true (clusters name) <= 1)%nat.
Proof.
  unfold clusters. rewrite !matches_accepts.
  destruct (scan_tail name) as [t|] eqn:E.
  2:{ unfold_patterns. rewrite !accepts_scan by solve_reject_end. rewrite E.
      destruct (accepts is_end (L"/" ;; Dollar) name anything); unfold count_true; cbn; lia. }
  rewrite (scan_tail_not_root_end name anything E).
  unfold_patterns. rewrite !accepts_scan by solve_reject_end. rewrite E.
  clear name E.
  repeat step_end.
  all: close_end.
Qed.

(** ** First matches on paths built from their parts *)

Lemma heads_seq (r1 r2 : regex) (s u v : string) (c1 c2 : captures) :
  Heads r1 s u c1 -> Heads r2 u v c2 -> Heads (Seq r1 r2) s v (c1 ++ c2).
Proof.
  intros [l1 H1] [l2 H2]. unfold Heads. cbn [run]. rewrite H1. cbn [flat_map fst snd].
  rewrite H2. cbn [map fst snd app]. eexists. reflexivity.
Qed.

Lemma heads_lit (l s : string) : nonempty l = true -> Heads (lit l) (l ++ s) s [].
Proof.
  induction l as [|c l IH]; [discriminate|]. intros _.
  destruct l as [|d l].
  - exists []. cbn. now rewrite Ascii.eqb_refl.
  - change (lit (String c (String d l))) with (Seq (Chr c) (lit (String d l))).
    change (String c (String d l) ++ s)%string with (String c (String d l ++ s)).
    apply (@heads_seq (Chr c) (lit (String d l)) _ (String d l ++ s)%string s [] []).
    + exists []. cbn [run]. now rewrite Ascii.eqb_refl.
    + now apply IH.
Qed.

Lemma star_head (p : ascii -> bool) (d t : string) :
  all_chars p d = true -> stops p t = true -> exists l, star p (d ++ t) = t :: l.
Proof.
  intros Hd Ht. induction d as [|c d IH].
  - destruct t as [|c t]; simpl in *; [now exists []|].
    apply negb_true_iff in Ht. rewrite Ht. now exists [].
  - simpl in Hd. apply andb_prop in Hd. destruct Hd as [Hc Hd].
    destruct (IH Hd) as [l Hl]. simpl. rewrite Hc, Hl. simpl. eexists. reflexivity.
Qed.

Lemma heads_plus (p : ascii -> bool) (d t : string) :
  nonempty d = true -> all_chars p d = true -> stops p t = true ->
  Heads (Plus p) (d ++ t) t [].
Proof.
  intros Hne Hd Ht. destruct d as [|c d]; [discriminate|].
  simpl in Hd. apply andb_prop in Hd. destruct Hd as [Hc Hd].
  destruct (star_head p d t Hd Ht) as [l Hl].
  unfold Heads. cbn [run append]. rewrite Hc, Hl. cbn [map]. eexists. reflexivity.
Qed.

Lemma heads_grp (g : string) (r : regex) (s u : string) (c : captures) :
  Heads r s u c -> Heads (Grp g r) s u ((g, consumed s u) :: c).
Proof.
  intros [l H]. unfold Heads. cbn [run]. rewrite H. cbn [map fst snd]. eexists. reflexivity.
Qed.

Lemma heads_dollar (s : string) : is_end s = true -> Heads Dollar s s [].
Proof.
  intros H. unfold Heads. cbn [run]. rewrite H. eexists. reflexivity.
Qed.

Lemma heads_opt_skip (r : regex) (s : string) : run r s = [] -> Heads (Opt r) s s [].
Proof.
  intros H. unfold Heads. cbn [run]. rewrite H. eexists. reflexivity.
Qed.

Lemma heads_re_match (r : regex) (s u : string) (c : captures) :
  Heads r s u c -> re_match r s = Some c /\ matches r s = true.
Proof.
  intros [l H]. unfold matches, re_match. rewrite H. now split.
Qed.

Lemma length_append (a b : string) :
  String.length (a ++ b) = (String.length a + String.length b)%nat.
Proof.
  induction a as [|c a IH]; simpl; [reflexivity | now rewrite IH].
Qed.

Lemma substring_prefix (x r : string) : substring 0 (String.length x) (x ++ r) = x.
Proof.
  induction x as [|c x IH]; simpl.
  - destruct r; reflexivity.
  - now rewrite IH.
Qed.

Lemma consumed_app (x r : string) : consumed (x ++ r) r = x.
Proof.
  unfold consumed. rewrite length_append.
  replace (String.length x + String.length r - String.length r)%nat with (String.length x) by lia.
  apply substring_prefix.
Qed.

Lemma append_assoc (a b c : string) : ((a ++ b) ++ c = a ++ (b ++ c))%string.
Proof.
  induction a as [|x a IH]; simpl; [reflexivity | now rewrite IH].
Qed.

Lemma append_empty_r (a : string) : (a ++ EmptyString)%string = a.
Proof.
  induction a as [|x a IH]; simpl; [reflexivity | now rewrite IH].
Qed.

Lemma digits_parts (d : string) :
  digits d = true -> nonempty d = true /\ all_chars is_digit d = true.
Proof.
  unfold digits. intros H. now apply andb_prop in H.
Qed.

(** The scan key [<a>.<b>] at the start of a path, followed by [rest]. *)
Lemma heads_scan_key (a b rest : string) :
  digits a = true -> digits b = true -> stops is_digit rest = true ->
  Heads (D+ ;; L"." ;; D+) (a ++ "." ++ b ++ rest) rest [].
Proof.
  intros Ha Hb Hrest.
  destruct (digits_parts a Ha) as [Ha1 Ha2]. destruct (digits_parts b Hb) as [Hb1 Hb2].
  apply (@heads_seq _ _ _ ("." ++ b ++ rest)%string rest [] []).
  - now apply heads_plus.
  - apply (@heads_seq _ _ _ (b ++ rest)%string rest [] []).
    + exact (@heads_lit "." (b ++ rest)%string eq_refl).
    + now apply heads_plus.
Qed.

Lemma heads_scan_prefix (T : regex) (a b rest v : string) (c : captures) :
  digits a = true -> digits b = true -> stops is_digit rest = true ->
  Heads T rest v c ->
  Heads (L"/" ;; D+ ;; L"." ;; D+ ;; T) ("/" ++ a ++ "." ++ b ++ rest) v c.
Proof.
  intros Ha Hb Hrest HT.
  destruct (digits_parts a Ha) as [Ha1 Ha2]. destruct (digits_parts b Hb) as [Hb1 Hb2].
  apply (@heads_seq _ _ _ (a ++ "." ++ b ++ rest)%string v [] c).
  { exact (@heads_lit "/" (a ++ "." ++ b ++ rest)%string eq_refl). }
  apply (@heads_seq _ _ _ ("." ++ b ++ rest)%string v [] c); [now apply heads_plus|].
  apply (@heads_seq _ _ _ (b ++ rest)%string v [] c).
  { exact (@heads_lit "." (b ++ rest)%string eq_refl). }
  apply (@heads_seq _ _ _ rest v [] c); [now apply heads_plus | exact HT].
Qed.

Lemma scan_key_path (a b rest : string) :
  digits a = true -> digits b = true -> stops is_digit rest = true ->
  _get_scan_key_in_name ("/" ++ a ++ "." ++ b ++ rest) = Some (a ++ "." ++ b)%string.
Proof.
  intros Ha Hb Hrest.
  assert (H : Heads (L"/" ;; Grp "1" (D+ ;; L"." ;; D+)) ("/" ++ a ++ "." ++ b ++ rest) rest
                    [("1", consumed (a ++ "." ++ b ++ rest) rest)]).
  { apply (@heads_seq _ _ _ (a ++ "." ++ b ++ rest)%string rest [] _).
    - exact (@heads_lit "/" (a ++ "." ++ b ++ rest)%string eq_refl).
    - apply heads_grp. now apply heads_scan_key. }
  apply heads_re_match in H. destruct H as [H _].
  unfold _get_scan_key_in_name. rewrite H. cbn.
  f_equal.
  replace (a ++ String "." (b ++ rest))%string with ((a ++ "." ++ b) ++ rest)%string.
  - apply consumed_app.
  - now rewrite !append_assoc.
Qed.

(** X7. The scan key of a path is read back from it, whatever follows the
    key. *)
Theorem scan_key_of_path (a b rest : string) :
  digits a = true -> digits b = true -> stops is_digit rest = true ->
  _get_scan_key_in_name ("/" ++ a ++ "." ++ b ++ rest) = Some (a ++ "." ++ b)%string.
Proof.
  exact (@scan_key_path a b rest).
Qed.

Lemma all_chars_app (p : ascii -> bool) (a b : string) :
  all_chars p (a ++ b) = all_chars p a && all_chars p b.
Proof.
  induction a as [|c a IH]; simpl; [reflexivity|]. now rewrite IH, andb_assoc.
Qed.

Lemma all_chars_weaken (p q : ascii -> bool) (s : string) :
  (forall c, p c = true -> q c = true) -> all_chars p s = true -> all_chars q s = true.
Proof.
  intros Hpq. induction s as [|c s IH]; simpl; [reflexivity|]. intros H.
  apply andb_prop in H. destruct H as [Hc Hs]. now rewrite (Hpq c Hc), IH.
Qed.

Lemma digit_not_newline (c : ascii) : is_digit c = true -> not_newline c = true.
Proof.
  intros Hc. unfold not_newline. now rewrite digit_not_LF.
Qed.

Lemma motor_path (a b motor : string) :
  digits a = true -> digits b = true ->
  nonempty motor = true -> all_chars not_slash motor = true ->
  _get_motor_in_name ("/" ++ a ++ "." ++ b ++ "/instrument/positioners/" ++ motor) = Some motor.
Proof.
  intros Ha Hb Hne Hns.
  assert (H : Heads positioners_data_pattern
                    ("/" ++ a ++ "." ++ b ++ "/instrument/positioners/" ++ motor) EmptyString
                    [("1", motor)]).
  { unfold positioners_data_pattern.
    apply heads_scan_prefix; [assumption | assumption | reflexivity |].
    apply (@heads_seq _ _ _ motor EmptyString [] _).
    { exact (@heads_lit "/instrument/positioners/" motor eq_refl). }
    apply (@heads_seq _ _ _ EmptyString EmptyString [("1", motor)] []).
    - pose proof (@heads_grp "1" (Plus not_slash) (motor ++ EmptyString) EmptyString []
                    (heads_plus not_slash motor EmptyString Hne Hns eq_refl)) as Hg.
      rewrite consumed_app, append_empty_r in Hg. exact Hg.
    - now apply heads_dollar. }
  apply heads_re_match in H. destruct H as [H _].
  unfold _get_motor_in_name. now rewrite H.
Qed.

(** X8. The motor name of a positioner path is read back from it. *)
Theorem motor_of_path (a b motor : string) :
  digits a = true -> digits b = true ->
  nonempty motor = true -> all_chars not_slash motor = true ->
  _get_motor_in_name ("/" ++ a ++ "." ++ b ++ "/instrument/positioners/" ++ motor) = Some motor.
Proof.
  exact (@motor_path a b motor).
Qed.

Lemma column_label_path (a b label : string) :
  digits a = true -> digits b = true ->
  nonempty label = true -> all_chars not_slash label = true ->
  _get_data_column_label_in_name ("/" ++ a ++ "." ++ b ++ "/measurement/" ++ label) =
    if matches measurement_mca_group_pattern ("/" ++ a ++ "." ++ b ++ "/measurement/" ++ label)
    then None else Some label.
Proof.
  intros Ha Hb Hne Hns.
  assert (H : Heads measurement_data_pattern
                    ("/" ++ a ++ "." ++ b ++ "/measurement/" ++ label) EmptyString
                    [("1", label)]).
  { unfold measurement_data_pattern.
    apply heads_scan_prefix; [assumption | assumption | reflexivity |].
    apply (@heads_seq _ _ _ label EmptyString [] _).
    { exact (@heads_lit "/measurement/" label eq_refl). }
    apply (@heads_seq _ _ _ EmptyString EmptyString [("1", label)] []).
    - pose proof (@heads_grp "1" (Plus not_slash) (label ++ EmptyString) EmptyString []
                    (heads_plus not_slash label EmptyString Hne Hns eq_refl)) as Hg.
      rewrite consumed_app, append_empty_r in Hg. exact Hg.
    - now apply heads_dollar. }
  apply heads_re_match in H. destruct H as [H _].
  unfold _get_data_column_label_in_name. now rewrite H.
Qed.

(** *** The analyser index *)

Lemma star_last (p : ascii -> bool) (s : string) :
  exists init, star p s = init ++ [s] /\
               forall u, In u init -> exists pre, nonempty pre = true /\ s = (pre ++ u)%string.
Proof.
  induction s as [|c s IH].
  - exists []. split; [reflexivity|]. intros u [].
  - simpl. destruct (p c).
    + destruct IH as [init [Hinit Hsuf]]. exists (star p s). split; [reflexivity|].
      intros u Hu. rewrite Hinit in Hu. apply in_app_or in Hu. destruct Hu as [Hu|[<-|[]]].
      * destruct (Hsuf u Hu) as [pre [_ ->]]. exists (String c pre). now split.
      * exists (String c EmptyString). now split.
    + exists []. split; [reflexivity|]. intros u [].
Qed.

Lemma star_app (p : ascii -> bool) (x y : string) :
  all_chars p x = true -> exists more, star p (x ++ y) = star p y ++ more.
Proof.
  induction x as [|c x IH]; intros Hx.
  - exists []. now rewrite app_nil_r.
  - simpl in Hx. apply andb_prop in Hx. destruct Hx as [Hc Hx].
    destruct (IH Hx) as [more Hmore]. simpl. rewrite Hc, Hmore.
    eexists. now rewrite <- app_assoc.
Qed.

Lemma flat_map_all_nil {A B : Type} (f : A -> list B) (l : list A) :
  (forall x, In x l -> f x = []) -> flat_map f l = [].
Proof.
  induction l as [|x l IH]; intros H; [reflexivity|]. simpl.
  rewrite (H x (or_introl eq_refl)), IH; [reflexivity|]. intros y Hy. apply H. now right.
Qed.

(** A greedy [[class]*] gives back what the rest of the pattern needs: the
    first match is at the shortest suffix the rest can match. *)
Lemma heads_star_backtrack (p : ascii -> bool) (r : regex) (x y v : string) (c : captures) :
  all_chars p x = true ->
  (forall pre u, nonempty pre = true -> y = (pre ++ u)%string -> run r u = []) ->
  Heads r y v c ->
  Heads (Seq (Star p) r) (x ++ y) v c.
Proof.
  intros Hx Hdead [l Hr].
  destruct (star_app p x y Hx) as [more Hmore].
  destruct (star_last p y) as [init [Hinit Hsuf]].
  unfold Heads. cbn [run]. rewrite Hmore, Hinit, !map_app, !flat_map_app.
  rewrite flat_map_all_nil.
  - cbn [map flat_map fst snd app]. rewrite Hr. cbn [map fst snd app]. eexists. reflexivity.
  - intros m Hm. apply in_map_iff in Hm. destruct Hm as [u [<- Hu]]. cbn [fst snd].
    destruct (Hsuf u Hu) as [pre [Hpre Hy]]. now rewrite (Hdead pre u Hpre Hy).
Qed.

Lemma run_lit_mismatch (l u : string) :
  nonempty l = true -> startswith u l = false -> run (lit l) u = [].
Proof.
  revert u. induction l as [|c l IH]; intros u Hne Hs; [discriminate|].
  destruct l as [|d l].
  - cbn [lit run]. destruct u as [|c' u]; [reflexivity|].
    destruct (Ascii.eqb_spec c c') as [<-|]; [|reflexivity].
    cbn [startswith] in Hs. rewrite Ascii.eqb_refl in Hs. destruct u; discriminate.
  - change (lit (String c (String d l))) with (Seq (Chr c) (lit (String d l))).
    cbn [run]. destruct u as [|c' u]; [reflexivity|].
    cbn [startswith] in Hs. rewrite Ascii.eqb_sym in Hs.
    destruct (Ascii.eqb c c'); [|reflexivity]. cbn [andb] in Hs.
    cbn [flat_map fst snd]. rewrite (IH u eq_refl Hs). reflexivity.
Qed.

Lemma no_mca_suffix (pre u : string) :
  no_mca (pre ++ u) = true -> startswith u "/mca_" = false.
Proof.
  induction pre as [|c pre IH]; intros H.
  - destruct u as [|c u]; [reflexivity|]. cbn [append no_mca] in H.
    apply andb_prop in H. destruct H as [H _]. now apply negb_true_iff in H.
  - cbn [append no_mca] in H. apply andb_prop in H. destruct H as [_ H]. now apply IH.
Qed.

Lemma no_mca_digits (d rest : string) :
  all_chars is_digit d = true -> no_mca rest = true -> no_mca (d ++ rest) = true.
Proof.
  intros Hd Hrest. induction d as [|c d IH]; [exact Hrest|].
  simpl in Hd. apply andb_prop in Hd. destruct Hd as [Hc Hd].
  cbn [append no_mca]. rewrite (IH Hd), andb_true_r.
  cbn [startswith]. rewrite Ascii.eqb_sym, (digit_not "/" c); auto.
Qed.

Lemma append_cons_split (c : ascii) (s pre u : string) :
  nonempty pre = true -> String c s = (pre ++ u)%string ->
  exists pre', s = (pre' ++ u)%string.
Proof.
  intros Hne H. destruct pre as [|c' pre']; [discriminate|].
  injection H as _ ->. now exists pre'.
Qed.

Lemma star_nonempty (p : ascii -> bool) (s : string) : exists u l, star p s = u :: l.
Proof.
  destruct (star_last p s) as [init [Hinit _]]. rewrite Hinit.
  destruct init as [|u init]; eexists; eexists; reflexivity.
Qed.

Lemma mca_index_path (x d rest : string) :
  all_chars not_newline x = true ->
  digits d = true -> stops is_digit rest = true -> no_mca rest = true ->
  _get_mca_index_in_name ("/" ++ x ++ "/mca_" ++ d ++ rest) = Some (int_of_digits d).
Proof.
  intros Hx Hd Hstop Hrest.
  destruct (digits_parts d Hd) as [Hd1 Hd2].
  destruct (star_nonempty not_digit rest) as [v [l Hv]].
  assert (H : Heads (L"/" ;; Star not_newline ;; L"/mca_" ;; Grp "1" D+ ;; Star not_digit)
                    ("/" ++ x ++ "/mca_" ++ d ++ rest) v [("1", d)]).
  { apply (@heads_seq _ _ _ (x ++ "/mca_" ++ d ++ rest)%string v [] _).
    { exact (@heads_lit "/" (x ++ "/mca_" ++ d ++ rest)%string eq_refl). }
    apply heads_star_backtrack; [exact Hx | |].
    - intros pre u Hpre Hy.
      change ("/mca_" ++ d ++ rest)%string with (String "/" ("mca_" ++ d ++ rest)) in Hy.
      destruct (@append_cons_split _ _ pre u Hpre Hy) as [pre' Hy'].
      assert (Hno : no_mca ("mca_" ++ d ++ rest) = true).
      { cbn. now apply no_mca_digits. }
      rewrite Hy' in Hno. apply no_mca_suffix in Hno.
      cbn [run]. rewrite (run_lit_mismatch "/mca_" u eq_refl Hno). reflexivity.
    - apply (@heads_seq _ _ _ (d ++ rest)%string v [] _).
      { exact (@heads_lit "/mca_" (d ++ rest)%string eq_refl). }
      apply (@heads_seq _ _ _ rest v [("1", d)] []).
      + pose proof (@heads_grp "1" (Plus is_digit) (d ++ rest) rest []
                      (heads_plus is_digit d rest Hd1 Hd2 Hstop)) as Hg.
        now rewrite consumed_app in Hg.
      + unfold Heads. cbn [run]. rewrite Hv. cbn [map]. eexists. reflexivity. }
  apply heads_re_match in H. destruct H as [H _].
  unfold _get_mca_index_in_name. now rewrite H.
Qed.

(** X9. The analyser index of a path is read back from its last
    [/mca_<digits>]: the one no [/mca_] follows. *)
Theorem mca_index_of_path (x d rest : string) :
  all_chars not_newline x = true ->
  digits d = true -> stops is_digit rest = true -> no_mca rest = true ->
  _get_mca_index_in_name ("/" ++ x ++ "/mca_" ++ d ++ rest) = Some (int_of_digits d).
Proof.
  exact (@mca_index_path x d rest).
Qed.

(** *** Decimal numbers *)

Lemma int_of_digits_uint (u : Decimal.uint) (acc : nat) :
  (fix go (acc : nat) (s : string) : nat :=
     match s with
     | EmptyString => acc
     | String c s' => go (10 * acc + (nat_of_ascii c - 48))%nat s'
     end) acc (NilEmpty.string_of_uint u) = Nat.of_uint_acc u acc.
Proof.
  revert acc. induction u; intros acc; cbn [NilEmpty.string_of_uint Nat.of_uint_acc];
    [reflexivity | rewrite IHu, Nat.tail_mul_spec; f_equal; cbn; lia ..].
Qed.

Lemma int_of_str_of_nat (n : nat) : int_of_digits (str_of_nat n) = n.
Proof.
  unfold int_of_digits, str_of_nat. rewrite int_of_digits_uint.
  apply DecimalNat.Unsigned.of_to.
Qed.

Lemma all_digits_uint (u : Decimal.uint) : all_chars is_digit (NilEmpty.string_of_uint u) = true.
Proof.
  induction u; cbn [NilEmpty.string_of_uint all_chars]; [reflexivity | exact IHu ..].
Qed.

Lemma digits_str_of_nat (n : nat) : digits (str_of_nat n) = true.
Proof.
  unfold digits, str_of_nat. rewrite all_digits_uint, andb_true_r.
  destruct n as [|n]; [reflexivity|].
  pose proof (DecimalNat.Unsigned.of_to (S n)) as H.
  destruct (Nat.to_uint (S n)); [discriminate | reflexivity ..].
Qed.

(** ** Consequences of the exclusion *)

Lemma count_true_cons (b : bool) (l : list bool) :
  count_true (b :: l) = ((if b then 1 else 0) + count_true l)%nat.
Proof.
  unfold count_true. simpl. now destruct b.
Qed.

Lemma count_true_nth (l : list bool) (j : nat) :
  nth j l false = true -> (1 <= count_true l)%nat.
Proof.
  revert j. induction l as [|b l IH]; intros j H.
  - destruct j; discriminate.
  - rewrite count_true_cons. destruct j as [|j]; simpl in H.
    + subst b. lia.
    + specialize (IH j H). lia.
Qed.

Lemma count_true_two (l : list bool) (i j : nat) :
  (i < j)%nat -> nth i l false = true -> nth j l false = true -> (2 <= count_true l)%nat.
Proof.
  revert i j. induction l as [|b l IH]; intros i j Hij Hi Hj.
  - destruct i; discriminate.
  - rewrite count_true_cons. destruct j as [|j]; [lia|]. simpl in Hj.
    destruct i as [|i]; simpl in Hi.
    + subst b. apply count_true_nth in Hj. lia.
    + assert (H : (i < j)%nat) by lia. specialize (IH i j H Hi Hj). lia.
Qed.

Lemma other_cluster (name : string) (i j : nat) :
  i <> j -> nth i (clusters name) false = true -> nth j (clusters name) false = false.
Proof.
  intros Hij Hi. destruct (nth j (clusters name) false) eqn:Hj; [|reflexivity].
  pose proof (clusters_exclusive name) as Hle.
  destruct (Nat.lt_total i j) as [H|[H|H]]; [|contradiction|].
  - pose proof (count_true_two (clusters name) H Hi Hj). lia.
  - pose proof (count_true_two (clusters name) H Hj Hi). lia.
Qed.

(** From a match of the cluster [i], what the patterns of the other
    clusters do. *)
Ltac cluster_fact name i Hi j :=
  try (let F := fresh "F" in
       assert (F := @other_cluster name i j ltac:(discriminate) Hi);
       cbn [nth clusters] in F;
       repeat (let G := fresh "F" in
               apply orb_false_elim in F; destruct F as [F G])).

Ltac cluster_facts name i Hi :=
  cluster_fact name i Hi 0%nat; cluster_fact name i Hi 1%nat; cluster_fact name i Hi 2%nat;
  cluster_fact name i Hi 3%nat; cluster_fact name i Hi 4%nat; cluster_fact name i Hi 5%nat;
  cluster_fact name i Hi 6%nat; cluster_fact name i Hi 7%nat; cluster_fact name i Hi 8%nat;
  cluster_fact name i Hi 9%nat; cluster_fact name i Hi 10%nat; cluster_fact name i Hi 11%nat;
  cluster_fact name i Hi 12%nat; cluster_fact name i Hi 13%nat; cluster_fact name i Hi 14%nat;
  cluster_fact name i Hi 15%nat.


Ltac in_cluster name i H :=
  let Hi := fresh "Hi" in
  assert (Hi : nth i (clusters name) false = true)
    by (cbn [nth clusters]; rewrite H, ?orb_true_r; reflexivity);
  cluster_facts name i Hi.

Lemma matches_false_re_match (r : regex) (s : string) :
  matches r s = false -> re_match r s = None.
Proof.
  unfold matches. destruct (re_match r s); [discriminate | reflexivity].
Qed.

Ltac use_facts name :=
  repeat match goal with
         | F : matches ?p name = false |- context [matches ?p name] => rewrite F
         | F : matches ?p name = false |- context [re_match ?p name] =>
             rewrite (matches_false_re_match p name F)
         end.

Lemma attrs_dict_cases (name : string) :
  (matches root_pattern name = true ->
   _get_attrs_dict name = Some [("NX_class", "NXroot")]) /\
  (matches scan_pattern name = true ->
   _get_attrs_dict name = Some [("NX_class", "NXentry")]) /\
  (matches instrument_pattern name = true ->
   _get_attrs_dict name = Some [("NX_class", "NXinstrument")]) /\
  (matches positioners_group_pattern name = true ->
   _get_attrs_dict name = Some [("NX_class", "NXcollection")]) /\
  (matches measurement_group_pattern name = true ->
   _get_attrs_dict name = Some [("NX_class", "NXcollection")]) /\
  (matches instrument_mca_group_pattern name = true ->
   _get_attrs_dict name = Some [("NX_class", "NXdetector")]) /\
  (matches measurement_mca_info_pattern name = true ->
   _get_attrs_dict name = Some [("NX_class", "NXdetector")]) /\
  (matches instrument_mca_data_pattern name = true ->
   _get_attrs_dict name = Some [("interpretation", "spectrum")]) /\
  (matches measurement_mca_data_pattern name = true ->
   _get_attrs_dict name = Some [("interpretation", "spectrum")]).
Proof.
  unfold _get_attrs_dict, pattern_attrs.
  repeat split; intros H.
  - now rewrite H.
  - in_cluster name 1%nat H. use_facts name. now rewrite H.
  - in_cluster name 2%nat H. use_facts name. now rewrite H.
  - in_cluster name 3%nat H. use_facts name. now rewrite H.
  - in_cluster name 4%nat H. use_facts name. now rewrite H.
  - in_cluster name 5%nat H. use_facts name. now rewrite H.
  - in_cluster name 14%nat H. use_facts name. rewrite H.
    (* the entries of the measurement group cluster are in other clusters *)
    reflexivity.
  - in_cluster name 8%nat H. use_facts name. now rewrite H.
  - in_cluster name 15%nat H. use_facts name. now rewrite H.
Qed.

(** X10. Every group category, and the MCA data, gets the entry of its own
    pattern: no entry before it in the table matches the same name. *)
Theorem attrs_of_categories (name : string) :
  (matches root_pattern name = true ->
   _get_attrs_dict name = Some [("NX_class", "NXroot")]) /\
  (matches scan_pattern name = true ->
   _get_attrs_dict name = Some [("NX_class", "NXentry")]) /\
  (matches instrument_pattern name = true ->
   _get_attrs_dict name = Some [("NX_class", "NXinstrument")]) /\
  (matches positioners_group_pattern name = true ->
   _get_attrs_dict name = Some [("NX_class", "NXcollection")]) /\
  (matches measurement_group_pattern name = true ->
   _get_attrs_dict name = Some [("NX_class", "NXcollection")]) /\
  (matches instrument_mca_group_pattern name = true ->
   _get_attrs_dict name = Some [("NX_class", "NXdetector")]) /\
  (matches measurement_mca_info_pattern name = true ->
   _get_attrs_dict name = Some [("NX_class", "NXdetector")]) /\
  (matches instrument_mca_data_pattern name = true ->
   _get_attrs_dict name = Some [("interpretation", "spectrum")]) /\
  (matches measurement_mca_data_pattern name = true ->
   _get_attrs_dict name = Some [("interpretation", "spectrum")]).
Proof.
  exact (attrs_dict_cases name).
Qed.

Lemma count_true_skip (b : bool) (l1 l2 : list bool) :
  (count_true l1 <= count_true l2)%nat -> (count_true l1 <= count_true (b :: l2))%nat.
Proof.
  rewrite count_true_cons. lia.
Qed.

Lemma count_true_imp (x y : bool) (l1 l2 : list bool) :
  (x = true -> y = true) ->
  (count_true l1 <= count_true l2)%nat -> (count_true (x :: l1) <= count_true (y :: l2))%nat.
Proof.
  intros Hxy Hl. rewrite !count_true_cons.
  destruct x; [rewrite (Hxy eq_refl)|]; destruct y; lia.
Qed.

(** X11. A name matches at most one of the patterns of datasets and of links
    to datasets, whatever the name: the order of the tests in the builders
    does not matter. *)
Theorem leaf_patterns_exclusive (name : string) :
  (count_true (map (fun pattern => matches pattern name) leaf_patterns) <= 1)%nat.
Proof.
  apply Nat.le_trans with (count_true (clusters name)); [|apply clusters_exclusive].
  unfold leaf_patterns, clusters. cbn [map].
  do 3 apply count_true_skip.
  apply count_true_imp; [intros ->; apply orb_true_r|].
  apply count_true_imp; [intros ->; now rewrite orb_true_r|].
  apply count_true_skip.
  do 8 (apply count_true_imp; [exact (fun H => H)|]).
  apply count_true_imp; [intros ->; apply orb_true_r|].
  apply count_true_imp; [exact (fun H => H)|].
  apply Nat.le_refl.
Qed.

(** ** First matches of the patterns on paths built from their parts *)

Lemma heads_grp_plus (g : string) (p : ascii -> bool) (d t : string) :
  nonempty d = true -> all_chars p d = true -> stops p t = true ->
  Heads (Grp g (Plus p)) (d ++ t) t [(g, d)].
Proof.
  intros Hne Hd Ht.
  pose proof (@heads_grp g (Plus p) (d ++ t) t [] (heads_plus p d t Hne Hd Ht)) as Hg.
  now rewrite consumed_app in Hg.
Qed.

Lemma heads_grp_plus_end (g : string) (p : ascii -> bool) (d : string) :
  nonempty d = true -> all_chars p d = true ->
  Heads (Grp g (Plus p)) d EmptyString [(g, d)].
Proof.
  intros Hne Hd.
  pose proof (@heads_grp_plus g p d EmptyString Hne Hd eq_refl) as H.
  now rewrite append_empty_r in H.
Qed.

Lemma heads_plus_end (p : ascii -> bool) (d : string) :
  nonempty d = true -> all_chars p d = true -> Heads (Plus p) d EmptyString [].
Proof.
  intros Hne Hd.
  pose proof (heads_plus p d EmptyString Hne Hd eq_refl) as H.
  now rewrite append_empty_r in H.
Qed.

Lemma heads_tail_end : Heads (/?$) EmptyString EmptyString [].
Proof.
  exists []. reflexivity.
Qed.

(** [<prefix><digits><suffix>] against [prefix ;; Grp D+ ;; suffix ;; $] *)
Lemma heads_mca_member (g pre suf d : string) :
  nonempty pre = true -> nonempty suf = true -> stops is_digit suf = true ->
  digits d = true ->
  Heads (lit pre ;; Grp g D+ ;; lit suf ;; Dollar) (pre ++ d ++ suf) EmptyString [(g, d)].
Proof.
  intros Hpre Hsuf Hstop Hd. destruct (digits_parts d Hd) as [Hd1 Hd2].
  apply (@heads_seq _ _ _ (d ++ suf)%string EmptyString [] _); [now apply heads_lit|].
  apply (@heads_seq _ _ _ suf EmptyString [(g, d)] []); [now apply heads_grp_plus|].
  apply (@heads_seq _ _ _ EmptyString EmptyString [] []).
  - pose proof (@heads_lit suf EmptyString Hsuf) as H. now rewrite append_empty_r in H.
  - now apply heads_dollar.
Qed.

(** The same without the capture group. *)
Lemma heads_mca_member' (pre suf d : string) :
  nonempty pre = true -> nonempty suf = true -> stops is_digit suf = true ->
  digits d = true ->
  Heads (lit pre ;; D+ ;; lit suf ;; Dollar) (pre ++ d ++ suf) EmptyString [].
Proof.
  intros Hpre Hsuf Hstop Hd. destruct (digits_parts d Hd) as [Hd1 Hd2].
  apply (@heads_seq _ _ _ (d ++ suf)%string EmptyString [] _); [now apply heads_lit|].
  apply (@heads_seq _ _ _ suf EmptyString [] []); [now apply heads_plus|].
  apply (@heads_seq _ _ _ EmptyString EmptyString [] []).
  - pose proof (@heads_lit suf EmptyString Hsuf) as H. now rewrite append_empty_r in H.
  - now apply heads_dollar.
Qed.

Lemma heads_mca_group (pre d : string) :
  nonempty pre = true -> digits d = true ->
  Heads (lit pre ;; D+ ;; /?$) (pre ++ d) EmptyString [].
Proof.
  intros Hpre Hd. destruct (digits_parts d Hd) as [Hd1 Hd2].
  apply (@heads_seq _ _ _ d EmptyString [] _); [now apply heads_lit|].
  apply (@heads_seq _ _ _ EmptyString EmptyString [] []); [now apply heads_plus_end|].
  exact heads_tail_end.
Qed.

Section Paths.

Variables a b d : string.
Hypothesis Ha : digits a = true.
Hypothesis Hb : digits b = true.
Hypothesis Hd : digits d = true.

Lemma heads_instrument_mca_data :
  Heads instrument_mca_data_pattern ("/" ++ a ++ "." ++ b ++ "/instrument/mca_" ++ d ++ "/data")
        EmptyString [("1", d)].
Proof.
  unfold instrument_mca_data_pattern.
  apply heads_scan_prefix; [assumption | assumption | reflexivity |].
  now apply (@heads_mca_member "1" "/instrument/mca_" "/data" d).
Qed.

Lemma heads_measurement_mca_data :
  Heads measurement_mca_data_pattern ("/" ++ a ++ "." ++ b ++ "/measurement/mca_" ++ d ++ "/data")
        EmptyString [("1", d)].
Proof.
  unfold measurement_mca_data_pattern.
  apply heads_scan_prefix; [assumption | assumption | reflexivity |].
  now apply (@heads_mca_member "1" "/measurement/mca_" "/data" d).
Qed.

Lemma heads_instrument_mca_group :
  Heads instrument_mca_group_pattern ("/" ++ a ++ "." ++ b ++ "/instrument/mca_" ++ d)
        EmptyString [].
Proof.
  unfold instrument_mca_group_pattern.
  apply heads_scan_prefix; [assumption | assumption | reflexivity |].
  now apply (@heads_mca_group "/instrument/mca_" d).
Qed.

Lemma heads_measurement_mca_group :
  Heads measurement_mca_group_pattern ("/" ++ a ++ "." ++ b ++ "/measurement/mca_" ++ d)
        EmptyString [].
Proof.
  unfold measurement_mca_group_pattern.
  apply heads_scan_prefix; [assumption | assumption | reflexivity |].
  now apply (@heads_mca_group "/measurement/mca_" d).
Qed.

Lemma heads_preset_time :
  Heads instrument_mca_preset_t_pattern
        ("/" ++ a ++ "." ++ b ++ "/instrument/mca_" ++ d ++ "/preset_time") EmptyString [].
Proof.
  unfold instrument_mca_preset_t_pattern.
  apply heads_scan_prefix; [assumption | assumption | reflexivity |].
  now apply (@heads_mca_member' "/instrument/mca_" "/preset_time" d).
Qed.

Lemma heads_live_time :
  Heads instrument_mca_live_t_pattern
        ("/" ++ a ++ "." ++ b ++ "/instrument/mca_" ++ d ++ "/live_time") EmptyString [].
Proof.
  unfold instrument_mca_live_t_pattern.
  apply heads_scan_prefix; [assumption | assumption | reflexivity |].
  now apply (@heads_mca_member' "/instrument/mca_" "/live_time" d).
Qed.

Lemma heads_elapsed_time :
  Heads instrument_mca_elapsed_t_pattern
        ("/" ++ a ++ "." ++ b ++ "/instrument/mca_" ++ d ++ "/elapsed_time") EmptyString [].
Proof.
  unfold instrument_mca_elapsed_t_pattern.
  apply heads_scan_prefix; [assumption | assumption | reflexivity |].
  now apply (@heads_mca_member' "/instrument/mca_" "/elapsed_time" d).
Qed.

Lemma heads_info_dataset (x : string) :
  nonempty x = true -> all_chars not_slash x = true ->
  Heads measurement_mca_info_dataset_pattern
        ("/" ++ a ++ "." ++ b ++ "/measurement/mca_" ++ d ++ "/info/" ++ x) EmptyString [("1", x)].
Proof.
  intros Hne Hx. destruct (digits_parts d Hd) as [Hd1 Hd2].
  unfold measurement_mca_info_dataset_pattern.
  apply heads_scan_prefix; [assumption | assumption | reflexivity |].
  apply (@heads_seq _ _ _ (d ++ "/info/" ++ x)%string EmptyString [] _).
  { exact (@heads_lit "/measurement/mca_" (d ++ "/info/" ++ x)%string eq_refl). }
  apply (@heads_seq _ _ _ ("/info/" ++ x)%string EmptyString [] _).
  { now apply heads_plus. }
  apply (@heads_seq _ _ _ x EmptyString [] _).
  { exact (@heads_lit "/info/" x eq_refl). }
  apply (@heads_seq _ _ _ EmptyString EmptyString [("1", x)] []).
  - now apply heads_grp_plus_end.
  - now apply heads_dollar.
Qed.

Lemma heads_scan :
  Heads scan_pattern ("/" ++ a ++ "." ++ b) EmptyString [].
Proof.
  unfold scan_pattern.
  pose proof (@heads_scan_prefix (/?$) a b EmptyString EmptyString [] Ha Hb eq_refl heads_tail_end) as H.
  now rewrite append_empty_r in H.
Qed.

Lemma scan_key_in_path (rest : string) :
  stops is_digit rest = true ->
  _get_scan_key_in_name ("/" ++ a ++ "." ++ b ++ rest) = Some (a ++ "." ++ b)%string.
Proof.
  intros Hrest. now apply scan_key_path.
Qed.

End Paths.

(** ** What the builders return for the members of a scan *)

Lemma dict_has_get {V : Type} (dct : dict V) (k : string) (v : V) :
  dict_get dct k = Some v -> dict_has dct k = true.
Proof.
  unfold dict_has. now intros ->.
Qed.

Section Members.

Variable py_float : string -> result float.
Variable sf : SpecFile.
Variables a b d : string.
Hypothesis Ha : digits a = true.
Hypothesis Hb : digits b = true.
Hypothesis Hd : digits d = true.

(** X12. The link [measurement/mca_<d>/data] and its target
    [instrument/mca_<d>/data] hold the same array. *)
Theorem mca_link_same_data :
  match _link_to_dataset_builder py_float
          ("/" ++ a ++ "." ++ b ++ "/measurement/mca_" ++ d ++ "/data") sf,
        _dataset_builder py_float
          ("/" ++ a ++ "." ++ b ++ "/instrument/mca_" ++ d ++ "/data") sf
  with
  | Ok link, Ok target =>
      ds_array link = ds_array target /\ ds_attrs link = ds_attrs target /\
      ds_class link = ClsLinkToDataset /\ ds_class target = ClsDataset
  | Raise e, Raise e' => e = e'
  | _, _ => False
  end.
Proof.
  destruct (heads_re_match (@heads_measurement_mca_data a b d Ha Hb Hd)) as [Hl Hl'].
  destruct (heads_re_match (@heads_instrument_mca_data a b d Ha Hb Hd)) as [Ht Ht'].
  pose proof (attrs_dict_cases ("/" ++ a ++ "." ++ b ++ "/measurement/mca_" ++ d ++ "/data"))
    as (_ & _ & _ & _ & _ & _ & _ & _ & Hal).
  pose proof (attrs_dict_cases ("/" ++ a ++ "." ++ b ++ "/instrument/mca_" ++ d ++ "/data"))
    as (_ & _ & _ & _ & _ & _ & _ & Hat & _).
  specialize (Hal Hl'). specialize (Hat Ht').
  set (target := ("/" ++ a ++ "." ++ b ++ "/instrument/mca_" ++ d ++ "/data")%string) in *.
  set (link := ("/" ++ a ++ "." ++ b ++ "/measurement/mca_" ++ d ++ "/data")%string) in *.
  in_cluster target 8%nat Ht'.
  unfold _link_to_dataset_builder, _dataset_builder.
  rewrite (@scan_key_in_path a b Ha Hb ("/measurement/mca_" ++ d ++ "/data") eq_refl
           : _get_scan_key_in_name link = _).
  rewrite (@scan_key_in_path a b Ha Hb ("/instrument/mca_" ++ d ++ "/data") eq_refl
           : _get_scan_key_in_name target = _).
  destruct (sf_getitem sf (Some (a ++ "." ++ b)%string)) as [scan|e]; cbn [bind]; [|reflexivity].
  use_facts target.
  rewrite Hl, Ht. cbn [group1 group dict_get String.eqb Ascii.eqb Bool.eqb bind].
  destruct (_demultiplex_mca scan (int_of_digits d)) as [rows|e]; cbn [bind]; [|reflexivity].
  unfold SpecFileH5Dataset, array_of_rows, float64.
  cbn [dt_kind nd_dtype bind ds_array ds_attrs ds_class].
  rewrite Hal, Hat. now repeat split.
Qed.

Variable scan : Scan.
Hypothesis Hscan : dict_get (sf_scans sf) (a ++ "." ++ b) = Some scan.

Lemma getitem_scan_of_path (rest : string) :
  stops is_digit rest = true ->
  sf_getitem sf (_get_scan_key_in_name ("/" ++ a ++ "." ++ b ++ rest)) = Ok scan.
Proof.
  intros Hrest. rewrite (@scan_key_in_path a b Ha Hb rest Hrest).
  unfold sf_getitem. now rewrite Hscan.
Qed.

Lemma heads_title :
  Heads title_pattern ("/" ++ a ++ "." ++ b ++ "/title") EmptyString [].
Proof.
  unfold title_pattern.
  apply heads_scan_prefix; [assumption | assumption | reflexivity |].
  exists []. reflexivity.
Qed.

Lemma heads_start_time :
  Heads start_time_pattern ("/" ++ a ++ "." ++ b ++ "/start_time") EmptyString [].
Proof.
  unfold start_time_pattern.
  apply heads_scan_prefix; [assumption | assumption | reflexivity |].
  exists []. reflexivity.
Qed.

(** X13. [title] is the [S] line of the scan header; [start_time] is the date
    of the scan header, or else that of the file header, converted; a
    header without the line gives [KeyError]. *)
Theorem header_datasets :
  _dataset_builder py_float ("/" ++ a ++ "." ++ b ++ "/title") sf =
    match dict_get (scan_header scan) "S" with
    | Some s => SpecFileH5Dataset ClsDataset (PyStr s) ("/" ++ a ++ "." ++ b ++ "/title")
    | None => Raise KeyError
    end /\
  _dataset_builder py_float ("/" ++ a ++ "." ++ b ++ "/start_time") sf =
    match dict_get (scan_header scan) "D", dict_get (file_header scan) "D" with
    | Some date, _ | None, Some date =>
        let! iso := spec_date_to_iso8601 date None in
        SpecFileH5Dataset ClsDataset (PyStr iso) ("/" ++ a ++ "." ++ b ++ "/start_time")
    | None, None => Raise KeyError
    end.
Proof.
  split.
  - destruct (heads_re_match heads_title) as [_ Ht].
    unfold _dataset_builder.
    rewrite (getitem_scan_of_path "/title" eq_refl). cbn [bind].
    rewrite Ht. unfold header_get.
    destruct (dict_get (scan_header scan) "S"); reflexivity.
  - destruct (heads_re_match heads_start_time) as [_ Ht].
    set (name := ("/" ++ a ++ "." ++ b ++ "/start_time")%string) in *.
    in_cluster name 7%nat Ht.
    unfold _dataset_builder.
    rewrite (getitem_scan_of_path "/start_time" eq_refl : sf_getitem sf (_get_scan_key_in_name name) = _).
    cbn [bind]. use_facts name. rewrite Ht. unfold header_get.
    destruct (dict_get (scan_header scan) "D") as [date|].
    + cbn [bind]. destruct (spec_date_to_iso8601 date None); reflexivity.
    + destruct (dict_get (file_header scan) "D") as [date|]; [|reflexivity].
      cbn [bind]. destruct (spec_date_to_iso8601 date None); reflexivity.
Qed.

Ltac timing_case H i suffix :=
  match type of H with
  | matches _ ?name = true =>
      let n := fresh "name" in
      set (n := name) in *;
      in_cluster n i H;
      unfold _dataset_builder;
      rewrite (getitem_scan_of_path ("/instrument/mca_" ++ d ++ suffix) eq_refl
               : sf_getitem sf (_get_scan_key_in_name n) = _);
      cbn [bind]; use_facts n; rewrite ?H
  end.

(** X14. The timing datasets of an analyser are the three numbers of the
    [CTIME] line of the MCA header: preset, live and elapsed time, in this
    order.  Without the line each of them raises [KeyError]; a line that
    does not parse raises for the three. *)
Theorem timing_datasets :
  match dict_get (mca_header scan) "CTIME" with
  | None =>
      forall suffix, In suffix ["/preset_time"; "/live_time"; "/elapsed_time"] ->
        _dataset_builder py_float ("/" ++ a ++ "." ++ b ++ "/instrument/mca_" ++ d ++ suffix) sf
        = Raise KeyError
  | Some line =>
      match _parse_ctime py_float line with
      | Ok (preset, live, elapsed) =>
          _dataset_builder py_float
            ("/" ++ a ++ "." ++ b ++ "/instrument/mca_" ++ d ++ "/preset_time") sf =
          SpecFileH5Dataset ClsDataset (PyFloat preset)
            ("/" ++ a ++ "." ++ b ++ "/instrument/mca_" ++ d ++ "/preset_time") /\
          _dataset_builder py_float
            ("/" ++ a ++ "." ++ b ++ "/instrument/mca_" ++ d ++ "/live_time") sf =
          SpecFileH5Dataset ClsDataset (PyFloat live)
            ("/" ++ a ++ "." ++ b ++ "/instrument/mca_" ++ d ++ "/live_time") /\
          _dataset_builder py_float
            ("/" ++ a ++ "." ++ b ++ "/instrument/mca_" ++ d ++ "/elapsed_time") sf =
          SpecFileH5Dataset ClsDataset (PyFloat elapsed)
            ("/" ++ a ++ "." ++ b ++ "/instrument/mca_" ++ d ++ "/elapsed_time")
      | Raise e =>
          forall suffix, In suffix ["/preset_time"; "/live_time"; "/elapsed_time"] ->
            _dataset_builder py_float
              ("/" ++ a ++ "." ++ b ++ "/instrument/mca_" ++ d ++ suffix) sf = Raise e
      end
  end.
Proof.
  destruct (heads_re_match (@heads_preset_time a b d Ha Hb Hd)) as [_ Hp].
  destruct (heads_re_match (@heads_live_time a b d Ha Hb Hd)) as [_ Hl].
  destruct (heads_re_match (@heads_elapsed_time a b d Ha Hb Hd)) as [_ He].
  destruct (dict_get (mca_header scan) "CTIME") as [line|] eqn:Hc.
  - destruct (_parse_ctime py_float line) as [[[preset live] elapsed]|e] eqn:Hparse.
    + repeat split.
      * timing_case Hp 11%nat "/preset_time". unfold dict_has, header_get. rewrite Hc. cbn [bind].
        rewrite Hparse. reflexivity.
      * timing_case Hl 13%nat "/live_time". unfold dict_has, header_get. rewrite Hc. cbn [bind].
        rewrite Hparse. reflexivity.
      * timing_case He 12%nat "/elapsed_time". unfold dict_has, header_get. rewrite Hc. cbn [bind].
        rewrite Hparse. reflexivity.
    + intros suffix [<-|[<-|[<-|[]]]].
      * timing_case Hp 11%nat "/preset_time". unfold dict_has, header_get. rewrite Hc. cbn [bind].
        now rewrite Hparse.
      * timing_case Hl 13%nat "/live_time". unfold dict_has, header_get. rewrite Hc. cbn [bind].
        now rewrite Hparse.
      * timing_case He 12%nat "/elapsed_time". unfold dict_has, header_get. rewrite Hc. cbn [bind].
        now rewrite Hparse.
  - intros suffix [<-|[<-|[<-|[]]]].
    + timing_case Hp 11%nat "/preset_time". unfold dict_has. now rewrite Hc.
    + timing_case Hl 13%nat "/live_time". unfold dict_has. now rewrite Hc.
    + timing_case He 12%nat "/elapsed_time". unfold dict_has. now rewrite Hc.
Qed.

(** X15. Below an [info] link only [calibration] and [channels] resolve: any
    other name, [data] and the timing names included, is recognised as a
    link to a dataset and raises when it is built. *)
Theorem info_link_members (x : string) :
  nonempty x = true -> all_chars not_slash x = true ->
  is_link_to_dataset ("/" ++ a ++ "." ++ b ++ "/measurement/mca_" ++ d ++ "/info/" ++ x) = true /\
  (x = "calibration" ->
   _link_to_dataset_builder py_float
     ("/" ++ a ++ "." ++ b ++ "/measurement/mca_" ++ d ++ "/info/" ++ x) sf =
   SpecFileH5Dataset ClsLinkToDataset (calibration (mca scan))
     ("/" ++ a ++ "." ++ b ++ "/measurement/mca_" ++ d ++ "/info/" ++ x)) /\
  (x = "channels" ->
   _link_to_dataset_builder py_float
     ("/" ++ a ++ "." ++ b ++ "/measurement/mca_" ++ d ++ "/info/" ++ x) sf =
   SpecFileH5Dataset ClsLinkToDataset (channels (mca scan))
     ("/" ++ a ++ "." ++ b ++ "/measurement/mca_" ++ d ++ "/info/" ++ x)) /\
  (x <> "calibration" -> x <> "channels" ->
   exists e, _link_to_dataset_builder py_float
               ("/" ++ a ++ "." ++ b ++ "/measurement/mca_" ++ d ++ "/info/" ++ x) sf = Raise e).
Proof.
  intros Hne Hx.
  destruct (heads_re_match (@heads_info_dataset a b d Ha Hb Hd x Hne Hx)) as [Hm Hm'].
  set (name := ("/" ++ a ++ "." ++ b ++ "/measurement/mca_" ++ d ++ "/info/" ++ x)%string) in *.
  in_cluster name 14%nat Hm'.
  assert (Hbuild : _link_to_dataset_builder py_float name sf =
                   let! array_like :=
                     if String.eqb x "calibration" then Ok (Some (calibration (mca scan)))
                     else if String.eqb x "channels" then Ok (Some (channels (mca scan)))
                     else if dict_has (mca_header scan) "CTIME" then
                       let! ctime_line := header_get (mca_header scan) "CTIME" in
                       let! _ := _parse_ctime py_float ctime_line in Ok None
                     else Ok None in
                   match array_like with
                   | None => Raise KeyError
                   | Some array_like => SpecFileH5Dataset ClsLinkToDataset array_like name
                   end).
  { unfold _link_to_dataset_builder.
    rewrite (getitem_scan_of_path ("/measurement/mca_" ++ d ++ "/info/" ++ x) eq_refl
             : sf_getitem sf (_get_scan_key_in_name name) = _).
    cbn [bind]. use_facts name. rewrite Hm.
    cbn [group1 group dict_get String.eqb Ascii.eqb Bool.eqb bind].
    destruct (String.eqb x "calibration"); [reflexivity|].
    destruct (String.eqb x "channels"); [reflexivity|].
    destruct (dict_has (mca_header scan) "CTIME"); [|reflexivity].
    destruct (header_get (mca_header scan) "CTIME") as [line|]; [|reflexivity].
    cbn [bind]. destruct (_parse_ctime py_float line) as [[[p l] e]|]; reflexivity. }
  split; [|split; [|split]].
  - unfold is_link_to_dataset, _bulk_match. use_facts name. now rewrite Hm'.
  - intros ->. now rewrite Hbuild.
  - intros ->. now rewrite Hbuild.
  - intros H1 H2. rewrite Hbuild.
    apply String.eqb_neq in H1, H2. rewrite H1, H2.
    destruct (dict_has (mca_header scan) "CTIME"); [|now exists KeyError].
    destruct (header_get (mca_header scan) "CTIME") as [line|e]; [|now exists e].
    cbn [bind]. destruct (_parse_ctime py_float line) as [t|e]; [now exists KeyError | now exists e].
Qed.

(** X16. The MCA data of a scan that recorded no spectrum cannot be built: the
    range of the de-multiplexing has a zero step, or, for a scan without
    data lines, the number of analysers is a division by zero. *)
Theorem mca_data_without_spectra :
  spectra (mca scan) = [] ->
  _dataset_builder py_float
    ("/" ++ a ++ "." ++ b ++ "/instrument/mca_" ++ d ++ "/data") sf =
    Raise (if (fst (data_shape scan) =? 0)%nat then ZeroDivisionError else ValueError) /\
  _link_to_dataset_builder py_float
    ("/" ++ a ++ "." ++ b ++ "/measurement/mca_" ++ d ++ "/data") sf =
    Raise (if (fst (data_shape scan) =? 0)%nat then ZeroDivisionError else ValueError).
Proof.
  intros Hempty.
  assert (Hdemux : forall i, _demultiplex_mca scan i =
                             Raise (if (fst (data_shape scan) =? 0)%nat
                                    then ZeroDivisionError else ValueError)).
  { intros i. unfold _demultiplex_mca, py_mod, py_floordiv, py_range. rewrite Hempty.
    cbn [length]. destruct (fst (data_shape scan) =? 0)%nat eqn:Hn; [reflexivity|].
    cbn [bind]. rewrite Nat.Div0.mod_0_l. cbn [Nat.eqb assert bind].
    now rewrite Nat.Div0.div_0_l. }
  destruct (heads_re_match (@heads_measurement_mca_data a b d Ha Hb Hd)) as [Hl Hl'].
  destruct (heads_re_match (@heads_instrument_mca_data a b d Ha Hb Hd)) as [Ht Ht'].
  split.
  - set (target := ("/" ++ a ++ "." ++ b ++ "/instrument/mca_" ++ d ++ "/data")%string) in *.
    in_cluster target 8%nat Ht'.
    unfold _dataset_builder.
    rewrite (getitem_scan_of_path ("/instrument/mca_" ++ d ++ "/data") eq_refl
             : sf_getitem sf (_get_scan_key_in_name target) = _).
    cbn [bind]. use_facts target. rewrite Ht.
    cbn [group1 group dict_get String.eqb Ascii.eqb Bool.eqb bind].
    now rewrite Hdemux.
  - set (link := ("/" ++ a ++ "." ++ b ++ "/measurement/mca_" ++ d ++ "/data")%string) in *.
    unfold _link_to_dataset_builder.
    rewrite (getitem_scan_of_path ("/measurement/mca_" ++ d ++ "/data") eq_refl
             : sf_getitem sf (_get_scan_key_in_name link) = _).
    cbn [bind]. rewrite Hl.
    cbn [group1 group dict_get String.eqb Ascii.eqb Bool.eqb bind].
    now rewrite Hdemux.
Qed.

End Members.

(** ** Paths and the scan they belong to *)

Lemma skip_digits_app (x rest : string) :
  all_chars is_digit x = true -> stops is_digit rest = true ->
  skip is_digit (x ++ rest) = rest.
Proof.
  intros Hx Hrest. induction x as [|c x IH]; simpl.
  - destruct rest as [|c rest]; [reflexivity|]. simpl in Hrest.
    apply negb_true_iff in Hrest. simpl. now rewrite Hrest.
  - simpl in Hx. apply andb_prop in Hx. destruct Hx as [Hc Hx]. rewrite Hc. now apply IH.
Qed.

Lemma scan_tail_path (a b rest : string) :
  digits a = true -> digits b = true -> stops is_digit rest = true ->
  scan_tail ("/" ++ a ++ "." ++ b ++ rest) = Some rest.
Proof.
  intros Ha Hb Hrest.
  destruct (digits_parts a Ha) as [Ha1 Ha2]. destruct (digits_parts b Hb) as [Hb1 Hb2].
  destruct a as [|c1 a]; [discriminate|]. destruct b as [|c3 b]; [discriminate|].
  simpl in Ha2, Hb2. apply andb_prop in Ha2, Hb2.
  destruct Ha2 as [Hc1 Ha2]. destruct Hb2 as [Hc3 Hb2].
  unfold scan_tail. cbn [append]. rewrite Ascii.eqb_refl, Hc1. cbn [andb].
  rewrite (skip_digits_app a (String "." (String c3 (b ++ rest))) Ha2 eq_refl).
  rewrite Ascii.eqb_refl, Hc3. cbn [andb].
  now rewrite (skip_digits_app b rest Hb2 Hrest).
Qed.

(** A pattern on a path of a scan is decided on what follows the key. *)
Lemma matches_scan_path (T : regex) (a b rest : string) :
  rejects_digit is_end T anything ->
  digits a = true -> digits b = true -> stops is_digit rest = true ->
  matches (L"/" ;; D+ ;; L"." ;; D+ ;; T) ("/" ++ a ++ "." ++ b ++ rest) =
  accepts is_end T rest anything.
Proof.
  intros HT Ha Hb Hrest.
  rewrite matches_accepts, accepts_scan by exact HT.
  now rewrite scan_tail_path.
Qed.

(** *** Paths without an analyser *)

Lemma no_mca_noslash (s : string) : all_chars not_slash s = true -> no_mca s = true.
Proof.
  induction s as [|c s IH]; [reflexivity|]. intros H. simpl in H.
  apply andb_prop in H. destruct H as [Hc Hs].
  cbn [no_mca]. rewrite (IH Hs), andb_true_r.
  cbn [startswith]. unfold not_slash in Hc. apply negb_true_iff in Hc. now rewrite Hc.
Qed.

Lemma digits_noslash (s : string) : all_chars is_digit s = true -> all_chars not_slash s = true.
Proof.
  apply all_chars_weaken. exact digit_not_slash.
Qed.

Lemma digits_not_newline (s : string) :
  all_chars is_digit s = true -> all_chars not_newline s = true.
Proof.
  apply all_chars_weaken. exact digit_not_newline.
Qed.

Lemma run_seq (r1 r2 : regex) (s : string) :
  run (Seq r1 r2) s =
  flat_map (fun m1 => map (fun m2 => (fst m2, snd m1 ++ snd m2)) (run r2 (fst m1))) (run r1 s).
Proof.
  reflexivity.
Qed.

Lemma mca_index_none (y : string) :
  no_mca y = true -> _get_mca_index_in_name ("/" ++ y) = None.
Proof.
  intros Hy. unfold _get_mca_index_in_name, re_match.
  assert (H : run (L"/" ;; Star not_newline ;; L"/mca_" ;; Grp "1" D+ ;; Star not_digit)
                  ("/" ++ y) = []).
  { rewrite run_seq.
    change (run (L"/") ("/" ++ y)) with [(y, @nil (string * string))].
    cbn [flat_map fst snd app]. rewrite app_nil_r, run_seq.
    match goal with
    | |- map ?f ?l = [] => assert (Hl : l = []); [|now rewrite Hl]
    end.
    apply flat_map_all_nil. intros [u c] Hin.
    change (run (Star not_newline) y)
      with (map (fun rest => (rest, @nil (string * string))) (star not_newline y)) in Hin.
    apply in_map_iff in Hin. destruct Hin as [u' [Hu Hin]]. injection Hu as Hu1 Hu2. subst u' c.
    cbn [fst].
    assert (Hsw : startswith u "/mca_" = false).
    { destruct (star_last not_newline y) as [init [Hinit Hpre]].
      rewrite Hinit in Hin. apply in_app_or in Hin. destruct Hin as [Hin|[<-|[]]].
      - destruct (Hpre u Hin) as [pre [_ ->]]. now apply (@no_mca_suffix pre u).
      - now apply (@no_mca_suffix EmptyString y). }
    rewrite run_seq, (run_lit_mismatch "/mca_" u eq_refl Hsw). reflexivity. }
  now rewrite H.
Qed.

(** *** Trailing characters *)

Lemma rstrip_slash_app (x y : string) :
  nonempty y = true -> rstrip_slash y = y -> rstrip_slash (x ++ y) = (x ++ y)%string.
Proof.
  intros Hne Hy. induction x as [|c x IH]; [exact Hy|].
  cbn [append rstrip_slash]. rewrite IH.
  destruct x as [|c' x]; [|reflexivity]. cbn [append]. now destruct y.
Qed.

Lemma rstrip_slash_digits (s : string) : all_chars is_digit s = true -> rstrip_slash s = s.
Proof.
  induction s as [|c s IH]; [reflexivity|]. intros H. simpl in H.
  apply andb_prop in H. destruct H as [Hc Hs].
  cbn [rstrip_slash]. rewrite (IH Hs).
  destruct s as [|c' s]; [|reflexivity].
  pose proof (digit_not_slash c Hc) as Hn. unfold not_slash in Hn.
  apply negb_true_iff in Hn. now rewrite Hn.
Qed.

Lemma rev_string_last (acc x : string) (c : ascii) :
  rev_string acc (x ++ String c EmptyString) = String c (rev_string acc x).
Proof.
  revert acc. induction x as [|h x IH]; intros acc; [reflexivity|].
  cbn [append rev_string]. apply IH.
Qed.

Lemma last_digit (s : string) :
  digits s = true -> exists s' c, s = (s' ++ String c EmptyString)%string /\ is_digit c = true.
Proof.
  intros H. destruct (digits_parts s H) as [Hne Hs]. clear H.
  induction s as [|c s IH]; [discriminate|].
  simpl in Hs. apply andb_prop in Hs. destruct Hs as [Hc Hs].
  destruct s as [|c' s].
  - exists EmptyString, c. now split.
  - destruct (IH eq_refl Hs) as [s' [l [E Hl]]].
    exists (String c s'), l. split; [|exact Hl]. cbn [append]. now rewrite <- E.
Qed.

(** A path that ends with a digit does not end with the name of a timing
    dataset. *)
Lemma endswith_time_digits (x s : string) :
  digits s = true ->
  endswith (x ++ s) "preset_time" || endswith (x ++ s) "elapsed_time" ||
  endswith (x ++ s) "live_time" = false.
Proof.
  intros H. destruct (last_digit s H) as [s' [c [-> Hc]]].
  rewrite <- append_assoc. unfold endswith. rewrite rev_string_last.
  cbn [rev_string startswith].
  now rewrite !(Ascii.eqb_sym c "e"), !(digit_not "e" c eq_refl Hc).
Qed.

(** ** Membership and indexing *)

Lemma startswith_slash (s : string) : startswith ("/" ++ s) "/" = true.
Proof.
  cbn. now destruct s.
Qed.

Lemma not_root_name (s : string) : nonempty s = true -> String.eqb ("/" ++ s) "/" = false.
Proof.
  destruct s; [discriminate | reflexivity].
Qed.

Lemma nonempty_app (x y : string) : nonempty x = true -> nonempty (x ++ y) = true.
Proof.
  destruct x; [discriminate | reflexivity].
Qed.

Lemma digits_start (s rest : string) :
  digits s = true -> startswith (s ++ rest) "/" = false.
Proof.
  intros H. destruct (digits_parts s H) as [Hne Hs].
  destruct s as [|c s]; [discriminate|]. simpl in Hs. apply andb_prop in Hs.
  destruct Hs as [Hc _]. cbn [append startswith].
  now rewrite Ascii.eqb_sym, (digit_not "/" c eq_refl Hc).
Qed.

Lemma mca_analyser_in_scan_value (sf : SpecFile) (key : string) (scan : Scan) (i : nat) :
  dict_get (sf_scans sf) key = Some scan ->
  fst (data_shape scan) <> 0%nat ->
  (length (spectra (mca scan)) mod fst (data_shape scan) = 0)%nat ->
  _mca_analyser_in_scan sf (Some key) i =
    Ok (i <? length (spectra (mca scan)) / fst (data_shape scan))%nat.
Proof.
  intros Hscan Hn Hmod. unfold _mca_analyser_in_scan, sf_contains, sf_getitem.
  rewrite (dict_has_get _ _ Hscan), Hscan. cbn [negb bind].
  unfold py_mod, py_floordiv. apply Nat.eqb_neq in Hn. rewrite Hn. cbn [bind].
  now rewrite Hmod.
Qed.

Section Resolution.

Variable py_float : string -> result float.
Variable sf : SpecFile.

(** A relative key is looked up as the absolute path it resolves to. *)
Lemma contains_relative (self : Group) (key path : string) :
  startswith key "/" = false ->
  (rstrip_slash (g_name self) ++ "/" ++ key)%string = ("/" ++ path)%string ->
  __contains__ sf self key = __contains__ sf (SpecFileH5 sf) ("/" ++ path).
Proof.
  intros Hkey Hpath. unfold __contains__ at 1 2. rewrite Hkey, Hpath.
  rewrite (startswith_slash path). cbn [g_name SpecFileH5].
  now rewrite (startswith_slash path).
Qed.

Lemma getitem_relative (self : Group) (key path : string) :
  startswith key "/" = false ->
  (rstrip_slash (g_name self) ++ "/" ++ key)%string = ("/" ++ path)%string ->
  __getitem__ py_float sf self key = __getitem__ py_float sf (SpecFileH5 sf) ("/" ++ path).
Proof.
  intros Hkey Hpath. unfold __getitem__ at 1 2. rewrite Hkey, Hpath.
  rewrite (startswith_slash path). cbn [g_name SpecFileH5 negb].
  now rewrite (startswith_slash path).
Qed.

End Resolution.

Ltac reassoc :=
  cbn [append]; repeat (rewrite !append_assoc; cbn [append]); reflexivity.

Lemma resolve_in_scan (a b y key : string) :
  nonempty y = true -> rstrip_slash y = y ->
  (rstrip_slash ("/" ++ a ++ "." ++ b ++ y) ++ "/" ++ key)%string =
  ("/" ++ a ++ "." ++ b ++ y ++ "/" ++ key)%string.
Proof.
  intros Hne Hy.
  replace ("/" ++ a ++ "." ++ b ++ y)%string with (("/" ++ a ++ "." ++ b) ++ y)%string.
  - rewrite (@rstrip_slash_app ("/" ++ a ++ "." ++ b) y Hne Hy). reassoc.
  - reassoc.
Qed.

Section Groups.

Variable py_float : string -> result float.
Variable sf : SpecFile.
Variables a b : string.
Hypothesis Ha : digits a = true.
Hypothesis Hb : digits b = true.
Variable scan : Scan.
Hypothesis Hscan : dict_get (sf_scans sf) (a ++ "." ++ b) = Some scan.

Lemma group_init_in_scan (cls : group_class) (rest : string) :
  stops is_digit rest = true ->
  SpecFileH5Group_init cls ("/" ++ a ++ "." ++ b ++ rest) sf =
    Ok {| g_class := cls; g_name := "/" ++ a ++ "." ++ b ++ rest;
          g_attrs := _get_attrs_dict ("/" ++ a ++ "." ++ b ++ rest);
          g_scan := Some scan |}.
Proof.
  intros Hrest. unfold SpecFileH5Group_init.
  rewrite not_root_name by (apply nonempty_app; now destruct (digits_parts a Ha)).
  cbn [negb]. rewrite (@scan_key_in_path a b Ha Hb rest Hrest). unfold sf_getitem. now rewrite Hscan.
Qed.

Lemma mca_index_of_analyser (i : nat) :
  _get_mca_index_in_name ("/" ++ a ++ "." ++ b ++ "/instrument/mca_" ++ str_of_nat i) = Some i.
Proof.
  pose proof (@mca_index_path (a ++ "." ++ b ++ "/instrument") (str_of_nat i) EmptyString)
    as H.
  rewrite int_of_str_of_nat, append_empty_r in H.
  replace ("/" ++ (a ++ "." ++ b ++ "/instrument") ++ "/mca_" ++ str_of_nat i)%string
    with ("/" ++ a ++ "." ++ b ++ "/instrument/mca_" ++ str_of_nat i)%string in H
    by reassoc.
  apply H; try reflexivity; [|apply digits_str_of_nat].
  destruct (digits_parts a Ha) as [_ Ha']. destruct (digits_parts b Hb) as [_ Hb'].
  rewrite all_chars_app, (digits_not_newline a Ha'). cbn [andb].
  change ("." ++ b ++ "/instrument")%string with (String "." (b ++ "/instrument")).
  cbn [all_chars]. rewrite all_chars_app, (digits_not_newline b Hb').
  reflexivity.
Qed.

Lemma analyser_in_root (i : nat) :
  fst (data_shape scan) <> 0%nat ->
  (length (spectra (mca scan)) mod fst (data_shape scan) = 0)%nat ->
  __contains__ sf (SpecFileH5 sf)
    ("/" ++ a ++ "." ++ b ++ "/instrument/mca_" ++ str_of_nat i) =
    Ok (i <? length (spectra (mca scan)) / fst (data_shape scan))%nat /\
  __getitem__ py_float sf (SpecFileH5 sf)
    ("/" ++ a ++ "." ++ b ++ "/instrument/mca_" ++ str_of_nat i) =
    Ok (MGroup {| g_class := ClsGroup;
                  g_name := "/" ++ a ++ "." ++ b ++ "/instrument/mca_" ++ str_of_nat i;
                  g_attrs := Some [("NX_class", "NXdetector")];
                  g_scan := Some scan |}).
Proof.
  intros Hn Hmod.
  pose proof (digits_str_of_nat i) as Hd.
  destruct (heads_re_match (@heads_instrument_mca_group a b (str_of_nat i) Ha Hb Hd)) as [_ Hm].
  pose proof (mca_index_of_analyser i) as Hidx.
  pose proof (@scan_key_in_path a b Ha Hb ("/instrument/mca_" ++ str_of_nat i) eq_refl) as Hkey.
  pose proof (endswith_time_digits ("/" ++ a ++ "." ++ b ++ "/instrument/mca_") (str_of_nat i) Hd)
    as Hend.
  replace (("/" ++ a ++ "." ++ b ++ "/instrument/mca_") ++ str_of_nat i)%string
    with ("/" ++ a ++ "." ++ b ++ "/instrument/mca_" ++ str_of_nat i)%string in Hend
    by reassoc.
  pose proof (attrs_dict_cases ("/" ++ a ++ "." ++ b ++ "/instrument/mca_" ++ str_of_nat i))
    as (_ & _ & _ & _ & _ & Hattrs & _).
  specialize (Hattrs Hm).
  pose proof (group_init_in_scan ClsGroup ("/instrument/mca_" ++ str_of_nat i) eq_refl) as Hinit.
  rewrite Hattrs in Hinit.
  set (path := ("/" ++ a ++ "." ++ b ++ "/instrument/mca_" ++ str_of_nat i)%string) in *.
  in_cluster path 5%nat Hm.
  assert (Hg : is_group path = true).
  { unfold is_group, _bulk_match. use_facts path. now rewrite Hm. }
  split.
  - unfold __contains__. cbn [g_name SpecFileH5].
    rewrite (startswith_slash _ : startswith path "/" = true). cbn [negb].
    rewrite Hg. cbn [negb andb]. rewrite Hkey, Hidx.
    unfold sf_contains at 1. rewrite (dict_has_get _ _ Hscan). cbn [negb].
    rewrite (@mca_analyser_in_scan_value sf (a ++ "." ++ b) scan i Hscan Hn Hmod). cbn [bind].
    destruct (i <? length (spectra (mca scan)) / fst (data_shape scan))%nat; [|reflexivity].
    cbn [negb]. unfold _get_motor_in_name, _get_data_column_label_in_name. use_facts path.
    cbn [negb bind]. now rewrite Hend.
  - unfold __getitem__. cbn [g_name SpecFileH5].
    rewrite (startswith_slash _ : startswith path "/" = true). cbn [negb bind].
    now rewrite Hg, Hinit.
Qed.

(** X17. Indexing does not test membership: an analyser index the scan does not
    have is no member of the root, and indexing returns a group for it. *)
Theorem getitem_without_membership (i : nat) :
  fst (data_shape scan) <> 0%nat ->
  (length (spectra (mca scan)) mod fst (data_shape scan) = 0)%nat ->
  (length (spectra (mca scan)) / fst (data_shape scan) <= i)%nat ->
  __contains__ sf (SpecFileH5 sf)
    ("/" ++ a ++ "." ++ b ++ "/instrument/mca_" ++ str_of_nat i) = Ok false /\
  exists g,
    __getitem__ py_float sf (SpecFileH5 sf)
      ("/" ++ a ++ "." ++ b ++ "/instrument/mca_" ++ str_of_nat i) = Ok (MGroup g) /\
    g_name g = ("/" ++ a ++ "." ++ b ++ "/instrument/mca_" ++ str_of_nat i)%string /\
    g_scan g = Some scan.
Proof.
  intros Hn Hmod Hi.
  destruct (analyser_in_root i Hn Hmod) as [Hc Hg].
  apply Nat.ltb_ge in Hi. rewrite Hi in Hc.
  split; [exact Hc|]. eexists. split; [exact Hg|]. now split.
Qed.

Lemma heads_instrument :
  Heads instrument_pattern ("/" ++ a ++ "." ++ b ++ "/instrument") EmptyString [].
Proof.
  unfold instrument_pattern.
  apply heads_scan_prefix; [assumption | assumption | reflexivity |].
  exists []. reflexivity.
Qed.

(** X18. The analyser names listed by the [instrument] group are
    [mca_0 .. mca_<n-1>] for [n] analysers; each of them is a member of the
    group and indexing with it gives the group of that analyser, whose
    index is read back from its name. *)
Theorem analyser_keys_are_members (self : Group) (n_an : nat) :
  g_class self = ClsGroup ->
  g_name self = ("/" ++ a ++ "." ++ b ++ "/instrument")%string ->
  g_scan self = Some scan ->
  fst (data_shape scan) <> 0%nat ->
  snd (data_shape scan) = length (labels scan) ->
  length (spectra (mca scan)) = (fst (data_shape scan) * n_an)%nat ->
  keys sf self =
    Ok (Some ("positioners" :: map (fun i => "mca_" ++ str_of_nat i)%string (seq 0 n_an))) /\
  forall i, (i < n_an)%nat ->
    __contains__ sf self ("mca_" ++ str_of_nat i) = Ok true /\
    exists g,
      __getitem__ py_float sf self ("mca_" ++ str_of_nat i) = Ok (MGroup g) /\
      g_name g = ("/" ++ a ++ "." ++ b ++ "/instrument/mca_" ++ str_of_nat i)%string /\
      g_scan g = Some scan /\
      _get_mca_index_in_name (g_name g) = Some i.
Proof.
  intros Hcls Hname Hself Hn Hcols Hlen.
  assert (Hmod : (length (spectra (mca scan)) mod fst (data_shape scan) = 0)%nat).
  { rewrite Hlen, Nat.mul_comm. now apply Nat.Div0.mod_mul. }
  assert (Hdiv : (length (spectra (mca scan)) / fst (data_shape scan) = n_an)%nat).
  { rewrite Hlen, Nat.mul_comm. now apply Nat.div_mul. }
  split.
  - destruct (heads_re_match heads_instrument) as [_ Hm].
    unfold keys. rewrite Hcls. unfold SpecFileH5Group_keys, self_scan. rewrite Hname, Hself.
    rewrite not_root_name by (apply nonempty_app; now destruct (digits_parts a Ha)).
    set (path := ("/" ++ a ++ "." ++ b ++ "/instrument")%string) in *.
    in_cluster path 2%nat Hm. use_facts path. cbn [bind].
    rewrite Hcols, Nat.eqb_refl. cbn [assert bind].
    unfold py_mod, py_floordiv. apply Nat.eqb_neq in Hn. rewrite Hn. cbn [bind].
    rewrite Hmod, Hdiv. cbn [Nat.eqb assert bind]. now rewrite Hm.
  - intros i Hi.
    assert (Hres : (rstrip_slash (g_name self) ++ "/" ++ "mca_" ++ str_of_nat i)%string =
                   ("/" ++ a ++ "." ++ b ++ "/instrument/mca_" ++ str_of_nat i)%string).
    { rewrite Hname, (@resolve_in_scan a b "/instrument" ("mca_" ++ str_of_nat i)) by reflexivity.
      reflexivity. }
    destruct (analyser_in_root i Hn Hmod) as [Hc Hg].
    rewrite Hdiv in Hc. apply Nat.ltb_lt in Hi. rewrite Hi in Hc.
    split.
    + rewrite (@contains_relative sf self ("mca_" ++ str_of_nat i)
                 (a ++ "." ++ b ++ "/instrument/mca_" ++ str_of_nat i) eq_refl Hres). exact Hc.
    + eexists. split.
      * rewrite (@getitem_relative py_float sf self ("mca_" ++ str_of_nat i)
                   (a ++ "." ++ b ++ "/instrument/mca_" ++ str_of_nat i) eq_refl Hres).
        exact Hg.
      * cbn [g_name g_scan]. repeat split. apply mca_index_of_analyser.
Qed.

Lemma scan_path_noslash : all_chars not_slash (a ++ "." ++ b) = true.
Proof.
  destruct (digits_parts a Ha) as [_ Ha']. destruct (digits_parts b Hb) as [_ Hb'].
  rewrite all_chars_app, (digits_noslash a Ha'). cbn [andb append all_chars].
  now rewrite (digits_noslash b Hb').
Qed.

(** X19. A scan key [<a>.<b>] of the file is a member of the root; indexing the
    root with it gives the group of the scan, whose members are the four
    static names. *)
Theorem scan_key_is_member :
  __contains__ sf (SpecFileH5 sf) (a ++ "." ++ b) = Ok true /\
  exists g,
    __getitem__ py_float sf (SpecFileH5 sf) (a ++ "." ++ b) = Ok (MGroup g) /\
    g_class g = ClsGroup /\
    g_name g = ("/" ++ a ++ "." ++ b)%string /\
    g_scan g = Some scan /\
    g_attrs g = Some [("NX_class", "NXentry")] /\
    keys sf g = Ok (Some ["title"; "start_time"; "instrument"; "measurement"]).
Proof.
  destruct (heads_re_match (@heads_scan a b Ha Hb)) as [_ Hm].
  pose proof (@scan_key_in_path a b Ha Hb EmptyString eq_refl) as Hkey.
  pose proof (group_init_in_scan ClsGroup EmptyString eq_refl) as Hinit.
  pose proof (mca_index_none (a ++ "." ++ b) (no_mca_noslash _ scan_path_noslash)) as Hidx.
  pose proof (endswith_time_digits ("/" ++ a ++ ".") b Hb) as Hend.
  pose proof (attrs_dict_cases ("/" ++ a ++ "." ++ b)) as (_ & Hattrs & _).
  specialize (Hattrs Hm).
  replace (("/" ++ a ++ ".") ++ b)%string with ("/" ++ a ++ "." ++ b)%string in Hend
    by (cbn [append]; now rewrite append_assoc).
  rewrite !append_empty_r in Hkey, Hinit.
  pose proof (@digits_start a ("." ++ b) Ha) as Hsw.
  set (path := ("/" ++ a ++ "." ++ b)%string) in *.
  in_cluster path 1%nat Hm.
  assert (Hg : is_group path = true).
  { unfold is_group, _bulk_match. use_facts path. now rewrite Hm. }
  split.
  - unfold __contains__. rewrite Hsw. cbn [g_name SpecFileH5].
    change (rstrip_slash "/" ++ "/" ++ a ++ "." ++ b)%string with path.
    rewrite Hg. cbn [negb andb]. rewrite Hkey, Hidx.
    unfold sf_contains. rewrite (dict_has_get _ _ Hscan). cbn [negb bind].
    unfold _get_motor_in_name, _get_data_column_label_in_name. use_facts path.
    cbn [negb bind]. now rewrite Hend.
  - unfold __getitem__. rewrite Hsw. cbn [g_name SpecFileH5 negb bind].
    change (rstrip_slash "/" ++ "/" ++ a ++ "." ++ b)%string with path.
    rewrite Hg, Hinit. cbn [bind]. eexists. split; [reflexivity|].
    cbn [g_class g_name g_scan g_attrs]. repeat split; try assumption.
    unfold keys, SpecFileH5Group_keys. cbn [g_class g_name].
    unfold path at 1. rewrite not_root_name by (apply nonempty_app; now destruct (digits_parts a Ha)).
    fold path. now rewrite Hm.
Qed.

Lemma motor_in_scan_value (motor : string) :
  _motor_in_scan sf (Some (a ++ "." ++ b)%string) motor = Ok (str_in motor (motor_names scan)).
Proof.
  unfold _motor_in_scan, sf_contains, sf_getitem.
  now rewrite (dict_has_get _ _ Hscan), Hscan.
Qed.

(** X20. A positioner path is a member of the root when the scan has a motor
    of that name; a name that ends like a timing dataset is a member only
    if the MCA header also has a [CTIME] line. *)
Theorem positioner_membership (motor : string) :
  nonempty motor = true -> all_chars not_slash motor = true ->
  startswith motor "mca_" = false ->
  __contains__ sf (SpecFileH5 sf) ("/" ++ a ++ "." ++ b ++ "/instrument/positioners/" ++ motor) =
    Ok (str_in motor (motor_names scan) &&
        (if endswith ("/" ++ a ++ "." ++ b ++ "/instrument/positioners/" ++ motor) "preset_time"
            || endswith ("/" ++ a ++ "." ++ b ++ "/instrument/positioners/" ++ motor) "elapsed_time"
            || endswith ("/" ++ a ++ "." ++ b ++ "/instrument/positioners/" ++ motor) "live_time"
         then dict_has (mca_header scan) "CTIME" else true)).
Proof.
  intros Hne Hns Hmca.
  pose proof (@motor_path a b motor Ha Hb Hne Hns) as Hmotor.
  assert (Hm : matches positioners_data_pattern
                 ("/" ++ a ++ "." ++ b ++ "/instrument/positioners/" ++ motor) = true).
  { unfold _get_motor_in_name in Hmotor. unfold matches.
    destruct (re_match positioners_data_pattern
                ("/" ++ a ++ "." ++ b ++ "/instrument/positioners/" ++ motor));
      [reflexivity | discriminate]. }
  pose proof (@scan_key_in_path a b Ha Hb ("/instrument/positioners/" ++ motor) eq_refl) as Hkey.
  assert (Hidx : _get_mca_index_in_name
                   ("/" ++ a ++ "." ++ b ++ "/instrument/positioners/" ++ motor) = None).
  { apply (mca_index_none (a ++ "." ++ b ++ "/instrument/positioners/" ++ motor)).
    destruct (digits_parts a Ha) as [_ Ha']. destruct (digits_parts b Hb) as [_ Hb'].
    apply no_mca_digits; [exact Ha'|].
    change ("." ++ b ++ "/instrument/positioners/" ++ motor)%string
      with (String "." (b ++ "/instrument/positioners/" ++ motor)).
    cbn [no_mca startswith]. cbn [Ascii.eqb Bool.eqb andb negb].
    apply no_mca_digits; [exact Hb'|].
    cbn [append no_mca startswith]. cbn [Ascii.eqb Bool.eqb andb negb].
    rewrite Hmca. cbn [negb andb]. now apply no_mca_noslash. }
  set (path := ("/" ++ a ++ "." ++ b ++ "/instrument/positioners/" ++ motor)%string) in *.
  in_cluster path 3%nat Hm.
  assert (Hd : is_dataset path = true).
  { unfold is_dataset, _bulk_match. use_facts path. now rewrite Hm. }
  unfold __contains__. cbn [g_name SpecFileH5].
  rewrite (startswith_slash _ : startswith path "/" = true). cbn [negb].
  rewrite Hd, andb_false_r. cbn [andb]. rewrite Hkey, Hidx, Hmotor.
  unfold sf_contains at 1. rewrite (dict_has_get _ _ Hscan). cbn [negb bind].
  rewrite motor_in_scan_value. cbn [bind].
  destruct (str_in motor (motor_names scan)); [|reflexivity]. cbn [negb andb].
  unfold _get_data_column_label_in_name. use_facts path. cbn [bind negb].
  unfold sf_getitem. rewrite Hscan. cbn [bind].
  now destruct (endswith path "preset_time" || endswith path "elapsed_time"
                || endswith path "live_time").
Qed.

Lemma heads_measurement :
  Heads measurement_group_pattern ("/" ++ a ++ "." ++ b ++ "/measurement") EmptyString [].
Proof.
  unfold measurement_group_pattern.
  apply heads_scan_prefix; [assumption | assumption | reflexivity |].
  exists []. reflexivity.
Qed.

Lemma measurement_not_mca_group :
  matches measurement_mca_group_pattern ("/" ++ a ++ "." ++ b ++ "/measurement") = false.
Proof.
  unfold measurement_mca_group_pattern.
  rewrite matches_scan_path; [reflexivity | solve_reject_end | assumption | assumption | reflexivity].
Qed.

(** X21. Listing the members of the [measurement] or the [instrument] group of
    a scan without data lines divides by zero. *)
Theorem keys_of_scan_without_lines (self : Group) (group_name : string) :
  In group_name ["measurement"; "instrument"] ->
  g_class self = ClsGroup ->
  g_name self = ("/" ++ a ++ "." ++ b ++ "/" ++ group_name)%string ->
  g_scan self = Some scan ->
  snd (data_shape scan) = length (labels scan) ->
  fst (data_shape scan) = 0%nat ->
  keys sf self = Raise ZeroDivisionError.
Proof.
  intros Hin Hcls Hname Hself Hcols Hn.
  unfold keys. rewrite Hcls. unfold SpecFileH5Group_keys, self_scan. rewrite Hname, Hself.
  rewrite not_root_name by (apply nonempty_app; now destruct (digits_parts a Ha)).
  destruct Hin as [<-|[<-|[]]].
  - destruct (heads_re_match heads_measurement) as [_ Hm].
    pose proof measurement_not_mca_group as Hno.
    change ("/" ++ a ++ "." ++ b ++ "/" ++ "measurement")%string
      with ("/" ++ a ++ "." ++ b ++ "/measurement")%string.
    set (path := ("/" ++ a ++ "." ++ b ++ "/measurement")%string) in *.
    in_cluster path 4%nat Hm. use_facts path. cbn [bind].
    rewrite Hcols, Nat.eqb_refl. cbn [assert bind].
    unfold py_mod. now rewrite Hn.
  - destruct (heads_re_match heads_instrument) as [_ Hm].
    change ("/" ++ a ++ "." ++ b ++ "/" ++ "instrument")%string
      with ("/" ++ a ++ "." ++ b ++ "/instrument")%string.
    set (path := ("/" ++ a ++ "." ++ b ++ "/instrument")%string) in *.
    in_cluster path 2%nat Hm. use_facts path. cbn [bind].
    rewrite Hcols, Nat.eqb_refl. cbn [assert bind].
    unfold py_mod. now rewrite Hn.
Qed.

End Groups.

(** ** Column labels *)

Lemma accepts_seq_nil (e : string -> bool) (r1 r2 : regex) (s : string) (k : string -> bool) :
  run r1 s = [] -> accepts is_end (Seq r1 r2) s k = false.
Proof.
  intros H. now rewrite accepts_run, run_seq, H.
Qed.

Lemma not_mca_group_label (a b label : string) :
  digits a = true -> digits b = true -> startswith label "mca_" = false ->
  matches measurement_mca_group_pattern ("/" ++ a ++ "." ++ b ++ "/measurement/" ++ label) = false.
Proof.
  intros Ha Hb Hl. unfold measurement_mca_group_pattern.
  rewrite matches_scan_path; [| solve_reject_end | assumption | assumption | reflexivity].
  apply (accepts_seq_nil is_end). apply run_lit_mismatch; [reflexivity|].
  cbn [append startswith]. cbn [Ascii.eqb Bool.eqb andb]. exact Hl.
Qed.

(** X22. The label of a column path is read back from it; a label of the form
    [mca_<digits>] is not, since its path is that of an MCA group. *)
Theorem column_label_of_path (a b label : string) :
  digits a = true -> digits b = true ->
  nonempty label = true -> all_chars not_slash label = true ->
  (startswith label "mca_" = false ->
   _get_data_column_label_in_name ("/" ++ a ++ "." ++ b ++ "/measurement/" ++ label) =
     Some label) /\
  (forall d, digits d = true -> label = ("mca_" ++ d)%string ->
   _get_data_column_label_in_name ("/" ++ a ++ "." ++ b ++ "/measurement/" ++ label) = None).
Proof.
  intros Ha Hb Hne Hns.
  pose proof (@column_label_path a b label Ha Hb Hne Hns) as H.
  split.
  - intros Hl. now rewrite (not_mca_group_label a b label Ha Hb Hl) in H.
  - intros d Hd ->.
    destruct (heads_re_match (@heads_measurement_mca_group a b d Ha Hb Hd)) as [_ Hm].
    change ("/" ++ a ++ "." ++ b ++ "/measurement/" ++ "mca_" ++ d)%string
      with ("/" ++ a ++ "." ++ b ++ "/measurement/mca_" ++ d)%string in H |- *.
    now rewrite Hm in H.
Qed.

(** ** Membership of a column *)

Section ColumnMembership.

Variable sf : SpecFile.
Variables a b : string.
Hypothesis Ha : digits a = true.
Hypothesis Hb : digits b = true.
Variable scan : Scan.
Hypothesis Hscan : dict_get (sf_scans sf) (a ++ "." ++ b) = Some scan.

Lemma column_label_in_scan_value (label : string) :
  _column_label_in_scan sf (Some (a ++ "." ++ b)%string) label = Ok (str_in label (labels scan)).
Proof.
  unfold _column_label_in_scan, sf_contains, sf_getitem.
  now rewrite (dict_has_get _ _ Hscan), Hscan.
Qed.

(** X23. A column path is a member of the root when the scan has a column of
    that label; a label that ends like a timing dataset is a member only if
    the MCA header also has a [CTIME] line. *)
Theorem column_membership (label : string) :
  nonempty label = true -> all_chars not_slash label = true ->
  startswith label "mca_" = false ->
  __contains__ sf (SpecFileH5 sf) ("/" ++ a ++ "." ++ b ++ "/measurement/" ++ label) =
    Ok (str_in label (labels scan) &&
        (if endswith ("/" ++ a ++ "." ++ b ++ "/measurement/" ++ label) "preset_time"
            || endswith ("/" ++ a ++ "." ++ b ++ "/measurement/" ++ label) "elapsed_time"
            || endswith ("/" ++ a ++ "." ++ b ++ "/measurement/" ++ label) "live_time"
         then dict_has (mca_header scan) "CTIME" else true)).
Proof.
  intros Hne Hns Hmca.
  pose proof (@column_label_path a b label Ha Hb Hne Hns) as Hlabel.
  pose proof (@not_mca_group_label a b label Ha Hb Hmca) as Hno.
  rewrite Hno in Hlabel.
  assert (Hm : matches measurement_data_pattern
                 ("/" ++ a ++ "." ++ b ++ "/measurement/" ++ label) = true).
  { unfold _get_data_column_label_in_name in Hlabel. rewrite Hno in Hlabel. unfold matches.
    destruct (re_match measurement_data_pattern
                ("/" ++ a ++ "." ++ b ++ "/measurement/" ++ label));
      [reflexivity | discriminate]. }
  pose proof (@scan_key_in_path a b Ha Hb ("/measurement/" ++ label) eq_refl) as Hkey.
  assert (Hidx : _get_mca_index_in_name
                   ("/" ++ a ++ "." ++ b ++ "/measurement/" ++ label) = None).
  { apply (mca_index_none (a ++ "." ++ b ++ "/measurement/" ++ label)).
    destruct (digits_parts a Ha) as [_ Ha']. destruct (digits_parts b Hb) as [_ Hb'].
    apply no_mca_digits; [exact Ha'|].
    change ("." ++ b ++ "/measurement/" ++ label)%string
      with (String "." (b ++ "/measurement/" ++ label)).
    cbn [no_mca startswith]. cbn [Ascii.eqb Bool.eqb andb negb].
    apply no_mca_digits; [exact Hb'|].
    cbn [append no_mca startswith]. cbn [Ascii.eqb Bool.eqb andb negb].
    rewrite Hmca. cbn [negb andb]. now apply no_mca_noslash. }
  set (path := ("/" ++ a ++ "." ++ b ++ "/measurement/" ++ label)%string) in *.
  in_cluster path 4%nat Hm.
  assert (Hd : is_dataset path = true).
  { unfold is_dataset, _bulk_match. use_facts path. now rewrite Hm. }
  unfold __contains__. cbn [g_name SpecFileH5].
  rewrite (startswith_slash _ : startswith path "/" = true). cbn [negb].
  rewrite Hd, andb_false_r. cbn [andb]. rewrite Hkey, Hidx, Hlabel.
  unfold sf_contains at 1. rewrite (dict_has_get _ _ Hscan). cbn [negb bind].
  unfold _get_motor_in_name. use_facts path. cbn [negb bind].
  rewrite column_label_in_scan_value. cbn [bind].
  destruct (str_in label (labels scan)); [|reflexivity]. cbn [negb andb].
  unfold sf_getitem. rewrite Hscan. cbn [bind].
  now destruct (endswith path "preset_time" || endswith path "elapsed_time"
                || endswith path "live_time").
Qed.

End ColumnMembership.

(** ** The [CTIME] line *)

Lemma split_ws_space (s : string) : split_ws (String " " s) = split_ws s.
Proof.
  reflexivity.
Qed.

Lemma split_ws_cons (c : ascii) (s' : string) :
  split_ws (String c s') =
    if is_space c then split_ws s'
    else match s' with
         | EmptyString => [String c EmptyString]
         | String c' _ =>
             if is_space c' then String c EmptyString :: split_ws s'
             else match split_ws s' with
                  | t :: ts => String c t :: ts
                  | [] => [String c EmptyString]
                  end
         end.
Proof.
  reflexivity.
Qed.

Lemma split_ws_token (t s : string) :
  token t = true -> split_ws (t ++ " " ++ s) = t :: split_ws s.
Proof.
  unfold token. intros H. apply andb_prop in H. destruct H as [Hne Ht].
  induction t as [|c t IH]; [discriminate|].
  cbn [all_chars] in Ht. apply andb_prop in Ht. destruct Ht as [Hc Ht].
  apply negb_true_iff in Hc.
  destruct t as [|c' t].
  - change (String c EmptyString ++ " " ++ s)%string with (String c (String " " s)).
    rewrite split_ws_cons, Hc. cbv iota. change (is_space " ") with true. cbv iota.
    now rewrite split_ws_space.
  - specialize (IH eq_refl Ht).
    pose proof Ht as Ht'. cbn [all_chars] in Ht'. apply andb_prop in Ht'.
    destruct Ht' as [Hc' _]. apply negb_true_iff in Hc'.
    change (String c (String c' t) ++ " " ++ s)%string
      with (String c (String c' (t ++ " " ++ s))).
    rewrite split_ws_cons, Hc. cbv iota. rewrite Hc'.
    change (String c' (t ++ " " ++ s)) with (String c' t ++ " " ++ s)%string.
    now rewrite IH.
Qed.

Lemma split_ws_last (t : string) : token t = true -> split_ws t = [t].
Proof.
  unfold token. intros H. apply andb_prop in H. destruct H as [Hne Ht].
  induction t as [|c t IH]; [discriminate|].
  cbn [all_chars] in Ht. apply andb_prop in Ht. destruct Ht as [Hc Ht].
  apply negb_true_iff in Hc.
  destruct t as [|c' t].
  - rewrite split_ws_cons. now rewrite Hc.
  - specialize (IH eq_refl Ht).
    pose proof Ht as Ht'. cbn [all_chars] in Ht'. apply andb_prop in Ht'.
    destruct Ht' as [Hc' _]. apply negb_true_iff in Hc'.
    rewrite split_ws_cons, Hc. cbv iota. rewrite Hc'. now rewrite IH.
Qed.

Lemma lstrip_chars_app (chars p s : string) :
  all_chars (fun c => char_in c chars) p = true ->
  lstrip_chars chars (p ++ s) = lstrip_chars chars s.
Proof.
  induction p as [|c p IH]; [reflexivity|]. intros H.
  cbn [all_chars] in H. apply andb_prop in H. destruct H as [Hc Hp].
  cbn [append lstrip_chars]. rewrite Hc. now apply IH.
Qed.

Lemma lstrip_chars_stop (chars s : string) :
  stops (fun c => char_in c chars) s = true -> lstrip_chars chars s = s.
Proof.
  destruct s as [|c s]; [reflexivity|]. cbn [stops lstrip_chars]. intros H.
  apply negb_true_iff in H. now rewrite H.
Qed.

(** X24. The three numbers of a [CTIME] line are read in order; the line may
    start with any run of the characters of ["@CTIME "], which is dropped
    before the numbers are split at white space. *)
Theorem parse_ctime_line (py_float : string -> result float) (p t1 t2 t3 : string) :
  all_chars (fun c => char_in c "@CTIME ") p = true ->
  stops (fun c => char_in c "@CTIME ") t1 = true ->
  token t1 = true -> token t2 = true -> token t3 = true ->
  _parse_ctime py_float (p ++ t1 ++ " " ++ t2 ++ " " ++ t3) =
    let! preset := py_float t1 in
    let! live := py_float t2 in
    let! elapsed := py_float t3 in
    Ok (preset, live, elapsed).
Proof.
  intros Hp Hstop H1 H2 H3. unfold _parse_ctime.
  rewrite (lstrip_chars_app _ _ _ Hp).
  rewrite lstrip_chars_stop.
  - now rewrite (split_ws_token _ _ H1), (split_ws_token _ _ H2), (split_ws_last _ H3).
  - unfold token in H1. apply andb_prop in H1. destruct H1 as [Hne _].
    destruct t1; [discriminate | exact Hstop].
Qed.

(** ** Dates *)

Lemma heads_days (day t : string) :
  In day days -> Heads days_rx (day ++ t) t [("day", day)].
Proof.
  intros Hin. unfold days_rx.
  pose proof (consumed_app day t) as Hc.
  assert (H : Heads (alts days) (day ++ t) t []).
  { unfold days in Hin. cbn [In] in Hin.
    destruct Hin as [<-|[<-|[<-|[<-|[<-|[<-|[<-|[]]]]]]]]; exists []; reflexivity. }
  apply (@heads_grp "day") in H. now rewrite Hc in H.
Qed.

Lemma heads_class_digit (g : string) (p : ascii -> bool) (s t : string) :
  class_digit p s = true -> Heads (Grp g (Cls p ;; Cls is_digit)) (s ++ t) t [(g, s)].
Proof.
  intros Hs. pose proof (consumed_app s t) as Hc.
  assert (H : Heads (Cls p ;; Cls is_digit) (s ++ t) t []).
  { destruct s as [|c1 [|c2 [|c3 s]]]; try discriminate.
    cbn [class_digit] in Hs. apply andb_prop in Hs. destruct Hs as [H1 H2].
    exists []. cbn [append run]. rewrite H1. cbn [flat_map fst snd run]. now rewrite H2. }
  apply (@heads_grp g) in H. now rewrite Hc in H.
Qed.

Lemma heads_year (s t : string) :
  four_digits s = true -> Heads year_rx (s ++ t) t [("year", s)].
Proof.
  intros Hs. pose proof (consumed_app s t) as Hc. unfold year_rx.
  assert (H : Heads (Cls is_digit ;; Cls is_digit ;; Cls is_digit ;; Cls is_digit) (s ++ t) t []).
  { destruct s as [|c1 [|c2 [|c3 [|c4 [|c5 s]]]]]; try discriminate.
    cbn [four_digits] in Hs. apply andb_prop in Hs. destruct Hs as [Hs H4].
    apply andb_prop in Hs. destruct Hs as [Hs H3].
    apply andb_prop in Hs. destruct Hs as [H1 H2].
    exists []. cbn [append run]. rewrite H1. cbn [flat_map fst snd run]. rewrite H2.
    cbn [flat_map fst snd run map app]. rewrite H3.
    cbn [flat_map fst snd run map app]. now rewrite H4. }
  apply (@heads_grp "year") in H. now rewrite Hc in H.
Qed.

Lemma heads_no_tz (rest : string) :
  stops sign_char rest = true -> Heads tz_rx rest rest [].
Proof.
  intros H. unfold tz_rx. apply heads_opt_skip.
  destruct rest as [|c rest]; [reflexivity|].
  cbn [stops] in H. apply negb_true_iff in H. cbn [run]. now rewrite H.
Qed.

Lemma first_layout_rejects (day year t : string) :
  In day days -> four_digits year = true ->
  re_match (days_rx ;; L" " ;; months_rx ;; L" " ;; day_nb_rx ;; L" " ;;
            hh_rx ;; L":" ;; mm_rx ;; L":" ;; ss_rx ;; tz_rx ;; L" " ;; year_rx)
           (day ++ " " ++ year ++ t) = None.
Proof.
  intros Hin Hy. apply matches_false_re_match. rewrite matches_accepts.
  destruct year as [|c1 year]; [discriminate|].
  assert (Hc : is_digit c1 = true).
  { destruct year as [|c2 [|c3 [|c4 [|c5 s]]]]; try discriminate.
    cbn [four_digits] in Hy. apply andb_prop in Hy. destruct Hy as [Hy _].
    apply andb_prop in Hy. destruct Hy as [Hy _].
    apply andb_prop in Hy. now destruct Hy. }
  unfold days in Hin. cbn [In] in Hin.
  destruct Hin as [<-|[<-|[<-|[<-|[<-|[<-|[<-|[]]]]]]]];
    cbn; kill_digit c1 Hc; reflexivity.
Qed.

(** X25. A date of the numeric layout [<day> YYYY/MM/DD hh:mm:ss] is rewritten
    field by field: the fields are taken as they are (the pattern tests
    the first character of each two-digit field only), what follows the
    seconds is ignored, and the zone given by the caller is appended. *)
Theorem date_numeric_layout (day year month day_nb hh mm ss rest : string)
        (zone : option string) :
  In day days ->
  four_digits year = true ->
  class_digit (in_range "0" "1") month = true ->
  class_digit (in_range "0" "3") day_nb = true ->
  class_digit (in_range "0" "2") hh = true ->
  class_digit (in_range "0" "5") mm = true ->
  class_digit (in_range "0" "5") ss = true ->
  stops sign_char rest = true ->
  spec_date_to_iso8601
    (day ++ " " ++ year ++ "/" ++ month ++ "/" ++ day_nb ++ " " ++
     hh ++ ":" ++ mm ++ ":" ++ ss ++ rest) zone =
  Ok (year ++ "-" ++ month ++ "-" ++ day_nb ++ "T" ++ hh ++ ":" ++ mm ++ ":" ++ ss ++
      match zone with Some z => z | None => EmptyString end)%string.
Proof.
  intros Hday Hyear Hmonth Hdaynb Hhh Hmm Hss Hrest.
  pose proof (@first_layout_rejects day year
                ("/" ++ month ++ "/" ++ day_nb ++ " " ++ hh ++ ":" ++ mm ++ ":" ++ ss ++ rest)
                Hday Hyear) as H1.
  assert (H2 : Heads (days_rx ;; L" " ;; year_rx ;; L"/" ;; month_nb_rx ;; L"/" ;; day_nb_rx ;;
                      L" " ;; hh_rx ;; L":" ;; mm_rx ;; L":" ;; ss_rx ;; tz_rx)
                     (day ++ " " ++ year ++ "/" ++ month ++ "/" ++ day_nb ++ " " ++
                      hh ++ ":" ++ mm ++ ":" ++ ss ++ rest) rest
                     [("day", day); ("year", year); ("month_nb", month); ("day_nb", day_nb);
                      ("hh", hh); ("mm", mm); ("ss", ss)]).
  { apply (@heads_seq _ _ _ _ _ [("day", day)] _ (@heads_days day _ Hday)).
    apply (@heads_seq _ _ _ _ _ [] _ (@heads_lit " " _ eq_refl)).
    apply (@heads_seq _ _ _ _ _ [("year", year)] _ (@heads_year year _ Hyear)).
    apply (@heads_seq _ _ _ _ _ [] _ (@heads_lit "/" _ eq_refl)).
    apply (@heads_seq _ _ _ _ _ [("month_nb", month)] _ (@heads_class_digit "month_nb" _ _ _ Hmonth)).
    apply (@heads_seq _ _ _ _ _ [] _ (@heads_lit "/" _ eq_refl)).
    apply (@heads_seq _ _ _ _ _ [("day_nb", day_nb)] _ (@heads_class_digit "day_nb" _ _ _ Hdaynb)).
    apply (@heads_seq _ _ _ _ _ [] _ (@heads_lit " " _ eq_refl)).
    apply (@heads_seq _ _ _ _ _ [("hh", hh)] _ (@heads_class_digit "hh" _ _ _ Hhh)).
    apply (@heads_seq _ _ _ _ _ [] _ (@heads_lit ":" _ eq_refl)).
    apply (@heads_seq _ _ _ _ _ [("mm", mm)] _ (@heads_class_digit "mm" _ _ _ Hmm)).
    apply (@heads_seq _ _ _ _ _ [] _ (@heads_lit ":" _ eq_refl)).
    apply (@heads_seq _ _ _ _ _ [("ss", ss)] [] (@heads_class_digit "ss" _ _ _ Hss)).
    now apply heads_no_tz. }
  apply heads_re_match in H2. destruct H2 as [H2 _].
  unfold spec_date_to_iso8601, re_tpls. rewrite H1, H2.
  unfold grp_item, group. cbn [dict_get String.eqb Ascii.eqb Bool.eqb bind].
  destruct zone as [z|]; f_equal;
    repeat (rewrite !append_assoc; cbn [append]); reflexivity.
Qed.

(** ** Instances on the sample files *)

Lemma visit_calls_no_link_witness :
  exists new,
    (all_of_scan_1_1 ++
     ["/1.1/measurement/mca_0"; "/1.1/measurement/mca_1"; "/1.1/measurement/mca_2"] ++
     all_of_scan_2_1) = [] ++ new /\
    forallb (fun n => negb (is_link_to_dataset n) && negb (is_link_to_group n)) new = true.
Proof.
  apply (@visit_calls_no_link no_float nat sample_file (fun _ => None) 4
           (SpecFileH5 sample_file) [] None).
  vm_compute. reflexivity.
Defined.

Lemma visititems_calls_no_link_to_dataset_witness :
  exists new,
    (all_of_scan_1_1 ++
     ["/1.1/measurement/mca_0"; "/1.1/measurement/mca_0/info";
      "/1.1/measurement/mca_1"; "/1.1/measurement/mca_1/info";
      "/1.1/measurement/mca_2"; "/1.1/measurement/mca_2/info"] ++
     all_of_scan_2_1) = [] ++ new /\
    forallb (fun n => negb (is_link_to_dataset n)) new = true.
Proof.
  apply (@visititems_calls_no_link_to_dataset no_float nat sample_file (fun _ _ => None) 4
           (SpecFileH5 sample_file) [] None).
  vm_compute. reflexivity.
Defined.

Lemma visit_value_of_member_witness :
  exists ks key member,
    keys sample_file (SpecFileH5 sample_file) = Ok (Some ks) /\ In key ks /\
    __getitem__ no_float sample_file (SpecFileH5 sample_file) key = Ok member /\
    stop_at "/2.1" (member_name member) = Some 42%nat /\
    last (all_of_scan_1_1 ++
          ["/1.1/measurement/mca_0"; "/1.1/measurement/mca_1"; "/1.1/measurement/mca_2";
           "/2.1"]) EmptyString = member_name member.
Proof.
  apply (@visit_value_of_member no_float nat sample_file (stop_at "/2.1") 4
           (SpecFileH5 sample_file) [] 42%nat).
  vm_compute. reflexivity.
Defined.

Lemma visit_visititems_names_witness :
  exists new,
    (all_of_scan_1_1 ++
     ["/1.1/measurement/mca_0"; "/1.1/measurement/mca_0/info";
      "/1.1/measurement/mca_1"; "/1.1/measurement/mca_1/info";
      "/1.1/measurement/mca_2"; "/1.1/measurement/mca_2/info"] ++
     all_of_scan_2_1) = [] ++ new /\
    visit no_float 4 sample_file (SpecFileH5 sample_file) (fun _ => @None nat) [] =
      Returned None ([] ++ filter (fun n => negb (is_link_to_group n)) new).
Proof.
  apply (@visit_visititems_names no_float nat sample_file 4 (SpecFileH5 sample_file) [] [] None).
  vm_compute. reflexivity.
Defined.

Lemma demultiplex_any_index_witness :
  exists rows,
    _demultiplex_mca six_spectra_scan 4 = Ok rows /\
    length rows = (2 - 4 / 3)%nat /\
    (forall j, (j < 2 - 4 / 3)%nat ->
               nth_error rows j = nth_error (spectra (mca six_spectra_scan)) (4 + j * 3)) /\
    ((2 * 3 <= 4)%nat -> rows = []).
Proof.
  apply (@demultiplex_any_index six_spectra_scan 4 2 3); [reflexivity | lia | lia | reflexivity].
Defined.

Lemma demultiplex_covers_witness :
  exists rows,
    _demultiplex_mca six_spectra_scan (4 mod 3) = Ok rows /\
    length rows = 2%nat /\
    nth_error rows (4 / 3) = nth_error (spectra (mca six_spectra_scan)) 4.
Proof.
  apply (@demultiplex_covers six_spectra_scan 4 2 3); [reflexivity | reflexivity | lia].
Defined.

Lemma scan_key_of_path_witness :
  _get_scan_key_in_name ("/" ++ "12" ++ "." ++ "3" ++ "/measurement/mca_0/info/") = Some "12.3".
Proof.
  apply (@scan_key_of_path "12" "3" "/measurement/mca_0/info/"); reflexivity.
Defined.

Lemma motor_of_path_witness :
  _get_motor_in_name ("/" ++ "1" ++ "." ++ "1" ++ "/instrument/positioners/" ++ "MRTSlit UP") =
    Some "MRTSlit UP".
Proof.
  apply (@motor_of_path "1" "1" "MRTSlit UP"); reflexivity.
Defined.

Lemma column_label_of_path_witness :
  _get_data_column_label_in_name ("/" ++ "1" ++ "." ++ "1" ++ "/measurement/" ++ "Seconds") =
    Some "Seconds" /\
  _get_data_column_label_in_name ("/" ++ "1" ++ "." ++ "1" ++ "/measurement/" ++ "mca_0") = None.
Proof.
  split.
  - apply (@column_label_of_path "1" "1" "Seconds"); reflexivity.
  - apply (proj2 (@column_label_of_path "1" "1" "mca_0" eq_refl eq_refl eq_refl eq_refl) "0");
      reflexivity.
Defined.

Lemma mca_index_of_path_witness :
  _get_mca_index_in_name ("/" ++ "1.1/measurement" ++ "/mca_" ++ "12" ++ "/info/data") =
    Some (int_of_digits "12").
Proof.
  apply (@mca_index_of_path "1.1/measurement" "12" "/info/data"); reflexivity.
Defined.

Lemma attrs_of_categories_witness :
  _get_attrs_dict "/1.1/measurement/mca_0/info" = Some [("NX_class", "NXdetector")].
Proof.
  destruct (attrs_of_categories "/1.1/measurement/mca_0/info") as (_ & _ & _ & _ & _ & _ & H & _).
  apply H. reflexivity.
Defined.

Lemma mca_link_same_data_witness :
  match _link_to_dataset_builder no_float
          ("/" ++ "1" ++ "." ++ "1" ++ "/measurement/mca_" ++ "2" ++ "/data") sample_file,
        _dataset_builder no_float
          ("/" ++ "1" ++ "." ++ "1" ++ "/instrument/mca_" ++ "2" ++ "/data") sample_file
  with
  | Ok link, Ok target =>
      ds_array link = ds_array target /\ ds_attrs link = ds_attrs target /\
      ds_class link = ClsLinkToDataset /\ ds_class target = ClsDataset
  | Raise e, Raise e' => e = e'
  | _, _ => False
  end.
Proof.
  apply (@mca_link_same_data no_float sample_file "1" "1" "2"); reflexivity.
Defined.

Lemma header_datasets_witness :
  _dataset_builder no_float ("/" ++ "1" ++ "." ++ "1" ++ "/title") sample_file =
    match dict_get (scan_header sample_scan1) "S" with
    | Some s => SpecFileH5Dataset ClsDataset (PyStr s) ("/" ++ "1" ++ "." ++ "1" ++ "/title")
    | None => Raise KeyError
    end /\
  _dataset_builder no_float ("/" ++ "1" ++ "." ++ "1" ++ "/start_time") sample_file =
    match dict_get (scan_header sample_scan1) "D", dict_get (file_header sample_scan1) "D" with
    | Some date, _ | None, Some date =>
        let! iso := spec_date_to_iso8601 date None in
        SpecFileH5Dataset ClsDataset (PyStr iso) ("/" ++ "1" ++ "." ++ "1" ++ "/start_time")
    | None, None => Raise KeyError
    end.
Proof.
  apply (@header_datasets no_float sample_file "1" "1" eq_refl eq_refl sample_scan1).
  reflexivity.
Defined.

Lemma timing_datasets_witness :
  _dataset_builder digit_float "/1.1/instrument/mca_0/preset_time" ctime_file =
    SpecFileH5Dataset ClsDataset (PyFloat (fl 1)) "/1.1/instrument/mca_0/preset_time" /\
  _dataset_builder digit_float "/1.1/instrument/mca_0/live_time" ctime_file =
    SpecFileH5Dataset ClsDataset (PyFloat (fl 2)) "/1.1/instrument/mca_0/live_time" /\
  _dataset_builder digit_float "/1.1/instrument/mca_0/elapsed_time" ctime_file =
    SpecFileH5Dataset ClsDataset (PyFloat (fl 3)) "/1.1/instrument/mca_0/elapsed_time".
Proof.
  exact (@timing_datasets digit_float ctime_file "1" "1" "0" eq_refl eq_refl eq_refl
           ctime_scan eq_refl).
Defined.

Lemma info_link_members_witness :
  is_link_to_dataset ("/" ++ "1" ++ "." ++ "1" ++ "/measurement/mca_" ++ "0" ++ "/info/" ++ "data")
    = true /\
  exists e, _link_to_dataset_builder no_float
              ("/" ++ "1" ++ "." ++ "1" ++ "/measurement/mca_" ++ "0" ++ "/info/" ++ "data")
              sample_file = Raise e.
Proof.
  destruct (@info_link_members no_float sample_file "1" "1" "0" eq_refl eq_refl eq_refl
              sample_scan1 eq_refl "data" eq_refl eq_refl) as [Hlink [_ [_ Hraise]]].
  split; [exact Hlink|]. apply Hraise; discriminate.
Defined.

Lemma mca_data_without_spectra_witness :
  _dataset_builder no_float
    ("/" ++ "2" ++ "." ++ "1" ++ "/instrument/mca_" ++ "0" ++ "/data") sample_file =
    Raise ValueError /\
  _link_to_dataset_builder no_float
    ("/" ++ "2" ++ "." ++ "1" ++ "/measurement/mca_" ++ "0" ++ "/data") sample_file =
    Raise ValueError.
Proof.
  apply (@mca_data_without_spectra no_float sample_file "2" "1" "0" eq_refl eq_refl eq_refl
           sample_scan2); reflexivity.
Defined.

Lemma getitem_without_membership_witness :
  __contains__ sample_file (SpecFileH5 sample_file)
    ("/" ++ "1" ++ "." ++ "1" ++ "/instrument/mca_" ++ str_of_nat 7) = Ok false /\
  exists g,
    __getitem__ no_float sample_file (SpecFileH5 sample_file)
      ("/" ++ "1" ++ "." ++ "1" ++ "/instrument/mca_" ++ str_of_nat 7) = Ok (MGroup g) /\
    g_name g = ("/" ++ "1" ++ "." ++ "1" ++ "/instrument/mca_" ++ str_of_nat 7)%string /\
    g_scan g = Some sample_scan1.
Proof.
  apply (@getitem_without_membership no_float sample_file "1" "1" eq_refl eq_refl
           sample_scan1 eq_refl 7).
  - simpl. lia.
  - reflexivity.
  - simpl. lia.
Defined.

Lemma scan_key_is_member_witness :
  __contains__ sample_file (SpecFileH5 sample_file) ("2" ++ "." ++ "1") = Ok true /\
  exists g,
    __getitem__ no_float sample_file (SpecFileH5 sample_file) ("2" ++ "." ++ "1") = Ok (MGroup g) /\
    g_class g = ClsGroup /\
    g_name g = ("/" ++ "2" ++ "." ++ "1")%string /\
    g_scan g = Some sample_scan2 /\
    g_attrs g = Some [("NX_class", "NXentry")] /\
    keys sample_file g = Ok (Some ["title"; "start_time"; "instrument"; "measurement"]).
Proof.
  apply (@scan_key_is_member no_float sample_file "2" "1" eq_refl eq_refl sample_scan2).
  reflexivity.
Defined.

Lemma analyser_keys_are_members_witness :
  keys sample_file instrument_1_1 =
    Ok (Some ("positioners" :: map (fun i => "mca_" ++ str_of_nat i)%string (seq 0 3))) /\
  forall i, (i < 3)%nat ->
    __contains__ sample_file instrument_1_1 ("mca_" ++ str_of_nat i) = Ok true /\
    exists g,
      __getitem__ no_float sample_file instrument_1_1 ("mca_" ++ str_of_nat i) = Ok (MGroup g) /\
      g_name g = ("/" ++ "1" ++ "." ++ "1" ++ "/instrument/mca_" ++ str_of_nat i)%string /\
      g_scan g = Some sample_scan1 /\
      _get_mca_index_in_name (g_name g) = Some i.
Proof.
  apply (@analyser_keys_are_members no_float sample_file "1" "1" eq_refl eq_refl
           sample_scan1 eq_refl instrument_1_1 3); try reflexivity.
  simpl. lia.
Defined.

Lemma positioner_membership_witness :
  __contains__ sample_file (SpecFileH5 sample_file)
    ("/" ++ "1" ++ "." ++ "1" ++ "/instrument/positioners/" ++ "MRTSlit UP") =
    Ok (str_in "MRTSlit UP" (motor_names sample_scan1) &&
        (if endswith ("/" ++ "1" ++ "." ++ "1" ++ "/instrument/positioners/" ++ "MRTSlit UP")
                     "preset_time"
            || endswith ("/" ++ "1" ++ "." ++ "1" ++ "/instrument/positioners/" ++ "MRTSlit UP")
                        "elapsed_time"
            || endswith ("/" ++ "1" ++ "." ++ "1" ++ "/instrument/positioners/" ++ "MRTSlit UP")
                        "live_time"
         then dict_has (mca_header sample_scan1) "CTIME" else true)).
Proof.
  apply (@positioner_membership sample_file "1" "1" eq_refl eq_refl sample_scan1 eq_refl
           "MRTSlit UP"); reflexivity.
Defined.

Lemma keys_of_scan_without_lines_witness :
  keys file_without_lines measurement_3_1 = Raise ZeroDivisionError.
Proof.
  apply (@keys_of_scan_without_lines file_without_lines "3" "1" eq_refl eq_refl
           scan_without_lines measurement_3_1 "measurement"); try reflexivity.
  simpl. now left.
Defined.

Lemma column_membership_witness :
  __contains__ sample_file (SpecFileH5 sample_file)
    ("/" ++ "1" ++ "." ++ "1" ++ "/measurement/" ++ "Seconds") =
    Ok (str_in "Seconds" (labels sample_scan1) &&
        (if endswith ("/" ++ "1" ++ "." ++ "1" ++ "/measurement/" ++ "Seconds") "preset_time"
            || endswith ("/" ++ "1" ++ "." ++ "1" ++ "/measurement/" ++ "Seconds") "elapsed_time"
            || endswith ("/" ++ "1" ++ "." ++ "1" ++ "/measurement/" ++ "Seconds") "live_time"
         then dict_has (mca_header sample_scan1) "CTIME" else true)).
Proof.
  apply (@column_membership sample_file "1" "1" eq_refl eq_refl sample_scan1 eq_refl
           "Seconds"); reflexivity.
Defined.

Lemma parse_ctime_line_witness :
  _parse_ctime digit_float ("@CTIME " ++ "1" ++ " " ++ "2" ++ " " ++ "3") =
    let! preset := digit_float "1" in
    let! live := digit_float "2" in
    let! elapsed := digit_float "3" in
    Ok (preset, live, elapsed).
Proof.
  apply (@parse_ctime_line digit_float "@CTIME " "1" "2" "3"); reflexivity.
Defined.

Lemma date_numeric_layout_witness :
  spec_date_to_iso8601
    ("Sat" ++ " " ++ "2015" ++ "/" ++ "19" ++ "/" ++ "39" ++ " " ++
     "29" ++ ":" ++ "53" ++ ":" ++ "50" ++ " and more") (Some "+01:00") =
  Ok ("2015" ++ "-" ++ "19" ++ "-" ++ "39" ++ "T" ++ "29" ++ ":" ++ "53" ++ ":" ++ "50" ++
      "+01:00")%string.
Proof.
  apply (@date_numeric_layout "Sat" "2015" "19" "39" "29" "53" "50" " and more"
           (Some "+01:00")); try reflexivity.
  simpl. do 5 right. left. reflexivity.
Defined.
